(** * InsightIDR Investigation Updater: fetch, view projection, bulk updates

    A shallow embedding of [insightidr_updater.py]: the API calls
    ([list_investigations], [set_status], [set_disposition], [assign_user],
    [get_rrn], [create_comment_v1]), the comment history of [App], the sorted
    and filtered view ([_sorted_rows_current_view], [_apply_assignee_filter])
    and the worker of [update_selected_async].

    The remote API is a [Server]: a state and one handler per endpoint.  Every
    call is recorded in the order it is issued, so that "no network call" and
    "this update was applied" are statements about that record. *)

From Stdlib Require Import List ZArith Lia Bool String Ascii Arith.
From Stdlib Require Import DecimalString Permutation Sorted.
Import ListNotations.

Open Scope string_scope.
Open Scope list_scope.

Infix "+++" := String.append (at level 60, right associativity).

(** ** Python values *)

Module Py.

(** [str.isspace] for one character.  Strings are sequences of code points
    below 256; these are the ones Python counts as whitespace there. *)
Definition isspace (c : ascii) : bool :=
  let n := nat_of_ascii c in
  (((9 <=? n) && (n <=? 13)) || ((28 <=? n) && (n <=? 32))
   || (n =? 133) || (n =? 160))%nat.

Fixpoint lstrip (s : string) : string :=
  match s with
  | EmptyString => EmptyString
  | String c s' => if isspace c then lstrip s' else s
  end.

Fixpoint rstrip (s : string) : string :=
  match s with
  | EmptyString => EmptyString
  | String c s' =>
      match rstrip s' with
      | EmptyString => if isspace c then EmptyString else String c EmptyString
      | t => String c t
      end
  end.

(** [s.strip()] *)
Definition strip (s : string) : string := rstrip (lstrip s).

(** Truth value of a [str]. *)
Definition truthy (s : string) : bool :=
  match s with EmptyString => false | _ => true end.

(** Truth value of an [Optional[str]]. *)
Definition truthy_opt (o : option string) : bool :=
  match o with Some s => truthy s | None => false end.

(** [x or d] for an [Optional[str]] [x] and a [str] [d]. *)
Definition or_str (x : option string) (d : string) : string :=
  match x with
  | Some s => if truthy s then s else d
  | None => d
  end.

(** [a or b] for two [str]. *)
Definition or_ (a b : string) : string := if truthy a then a else b.

(** [x or None] for a [str] [x]. *)
Definition or_None (s : string) : option string :=
  if truthy s then Some s else None.

(** [s.startswith(p)] *)
Definition startswith (s p : string) : bool := String.prefix p s.

(** [s.endswith("Z")]: the last character is [Z]. *)
Fixpoint endswith_char (s : string) (c : ascii) : bool :=
  match s with
  | EmptyString => false
  | String a EmptyString => Ascii.eqb a c
  | String _ s' => endswith_char s' c
  end.

(** [s.replace(c, t)] for a one character [c]: every occurrence. *)
Fixpoint replace_char (s : string) (c : ascii) (t : string) : string :=
  match s with
  | EmptyString => EmptyString
  | String a s' =>
      if Ascii.eqb a c then t +++ replace_char s' c t
      else String a (replace_char s' c t)
  end.

(** [str(n)] for an [int]. *)
Definition str_int (z : Z) : string := NilZero.string_of_int (Z.to_int z).

(** [str(x)] for an [Optional[str]], as an f-string renders it. *)
Definition str_opt (o : option string) : string :=
  match o with Some s => s | None => "None" end.

(** [l[-n:]] for [n > 0]. *)
Definition last_n {A} (n : nat) (l : list A) : list A :=
  skipn (List.length l - n) l.

End Py.

(** A key of a JSON object: absent, [null], or a value. *)
Inductive field (A : Type) : Type :=
| Missing
| Null
| Val (a : A).
Arguments Missing {A}.
Arguments Null {A}.
Arguments Val {A} a.

(** [d.get(k)] *)
Definition get {A} (f : field A) : option A :=
  match f with Val a => Some a | _ => None end.

(** [d.get(k, default)] *)
Definition get_default {A} (f : field A) (d : A) : option A :=
  match f with Missing => Some d | Null => None | Val a => Some a end.

(** ** Data model *)

Record Assignee := mkAssignee {
  assignee_name : field string;
  email : field string
}.

(** An investigation as the v2 API returns it. *)
Record Investigation := mkInvestigation {
  id : field string;
  rrn : field string;
  title : field string;
  status : field string;
  priority : field string;
  source : field string;
  created_time : field string;
  assignee : field Assignee
}.

(** One entry of the comment history. *)
Record HistoryEntry := mkEntry {
  timestamp : string;
  text : string
}.

(** ** Settings *)

Record CfgAssignee := mkCfgAssignee {
  cfg_name : string;
  cfg_email : string
}.

(** The settings document; an absent key reads as its default ([[]]). *)
Record Settings := mkSettings {
  cfg_assignees : list CfgAssignee;
  cfg_comment_history : list HistoryEntry
}.

Definition empty_settings : Settings := mkSettings [] [].

(** The settings file: unreadable (absent or corrupt) or holding a document.
    [writable] tells whether the file can be opened for writing: when it
    cannot, [open] raises, [save_settings] swallows the error and the file
    stays as it is.  A write that fails after the file was opened, which
    leaves it cut short, has no counterpart here: what is said below of the
    file after a write is said for a file that is [writable]. *)
Record Disk := mkDisk {
  content : option Settings;
  writable : bool
}.

Definition load_settings (d : Disk) : Settings :=
  match content d with Some c => c | None => empty_settings end.

Definition save_settings (cfg : Settings) (d : Disk) : Disk :=
  if writable d then mkDisk (Some cfg) true else d.

Definition get_assignees_from_settings (cfg : Settings)
  : list (string * string) :=
  ("Unassigned / No Change", "")
    :: flat_map
         (fun a =>
            let name := Py.strip (cfg_name a) in
            let email := Py.strip (cfg_email a) in
            if Py.truthy name && Py.truthy email then [(name, email)] else [])
         (cfg_assignees cfg).

(** ** Comment history of [App] *)

(** The part of [App] the history methods touch. *)
Record App := mkApp {
  comment_history : list HistoryEntry
}.

Definition _load_comment_history (d : Disk) : App :=
  let h := cfg_comment_history (load_settings d) in
  mkApp (if (50 <? List.length h)%nat then Py.last_n 50 h else h).

Definition _save_comment_history (app : App) (d : Disk) : Disk :=
  let cfg := load_settings d in
  save_settings
    (mkSettings (cfg_assignees cfg) (Py.last_n 50 (comment_history app))) d.

(** [now] is what [now_str()] returns at the call. *)
Definition _add_to_comment_history (now : string) (comment_text : string)
    (st : App * Disk) : App * Disk :=
  let (app, d) := st in
  if negb (Py.truthy comment_text) || negb (Py.truthy (Py.strip comment_text))
  then st
  else
    let entry := mkEntry now (Py.strip comment_text) in
    let app' := mkApp (comment_history app ++ [entry]) in
    (app', _save_comment_history app' d).

Definition clear_comment_history (confirmed : bool) (st : App * Disk)
  : App * Disk :=
  if confirmed then
    let app' := mkApp [] in (app', _save_comment_history app' (snd st))
  else st.

(** A session that appends the texts of [cs] one after the other; the k-th
    append reads the clock as [clock k]. *)
Fixpoint add_all (clock : nat -> string) (k : nat) (cs : list string)
    (st : App * Disk) : App * Disk :=
  match cs with
  | [] => st
  | c :: cs' => add_all clock (S k) cs' (_add_to_comment_history (clock k) c st)
  end.

(** ** API client *)

(** The exceptions the calls raise; [str_exn] is [str(e)]. *)
Inductive exn : Type :=
| HTTPError (msg : string)
| RequestException (msg : string)
| JSONDecodeError (msg : string)
| ValueError (msg : string)
| RuntimeError (msg : string)
| TypeError (msg : string)
| NameError (msg : string).

Definition str_exn (e : exn) : string :=
  match e with
  | HTTPError m | RequestException m | JSONDecodeError m
  | ValueError m | RuntimeError m | TypeError m | NameError m => m
  end.

Inductive Result (A : Type) : Type :=
| Returned (a : A)
| Raised (e : exn).
Arguments Returned {A} a.
Arguments Raised {A} e.

(** Module-level configuration. *)
Definition OPENLIKE_STATUSES : list string := ["OPEN"; "INVESTIGATING"; "WAITING"].
Definition PAGE_SIZE : Z := 100.
Definition START_DATE : string := "2024-01-01".
Definition END_DATE : option string := None.

(** The endpoint globals [set_api_endpoints] assigns. *)
Record Endpoints := mkEndpoints {
  BASE_V2 : string;
  BASE_V1 : string;
  URL_V1_CREATE_COMMENT : string
}.

Definition set_api_endpoints (region : string) : Endpoints :=
  let base_v1 := "https://" +++ region +++ ".api.insight.rapid7.com/idr/v1" in
  mkEndpoints
    ("https://" +++ region +++ ".api.insight.rapid7.com/idr/v2/investigations")
    base_v1
    (base_v1 +++ "/comments").

Definition iso_boundary (date_str : string) (end_of_day : bool) : string :=
  if negb (Py.truthy date_str) then ""
  else
    let t := if end_of_day then "23:59:59Z" else "00:00:00Z" in
    date_str +++ "T" +++ t.

(** Query parameters of the list endpoint. *)
Record ListParams := mkListParams {
  size : Z;
  statuses : string;
  sort : string;
  start_time : string;
  end_time : option string;
  p_index : Z
}.

(** [metadata] of a list response. *)
Record Metadata := mkMetadata {
  total_pages : field Z;
  m_index : field Z
}.

(** Body of a list response. *)
Record Payload := mkPayload {
  data : field (list Investigation);
  metadata : field Metadata
}.

(** Body of [GET investigations/{id}], as [get_rrn] tells the shapes apart. *)
Inductive Envelope : Type :=
| Wrapped (d : option Investigation)
    (* an object with a "data" key; [None] when its value is no object *)
| Bare (inv : Investigation)
    (* an object without "data"; a falsy body reads as the empty object *)
| NotAnObject.
    (* any other JSON value *)

(** The requests the program issues.  Path components are kept as given; the
    URL quoting of the source is one-to-one. *)
Inductive Request : Type :=
| GET_investigations (params : ListParams)
| PUT_status (id_or_rrn new_status : string)
| PUT_disposition (id_or_rrn disposition : string)
| PATCH_assignee (id_or_rrn assignee_email : string)
| PUT_assignee (id_or_rrn assignee_email : string)
| GET_investigation (id_or_rrn : string)
| POST_comment (target body : string).

(** What a decoded body of the answer to a request is. *)
Definition body_of (q : Request) : Type :=
  match q with
  | GET_investigations _ => Payload
  | GET_investigation _ => Envelope
  | _ => unit
  end.

(** A [requests.Response]; [json] is [None] when the body does not decode. *)
Record Response (B : Type) : Type := mkResponse {
  status_code : Z;
  reason : string;
  url : string;
  r_text : string;
  json : option B
}.
Arguments mkResponse {B}.
Arguments status_code {B}.
Arguments reason {B}.
Arguments url {B}.
Arguments r_text {B}.
Arguments json {B}.

(** The call raises (no connection, timeout) or a response arrives. *)
Inductive Reply (B : Type) : Type :=
| Fails (e : exn)
| Responds (r : Response B).
Arguments Fails {B} e.
Arguments Responds {B} r.

(** The remote API. *)
Record Server : Type := mkServer {
  World : Type;
  serve : forall q : Request, World -> Reply (body_of q) * World
}.

Record Results := mkResults {
  successes : nat;
  fails : list string
}.

(** What the worker hands to the main loop with [self.after(0, ...)]. *)
Inductive UiEvent : Type :=
| update_detail (i total : nat) (t : option string)
| add_to_history (c : string)
| log_updated (i t : nat) (ti : option string)
| log_failed (i t : nat) (ti : option string) (er : string)
| update_complete (results : Results) (total : nat).

(** A call that was issued and the status code that came back. *)
Definition Call : Type := Request * option Z.

Section Client.

Variable srv : Server.
Variable ep : Endpoints.

(** The server's state, the calls issued so far and the main loop's queue. *)
Record Env : Type := mkEnv {
  world : World srv;
  sent : list Call;
  ui : list UiEvent
}.

(** Computations that issue calls and may raise. *)
Definition M (A : Type) : Type := Env -> Result A * Env.

Definition ret {A} (a : A) : M A := fun env => (Returned a, env).

Definition bind {A B} (m : M A) (k : A -> M B) : M B :=
  fun env =>
    match m env with
    | (Returned a, env') => k a env'
    | (Raised e, env') => (Raised e, env')
    end.

Definition raise {A} (e : exn) : M A := fun env => (Raised e, env).

(** [self.after(0, ev)] *)
Definition after (ev : UiEvent) : M unit :=
  fun env => (Returned tt, mkEnv (world env) (sent env) (ui env ++ [ev])).

Definition request (q : Request) : M (Response (body_of q)) :=
  fun env =>
    match serve srv q (world env) with
    | (Fails e, w) => (Raised e, mkEnv w (sent env ++ [(q, None)]) (ui env))
    | (Responds r, w) =>
        (Returned r,
         mkEnv w (sent env ++ [(q, Some (status_code r))]) (ui env))
    end.

Local Notation "x <- m ;; k" := (bind m (fun x => k))
  (at level 61, m at next level, right associativity).
Local Notation "m ;;; k" := (bind m (fun _ => k))
  (at level 61, right associativity).

(** [r.raise_for_status()] *)
Definition raise_for_status {B} (r : Response B) : M unit :=
  let c := status_code r in
  if ((400 <=? c) && (c <? 500))%Z then
    raise (HTTPError (Py.str_int c +++ " Client Error: " +++ reason r
                      +++ " for url: " +++ url r))
  else if ((500 <=? c) && (c <? 600))%Z then
    raise (HTTPError (Py.str_int c +++ " Server Error: " +++ reason r
                      +++ " for url: " +++ url r))
  else ret tt.

(** [r.json()]; the text of the error is the one for a body in which no
    value starts at the first character (an empty body, a page of HTML). *)
Definition decode {B} (r : Response B) : M B :=
  match json r with
  | Some b => ret b
  | None =>
      raise (JSONDecodeError "Expecting value: line 1 column 1 (char 0)")
  end.

Definition params_base : ListParams :=
  mkListParams PAGE_SIZE (String.concat "," OPENLIKE_STATUSES)
    "created_time,ASC" (iso_boundary START_DATE false)
    (match END_DATE with
     | Some d => if Py.truthy d then Some (iso_boundary d true) else None
     | None => None
     end)
    0.

Definition with_index (p : ListParams) (index : Z) : ListParams :=
  mkListParams (size p) (statuses p) (sort p) (start_time p) (end_time p)
    index.

(** One turn of the [while True] of [list_investigations]: the items
    gathered so far, and whether the loop goes on. *)
Definition list_investigations_turn (index : Z)
    (all_items : list Investigation) : M (bool * list Investigation) :=
  r <- request (GET_investigations (with_index params_base index)) ;;
  raise_for_status r ;;;
  payload <- decode r ;;
  let items :=
    match data payload with Val l => l | _ => [] end in
  let meta :=
    match metadata payload with
    | Val m => m
    | _ => mkMetadata Missing Missing
    end in
  match items with
  | [] => ret (false, all_items)
  | _ =>
      let all_items := all_items ++ items in
      let total_pages :=
        match total_pages meta with Val z => z | _ => 0%Z end in
      match get_default (m_index meta) index with
      | None =>
          raise (TypeError "int() argument must be a string, a bytes-like object or a real number, not 'NoneType'")
      | Some current_index =>
          if ((total_pages =? 0) || (total_pages - 1 <=? current_index))%Z
          then ret (false, all_items)
          else ret (true, all_items)
      end
  end.

(** [list_investigations]; [None] when [fuel] turns were not enough.  The
    pause between pages ([time.sleep]) has no counterpart here. *)
Fixpoint list_investigations_from (fuel : nat) (index : Z)
    (all_items : list Investigation) (env : Env)
  : option (Result (list Investigation) * Env) :=
  match fuel with
  | O => None
  | S fuel' =>
      match list_investigations_turn index all_items env with
      | (Raised e, env') => Some (Raised e, env')
      | (Returned (false, items), env') => Some (Returned items, env')
      | (Returned (true, items), env') =>
          list_investigations_from fuel' (index + 1)%Z items env'
      end
  end.

Definition list_investigations (fuel : nat) (env : Env)
  : option (Result (list Investigation) * Env) :=
  list_investigations_from fuel 0%Z [] env.

Definition set_status (id_or_rrn new_status : string) : M unit :=
  r <- request (PUT_status id_or_rrn new_status) ;;
  raise_for_status r.

Definition set_disposition (id_or_rrn disposition : string) : M unit :=
  r <- request (PUT_disposition id_or_rrn disposition) ;;
  raise_for_status r.

Definition assign_user (id_or_rrn assignee_email : string) : M unit :=
  r <- request (PATCH_assignee id_or_rrn assignee_email) ;;
  if ((status_code r =? 200) || (status_code r =? 204))%Z then ret tt
  else
    r2 <- request (PUT_assignee id_or_rrn assignee_email) ;;
    raise_for_status r2.

Definition get_rrn (id_or_rrn : string) : M string :=
  if negb (Py.truthy id_or_rrn) then
    raise (ValueError "Missing investigation id/rrn")
  else if Py.startswith id_or_rrn "rrn:" then ret id_or_rrn
  else
    r <- request (GET_investigation id_or_rrn) ;;
    raise_for_status r ;;;
    j <- decode r ;;
    let inv :=
      match j with
      | Wrapped d => d
      | Bare i => Some i
      | NotAnObject => None
      end in
    match inv with
    | None => raise (RuntimeError "Unexpected v2 GET response shape")
    | Some inv =>
        match get (rrn inv) with
        | Some s =>
            if Py.truthy s then ret s
            else raise (RuntimeError "Could not find RRN in v2 response")
        | None => raise (RuntimeError "Could not find RRN in v2 response")
        end
    end.

(** The dict [create_comment_v1] returns; [info_body] is [None] for [{}]. *)
Record CommentInfo : Type := mkInfo {
  ok : bool;
  info_status : Z;
  info_url : string;
  info_text : string;
  info_body : option (string * string)
}.

Definition create_comment_v1 (target_rrn : string) (text : option string)
  : M CommentInfo :=
  match text with
  | Some t =>
      if Py.truthy t then
        r <- request (POST_comment target_rrn t) ;;
        ret (mkInfo ((status_code r =? 200) || (status_code r =? 201))%Z
               (status_code r) (URL_V1_CREATE_COMMENT ep)
               (Py.strip (r_text r)) (Some (target_rrn, t)))
      else ret (mkInfo true 204 (URL_V1_CREATE_COMMENT ep) "" None)
  | None => ret (mkInfo true 204 (URL_V1_CREATE_COMMENT ep) "" None)
  end.

(** ** Bulk update *)

(** What [update_selected_async] reads from the form before it starts the
    worker. *)
Record MutationSpec : Type := mkSpec {
  chosen_status : string;
  chosen_dispo : option string;
  chosen_email : option string;
  comment : option string
}.

(** [if x: k(x)] for an [Optional[str]] [x]. *)
Definition if_set (x : option string) (k : string -> M unit) : M unit :=
  match x with
  | Some s => if Py.truthy s then k s else ret tt
  | None => ret tt
  end.

(** The [if comment:] block of the worker. *)
Definition comment_step (idx : nat) (results : Results)
    (inv_rrn inv_id comment : string) : M unit :=
  target_rrn <- (if Py.truthy inv_rrn then ret inv_rrn
                 else get_rrn inv_id) ;;
  info <- create_comment_v1 target_rrn (Some comment) ;;
  if negb (ok info) then
    raise (RuntimeError ("Comment HTTP " +++ Py.str_int (info_status info)
                         +++ " " +++ info_text info))
  else if ((idx =? 1) && (successes results =? 0))%nat then
    after (add_to_history comment)
  else ret tt.

(** The [try] block of the worker, for the record at 1-based position
    [idx]; [results] is the shared dict as it stands. *)
Definition try_body (spec : MutationSpec) (idx : nat) (rec : Investigation)
    (results : Results) : M unit :=
  let inv_rrn := Py.or_str (get (rrn rec)) "" in
  let inv_id := Py.or_str (get (id rec)) "" in
  let inv_key_v2 := Py.or_ inv_id inv_rrn in
  if_set (Some (chosen_status spec)) (set_status inv_key_v2) ;;;
  if_set (chosen_dispo spec) (set_disposition inv_key_v2) ;;;
  if_set (chosen_email spec) (assign_user inv_key_v2) ;;;
  if_set (comment spec) (comment_step idx results inv_rrn inv_id).

(** One turn of the worker's [for]: progress, the [try] block, and the
    bookkeeping of either outcome. *)
Definition worker_turn (spec : MutationSpec) (total idx : nat)
    (rec : Investigation) (st : Results * Env) : Results * Env :=
  let (results, env) := st in
  let title := get_default (title rec) "" in
  let env := snd (after (update_detail idx total title) env) in
  match try_body spec idx rec results env with
  | (Returned _, env') =>
      (mkResults (S (successes results)) (fails results),
       snd (after (log_updated idx total title) env'))
  | (Raised e, env') =>
      (mkResults (successes results)
         (fails results ++ [Py.str_opt title +++ ": " +++ str_exn e]),
       snd (after (log_failed idx total title (str_exn e)) env'))
  end.

(** [for idx, rec in enumerate(rows, start=idx)] *)
Fixpoint worker_loop (spec : MutationSpec) (total idx : nat)
    (rows : list Investigation) (st : Results * Env) : Results * Env :=
  match rows with
  | [] => st
  | rec :: rest =>
      worker_loop spec total (S idx) rest (worker_turn spec total idx rec st)
  end.

Definition worker (spec : MutationSpec) (rows : list Investigation)
    (env : Env) : Results * Env :=
  let total := List.length rows in
  let (results, env') :=
    worker_loop spec total 1 rows (mkResults 0 [], env) in
  (results, snd (after (update_complete results total) env')).

End Client.

Arguments mkEnv {srv}.
Arguments world {srv}.
Arguments sent {srv}.
Arguments ui {srv}.

(** The form of the main window when "Update" is pressed. *)
Record Form := mkForm {
  status_choice : string;
  dispo_choice : string;
  assignee_choice : string;
  comment_box : string
}.

(** The label an assignee has in the option menu. *)
Definition label_of (n e : string) : string :=
  if Py.truthy e then n +++ " <" +++ e +++ ">" else n.

(** The [for (n, e) in assignees] of [update_selected_async], with its
    [break]. *)
Fixpoint email_of_label (assignees : list (string * string))
    (chosen_assignee_label : string) : option string :=
  match assignees with
  | [] => None
  | (n, e) :: rest =>
      if String.eqb (label_of n e) chosen_assignee_label then Py.or_None e
      else email_of_label rest chosen_assignee_label
  end.

Definition mutation_spec (cfg : Settings) (form : Form) : MutationSpec :=
  mkSpec (status_choice form)
    (Py.or_None (dispo_choice form))
    (email_of_label (get_assignees_from_settings cfg) (assignee_choice form))
    (Py.or_None (Py.strip (comment_box form))).

(** [update_selected_async] on the selected [rows]: nothing is started when
    none is selected. *)
Definition update_selected_async (srv : Server) (ep : Endpoints)
    (cfg : Settings) (form : Form) (rows : list Investigation)
    (env : Env srv) : option Results * Env srv :=
  match rows with
  | [] => (None, env)
  | _ =>
      let (results, env') := worker srv ep (mutation_spec cfg form) rows env in
      (Some results, env')
  end.

(** The main loop runs what the worker queued; only [add_to_history] touches
    the comment history.  The k-th event reads the clock as [clock k]. *)
Fixpoint run_ui (clock : nat -> string) (k : nat) (evs : list UiEvent)
    (st : App * Disk) : App * Disk :=
  match evs with
  | [] => st
  | add_to_history c :: evs' =>
      run_ui clock (S k) evs' (_add_to_comment_history (clock k) c st)
  | _ :: evs' => run_ui clock (S k) evs' st
  end.

(** ** View: sort by creation time, filter by assignee *)

(** A [datetime]: the wall clock in microseconds since 0001-01-01T00:00, and
    the UTC offset in microseconds when the value is aware. *)
Record datetime := mkDatetime {
  wall : Z;
  utcoffset : option Z
}.

Module Datetime.
Local Open Scope Z_scope.

Definition is_leap (y : Z) : bool :=
  (y mod 4 =? 0) && (negb (y mod 100 =? 0) || (y mod 400 =? 0)).

Definition days_before_year (y : Z) : Z :=
  let p := y - 1 in p * 365 + p / 4 - p / 100 + p / 400.

Definition days_in_month (y m : Z) : Z :=
  if m =? 2 then (if is_leap y then 29 else 28)
  else if (m =? 4) || (m =? 6) || (m =? 9) || (m =? 11) then 30
  else 31.

Fixpoint days_before_month_nat (y : Z) (m : nat) : Z :=
  match m with
  | O => 0
  | S m' => days_before_month_nat y m' + days_in_month y (Z.of_nat m)
  end.

(** Days in the year before the first of month [m]. *)
Definition days_before_month (y m : Z) : Z :=
  days_before_month_nat y (Z.to_nat (m - 1)).

(** [date(y, m, d).toordinal()] *)
Definition ymd2ord (y m d : Z) : Z :=
  days_before_year y + days_before_month y m + d.

(** [datetime(y, m, d, hh, mm, ss, tzinfo=...)] *)
Definition make (y m d hh mm ss : Z) (off : option Z) : datetime :=
  let days := ymd2ord y m d - 1 in
  let seconds := ((days * 24 + hh) * 60 + mm) * 60 + ss in
  mkDatetime (seconds * 1000000) off.

(** The instant an aware value denotes. *)
Definition instant (d : datetime) : Z :=
  match utcoffset d with Some o => wall d - o | None => wall d end.

(** [a < b]; [None] is the [TypeError] of comparing a naive value with an
    aware one. *)
Definition lt (a b : datetime) : option bool :=
  match utcoffset a, utcoffset b with
  | None, None => Some (wall a <? wall b)
  | Some oa, Some ob => Some (wall a - oa <? wall b - ob)
  | _, _ => None
  end.

(** [datetime(1970, 1, 1, tzinfo=timezone.utc)] *)
Definition epoch : datetime := make 1970 1 1 0 0 0 (Some 0).

End Datetime.

(** [sorted(rows, key=key, reverse=reverse)].  [list.sort] is a stable sort
    that compares keys with [<] only, and for [reverse] it reverses the list
    before and after sorting: the result is the same for every such sort, and
    it is written here as an insertion.  A comparison that raises ends the
    sort. *)
Section Sorted.

Context {A : Type}.

Fixpoint insert_keyed (x : datetime * A) (l : list (datetime * A))
  : option (list (datetime * A)) :=
  match l with
  | [] => Some [x]
  | y :: l' =>
      match Datetime.lt (fst y) (fst x) with
      | None => None
      | Some true =>
          match insert_keyed x l' with
          | Some r => Some (y :: r)
          | None => None
          end
      | Some false => Some (x :: l)
      end
  end.

Fixpoint sort_keyed (l : list (datetime * A))
  : option (list (datetime * A)) :=
  match l with
  | [] => Some []
  | x :: l' =>
      match sort_keyed l' with
      | Some s => insert_keyed x s
      | None => None
      end
  end.

Definition sorted (key : A -> datetime) (reverse : bool) (l : list A)
  : Result (list A) :=
  let keyed := map (fun r => (key r, r)) l in
  let keyed := if reverse then rev keyed else keyed in
  match sort_keyed keyed with
  | None =>
      Raised (TypeError "can't compare offset-naive and offset-aware datetimes")
  | Some s => Returned (map snd (if reverse then rev s else s))
  end.

End Sorted.

Definition _assignee_from_rec (rec : Investigation) : string :=
  let a :=
    match get (assignee rec) with
    | Some a => a
    | None => mkAssignee Missing Missing
    end in
  Py.strip (Py.or_str (get (email a)) "").

(** [choice] is what [assignee_filter_var] holds. *)
Definition _apply_assignee_filter (choice : string)
    (rows : list Investigation) : list Investigation :=
  if String.eqb choice "All" then rows
  else if String.eqb choice "Unassigned" then
    filter (fun r => negb (Py.truthy (_assignee_from_rec r))) rows
  else filter (fun r => String.eqb (_assignee_from_rec r) choice) rows.

Section View.

(** [datetime.fromisoformat]: [None] when it raises. *)
Variable fromisoformat : string -> option datetime.

(** The [try] of [key_fn]: the creation time when it parses. *)
Definition parse_created_time (r : Investigation) : option datetime :=
  let dt := Py.or_str (get (created_time r)) "" in
  if Py.endswith_char dt "Z"
  then fromisoformat (Py.replace_char dt "Z" "+00:00")
  else fromisoformat dt.

Definition key_fn (r : Investigation) : datetime :=
  match parse_created_time r with
  | Some d => d
  | None => Datetime.epoch
  end.

(** [_sorted_rows_current_view]; [rebuild_list] shows the same rows. *)
Definition _sorted_rows_current_view (rows : list Investigation)
    (sort_oldest_first : bool) (choice : string)
  : Result (list Investigation) :=
  match sorted key_fn (negb sort_oldest_first) rows with
  | Returned rows_sorted =>
      Returned (_apply_assignee_filter choice rows_sorted)
  | Raised e => Raised e
  end.

End View.

(** ** Concrete servers, parser and records for the examples *)

(** [datetime.fromisoformat] on the strings [YYYY-MM-DDTHH:MM:SS] with an
    optional [+HH:MM] or [-HH:MM]; every other string is refused here. *)
Module Iso.
Local Open Scope Z_scope.

Definition digit (c : ascii) : option Z :=
  let n := nat_of_ascii c in
  if ((48 <=? n) && (n <=? 57))%nat then Some (Z.of_nat n - 48) else None.

(** Exactly [n] digits. *)
Fixpoint digits (n : nat) (acc : Z) (s : string) : option (Z * string) :=
  match n with
  | O => Some (acc, s)
  | S n' =>
      match s with
      | String c s' =>
          match digit c with
          | Some d => digits n' (acc * 10 + d) s'
          | None => None
          end
      | EmptyString => None
      end
  end.

Definition expect (c : ascii) (s : string) : option string :=
  match s with
  | String a s' => if Ascii.eqb a c then Some s' else None
  | EmptyString => None
  end.

Local Notation "' p <- m ;; k" :=
  (match m with Some p => k | None => None end)
  (at level 61, p pattern, m at next level, right associativity).

Definition guard (b : bool) : option unit := if b then Some tt else None.

(** The offset after the seconds: nothing, or a sign and [HH:MM]. *)
Definition offset (s : string) : option (option Z) :=
  match s with
  | EmptyString => Some None
  | String sg s =>
      ' sign <- (if Ascii.eqb sg "+" then Some 1
                 else if Ascii.eqb sg "-" then Some (-1) else None) ;;
      ' (hh, s) <- digits 2 0 s ;;
      ' s <- expect ":" s ;;
      ' (mm, s) <- digits 2 0 s ;;
      ' _ <- guard ((hh <=? 23) && (mm <=? 59)) ;;
      match s with
      | EmptyString => Some (Some (sign * (hh * 60 + mm) * 60 * 1000000))
      | _ => None
      end
  end.

Definition fromisoformat (s : string) : option datetime :=
  ' (y, s) <- digits 4 0 s ;;
  ' s <- expect "-" s ;;
  ' (m, s) <- digits 2 0 s ;;
  ' s <- expect "-" s ;;
  ' (d, s) <- digits 2 0 s ;;
  ' s <- expect "T" s ;;
  ' (hh, s) <- digits 2 0 s ;;
  ' s <- expect ":" s ;;
  ' (mm, s) <- digits 2 0 s ;;
  ' s <- expect ":" s ;;
  ' (ss, s) <- digits 2 0 s ;;
  ' off <- offset s ;;
  ' _ <- guard ((1 <=? y) && (1 <=? m) && (m <=? 12) && (1 <=? d)
                && (d <=? Datetime.days_in_month y m)
                && (hh <=? 23) && (mm <=? 59) && (ss <=? 59)) ;;
  Some (Datetime.make y m d hh mm ss off).

End Iso.

Definition reason_phrase (code : Z) : string :=
  if (code =? 200)%Z then "OK"
  else if (code =? 201)%Z then "Created"
  else if (code =? 204)%Z then "No Content"
  else if (code =? 404)%Z then "Not Found"
  else if (code =? 500)%Z then "Internal Server Error"
  else "".

(** A server that answers every request with the status code [code] gives
    it, and an empty body. *)
Definition status_server (code : Request -> Z) : Server :=
  mkServer unit
    (fun q w =>
       (Responds (mkResponse (code q) (reason_phrase (code q)) "" "" None),
        w)).

(** A list endpoint that holds [pages] and reports, with each page, its index
    and the number of pages; past the last page it answers with no items. *)
Definition paged_server (pages : list (list Investigation)) : Server :=
  mkServer unit
    (fun q w =>
       match q as q0 return Reply (body_of q0) * unit with
       | GET_investigations p =>
           (Responds
              (mkResponse 200 "OK" "" ""
                 (Some
                    (mkPayload
                       (Val (nth (Z.to_nat (p_index p)) pages []))
                       (Val (mkMetadata (Val (Z.of_nat (List.length pages)))
                               (Val (p_index p))))))),
            w)
       | GET_investigation _ =>
           (Responds (mkResponse 404 "Not Found" "" "" None), w)
       | _ => (Responds (mkResponse 404 "Not Found" "" "" None), w)
       end).

(** [items] cut into pages of [page_size]. *)
Fixpoint chunk_from (fuel page_size : nat) (items : list Investigation)
  : list (list Investigation) :=
  match fuel with
  | O => []
  | S fuel' =>
      match items with
      | [] => []
      | _ =>
          firstn page_size items
            :: chunk_from fuel' page_size (skipn page_size items)
      end
  end.

Definition chunk (page_size : nat) (items : list Investigation)
  : list (list Investigation) :=
  chunk_from (List.length items) page_size items.

(** A list endpoint over [items] with pages of [page_size]. *)
Definition fake_server (page_size : nat) (items : list Investigation)
  : Server :=
  paged_server (chunk page_size items).

(** Nothing sent yet, nothing queued. *)
Definition start (srv : Server) (w : World srv) : Env srv := mkEnv w [] [].

(** A record with an id, a canonical name, a title, a creation time and an
    assignee address. *)
Definition investigation (i r t c : string) (e : field string)
  : Investigation :=
  mkInvestigation (Val i) (Val r) (Val t) (Val "OPEN") Missing Missing
    (Val c) (Val (mkAssignee Missing e)).

Definition first_row : Investigation :=
  investigation "1" "rrn:1" "first" "2024-03-01T10:00:00Z"
    (Val "amy@example.com").
Definition second_row : Investigation :=
  investigation "2" "rrn:2" "second" "2024-03-02T10:00:00Z"
    (Val " bob@example.com ").
Definition third_row : Investigation :=
  investigation "3" "rrn:3" "third" "2024-03-03T10:00:00Z" Null.

Definition three_rows : list Investigation :=
  [first_row; second_row; third_row].

(** A row created at the same instant as [first_row]. *)
Definition twin_row : Investigation :=
  investigation "4" "rrn:4" "twin" "2024-03-01T10:00:00Z" Missing.

(** A row created before 1970, one whose creation time does not parse, and
    one whose creation time has no UTC offset. *)
Definition early_row : Investigation :=
  investigation "5" "rrn:5" "early" "1969-07-20T20:17:00Z" Missing.
Definition undated_row : Investigation :=
  investigation "6" "rrn:6" "undated" "yesterday" Missing.
Definition naive_row : Investigation :=
  investigation "7" "rrn:7" "naive" "2024-03-04T10:00:00" Missing.

(** Status, disposition, assignee and comment, all four asked for. *)
Definition full_spec : MutationSpec :=
  mkSpec "CLOSED" (Some "BENIGN") (Some "amy@example.com")
    (Some "Closing as duplicate").

(** A server that knows every investigation by the name "rrn:" followed by
    its id, refuses to assign investigation 2 and accepts all else. *)
Definition names_and_refuses_assignee_2 : Server :=
  mkServer unit
    (fun q w =>
       match q as q0 return Reply (body_of q0) * unit with
       | GET_investigations _ =>
           (Responds (mkResponse 200 "OK" "" "" None), w)
       | GET_investigation i =>
           (Responds
              (mkResponse 200 "OK" "" ""
                 (Some (Wrapped
                          (Some (investigation i ("rrn:" +++ i) "found"
                                   "2024-03-01T10:00:00Z" Missing))))),
            w)
       | PATCH_assignee k _ =>
           (if String.eqb k "2"
            then Responds (mkResponse 500 "Internal Server Error" "" "" None)
            else Responds (mkResponse 200 "OK" "" "" None),
            w)
       | PUT_assignee k _ =>
           (if String.eqb k "2"
            then Responds (mkResponse 404 "Not Found" "" "" None)
            else Responds (mkResponse 200 "OK" "" "" None),
            w)
       | POST_comment _ _ =>
           (Responds (mkResponse 201 "Created" "" "" None), w)
       | _ => (Responds (mkResponse 200 "OK" "" "" None), w)
       end).

(** A row with an id for which the API gave no name, and a row for which
    it gave neither. *)
Definition nameless_row : Investigation :=
  mkInvestigation (Val "8") Null (Val "nameless") (Val "OPEN") Missing
    Missing (Val "2024-03-05T10:00:00Z") Missing.

Definition anonymous_row : Investigation :=
  mkInvestigation Missing Missing (Val "anonymous") (Val "OPEN") Missing
    Missing (Val "2024-03-06T10:00:00Z") Missing.

(** A server that refuses the status of investigation 1 and accepts all
    else. *)
Definition refuses_status_1 : Server :=
  status_server
    (fun q =>
       match q with
       | PUT_status "1" _ => 404
       | POST_comment _ _ => 201
       | _ => 200
       end%Z).

(** A server that accepts everything. *)
Definition accepts_all : Server :=
  status_server
    (fun q => match q with POST_comment _ _ => 201 | _ => 200 end%Z).

Definition us : Endpoints := set_api_endpoints "us".

(** The form with a status and a comment, the assignee left at the first
    entry of the menu. *)
Definition close_form : Form :=
  mkForm "CLOSED" "" "Unassigned / No Change" "  Closing as duplicate  ".

Definition two_assignees : Settings :=
  mkSettings
    [mkCfgAssignee "Amy" "amy@example.com";
     mkCfgAssignee "Bob" "bob@example.com"]
    [].

(** The clock of the examples. *)
Definition tick (k : nat) : string :=
  "2026-01-01 00:00:" +++ Py.str_int (Z.of_nat k).

(** ** The list of investigations and its selection *)

Module Listing.

(** The attributes of [App] behind the list: the fetched rows, the sort
    direction, the assignee filter, the "Select All" box, and one box for
    each row on display. *)
Record state := mk {
  rows : list Investigation;
  sort_oldest_first : bool;
  assignee_filter_var : string;
  select_all_var : bool;
  row_vars : list bool
}.

Definition set_rows (data : list Investigation) (st : state) : state :=
  mk data (sort_oldest_first st) (assignee_filter_var st)
    (select_all_var st) (row_vars st).

Definition set_sort_oldest_first (b : bool) (st : state) : state :=
  mk (rows st) b (assignee_filter_var st) (select_all_var st) (row_vars st).

Definition set_assignee_filter_var (choice : string) (st : state) : state :=
  mk (rows st) (sort_oldest_first st) choice (select_all_var st)
    (row_vars st).

Definition set_select_all_var (b : bool) (st : state) : state :=
  mk (rows st) (sort_oldest_first st) (assignee_filter_var st) b
    (row_vars st).

Definition set_row_vars (vars : list bool) (st : state) : state :=
  mk (rows st) (sort_oldest_first st) (assignee_filter_var st)
    (select_all_var st) vars.

End Listing.

Section Selection.

Variable fromisoformat : string -> option datetime.

Definition clear_list (st : Listing.state) : Listing.state :=
  Listing.set_row_vars [] st.

(** [add_row]: the card of [rec], with its box, not ticked. *)
Definition add_row (rec : Investigation) (st : Listing.state)
  : Listing.state :=
  Listing.set_row_vars (Listing.row_vars st ++ [false]) st.

(** [rebuild_list]: the list is cleared before the rows are sorted, and it
    stays so when the sort raises. *)
Definition rebuild_list (st : Listing.state) : Result unit * Listing.state :=
  let st := clear_list st in
  match sorted (key_fn fromisoformat) (negb (Listing.sort_oldest_first st))
          (Listing.rows st) with
  | Raised e => (Raised e, st)
  | Returned rows_sorted =>
      let rows_sorted :=
        _apply_assignee_filter (Listing.assignee_filter_var st) rows_sorted in
      (Returned tt, fold_left (fun st rec => add_row rec st) rows_sorted st)
  end.

Definition toggle_select_all (st : Listing.state) : Listing.state :=
  let new_val := Listing.select_all_var st in
  Listing.set_row_vars (map (fun _ => new_val) (Listing.row_vars st)) st.

(** [on_sort_toggle]; [sort_switch_var] is what the switch holds. *)
Definition on_sort_toggle (sort_switch_var : bool) (st : Listing.state)
  : Result unit * Listing.state :=
  rebuild_list (Listing.set_sort_oldest_first sort_switch_var st).

(** The addresses [_refresh_complete] collects.  They go into a [set]; only
    membership in [options] is read here, so they are kept as a list. *)
Definition emails_of (rows : list Investigation) : list string :=
  filter Py.truthy (map _assignee_from_rec rows).

(** [choice in options] *)
Definition in_options (choice : string) (rows : list Investigation) : bool :=
  String.eqb choice "All" || String.eqb choice "Unassigned"
  || existsb (String.eqb choice) (emails_of rows).

Definition _refresh_complete (data : list Investigation)
    (st : Listing.state) : Result unit * Listing.state :=
  let st := Listing.set_rows data st in
  let st :=
    if negb (in_options (Listing.assignee_filter_var st) (Listing.rows st))
    then Listing.set_assignee_filter_var "All" st
    else st in
  match rebuild_list st with
  | (Raised e, st) => (Raised e, st)
  | (Returned _, st) => (Returned tt, Listing.set_select_all_var false st)
  end.

(** The [for i, v in enumerate(self.row_vars)] of [_selected_rows], from
    position [i] on. *)
Fixpoint selected_from (i : nat) (row_vars : list bool)
    (rows_sorted selected_rows : list Investigation) : list Investigation :=
  match row_vars with
  | [] => selected_rows
  | v :: vars =>
      selected_from (S i) vars rows_sorted
        (if (v && (i <? List.length rows_sorted)%nat)%bool then
           match nth_error rows_sorted i with
           | Some r => selected_rows ++ [r]
           | None => selected_rows
           end
         else selected_rows)
  end.

Definition _selected_rows (st : Listing.state)
  : Result (list Investigation) :=
  match _sorted_rows_current_view fromisoformat (Listing.rows st)
          (Listing.sort_oldest_first st) (Listing.assignee_filter_var st) with
  | Raised e => Raised e
  | Returned rows_sorted =>
      Returned (selected_from 0 (Listing.row_vars st) rows_sorted [])
  end.

End Selection.

(** The list before the first fetch, with the filter left on an address
    and "Select All" ticked; and the list once [three_rows] are on
    display, oldest first. *)
Definition stale_list : Listing.state :=
  Listing.mk [] false "bob@example.com" true [true].

Definition fresh_list : Listing.state :=
  Listing.mk three_rows true "All" true [].

(** ** Team configuration *)

Module AssigneeConfigDialog.

(** [__init__]: the rows the dialog opens with, [current_assignees[1:]]. *)
Definition assignees (current_assignees : list (string * string))
  : list (string * string) :=
  tl current_assignees.

(** [save] on the texts of the entry rows; [None] when the warning is shown
    and [result] stays [None]. *)
Definition save (entry_rows : list (string * string))
  : option (list (string * string)) :=
  let collected :=
    flat_map
      (fun row =>
         let name := Py.strip (fst row) in
         let email := Py.strip (snd row) in
         if Py.truthy name && Py.truthy email then [(name, email)] else [])
      entry_rows in
  match collected with
  | [] => None
  | _ => Some (("Unassigned / No Change", "") :: collected)
  end.

End AssigneeConfigDialog.

(** [save_assignees_to_settings]: [cfg] is changed in place and written. *)
Definition save_assignees_to_settings (cfg : Settings)
    (assignees : list (string * string)) (d : Disk) : Settings * Disk :=
  let cfg :=
    mkSettings
      (map (fun p => mkCfgAssignee (fst p) (snd p))
         (filter (fun p => Py.truthy (snd p)) assignees))
      (cfg_comment_history cfg) in
  (cfg, save_settings cfg d).

(** [configure_assignees], given [self.cfg] and what the dialog left in
    [result]; it returns the new [self.cfg]. *)
Definition configure_assignees (cfg : Settings)
    (result : option (list (string * string))) (d : Disk)
  : Settings * Disk :=
  match result with
  | Some ((_ :: _) as r) =>
      let (_, d') := save_assignees_to_settings cfg r d in
      (load_settings d', d')
  | _ => (cfg, d)
  end.

(** [_refresh_assignee_dropdown]: the labels on offer and the one set. *)
Definition _refresh_assignee_dropdown (cfg : Settings)
  : list string * option string :=
  let labels :=
    map (fun p => label_of (fst p) (snd p))
      (get_assignees_from_settings cfg) in
  (labels, hd_error labels).

(** ** Test comment *)

Section TestComment.

Variable srv : Server.
Variable ep : Endpoints.

(** What [test_comment_popup] shows for the first selected row: the target
    and the text of the comment it will send; [None] when no row is
    selected.  A failed lookup of the name is caught. *)
Definition test_comment_popup (comment_box : string)
    (rows : list Investigation) : M srv (option (string * string)) :=
  match rows with
  | [] => ret srv None
  | rec :: _ =>
      let rrn := Py.or_str (get (rrn rec)) "" in
      let inv_id := Py.or_str (get (id rec)) "" in
      let comment_text :=
        Py.or_ (Py.strip comment_box)
          "Test comment from Troubleshoot button" in
      bind srv
        (if negb (Py.truthy rrn) && Py.truthy inv_id then
           fun env =>
             match get_rrn srv inv_id env with
             | (Returned r, env') => (Returned r, env')
             | (Raised _, env') =>
                 (Returned "(could not resolve RRN from ID)", env')
             end
         else ret srv rrn)
        (fun rrn => ret srv (Some (rrn, comment_text)))
  end.

(** [send_now], the button of the popup; [now] is what [now_str()] returns
    when the history entry is made. *)
Definition send_now (now : string) (rrn comment_text : string)
    (env : Env srv) (st : App * Disk) : Env srv * (App * Disk) :=
  match create_comment_v1 srv ep rrn (Some comment_text) env with
  | (Returned info, env') =>
      (env',
       if ok info then _add_to_comment_history now comment_text st else st)
  | (Raised _, env') => (env', st)
  end.

End TestComment.

(** ** Refresh *)

Section Refresh.

Variable srv : Server.
Variable fromisoformat : string -> option datetime.

(** The worker of [refresh_async] and how the call it hands to the main
    loop ends: [_refresh_complete] with the rows fetched; or, after a fetch
    that raised [e], a call of [_refresh_error] with [e], which raises
    [NameError] before [_refresh_error] is entered, because the name [e] is
    unbound once the [except] block has ended, and leaves the list as it
    is.  [None] when [fuel] turns were not enough for the fetch. *)
Definition refresh_async (fuel : nat) (env : Env srv) (st : Listing.state)
  : option (Env srv * (Result unit * Listing.state)) :=
  match list_investigations srv fuel env with
  | None => None
  | Some (Returned data, env') =>
      Some (env', _refresh_complete fromisoformat data st)
  | Some (Raised e, env') =>
      Some (env',
            (Raised
               (NameError "cannot access free variable 'e' where it is not associated with a value in enclosing scope"),
             st))
  end.

End Refresh.

(** ** Reading the record of calls *)

Definition is_error (c : Z) : bool := ((400 <=? c) && (c <? 600))%Z.

Definition is_assignee_request (q : Request) : bool :=
  match q with
  | PATCH_assignee _ _ | PUT_assignee _ _ => true
  | _ => false
  end.

Definition is_assignee_call (c : Call) : bool := is_assignee_request (fst c).

(** The calls [m] adds to the record when run from [env]. *)
Definition calls_of {srv A} (m : M srv A) (env : Env srv) : list Call :=
  skipn (List.length (sent env)) (sent (snd (m env))).

(** [m] only ever adds calls whose request satisfies [P]. *)
Definition sends {srv A} (P : Request -> bool) (m : M srv A) : Prop :=
  forall env,
  exists calls,
    sent (snd (m env)) = sent env ++ calls
    /\ Forall (fun c => P (fst c) = true) calls.

(** ** Vocabulary of the properties *)

(** The address a record carries: none when [assignee] or its [email] is
    absent or [null]. *)
Definition assignee_email (r : Investigation) : option string :=
  match assignee r with
  | Val a => get (email a)
  | _ => None
  end.

(** The address with the whitespace around it removed; empty when the record
    carries none. *)
Definition stripped_email (r : Investigation) : string :=
  Py.strip (match assignee_email r with Some s => s | None => "" end).

(** [l1] is [l2] with some elements left out, the others in their order. *)
Inductive subseq {A : Type} : list A -> list A -> Prop :=
| subseq_nil : subseq [] []
| subseq_skip (x : A) (l1 l2 : list A) : subseq l1 l2 -> subseq l1 (x :: l2)
| subseq_keep (x : A) (l1 l2 : list A) :
    subseq l1 l2 -> subseq (x :: l1) (x :: l2).

(** The request for page [i]. *)
Definition page_call (i : nat) : Call :=
  (GET_investigations (with_index params_base (Z.of_nat i)), Some 200%Z).


(** Whether a [datetime] is aware. *)
Definition aware (d : datetime) : bool :=
  match utcoffset d with Some _ => true | None => false end.

(** Order of two rows by the instant of their keys. *)
Definition le_key {A : Type} (key : A -> datetime) (a b : A) : Prop :=
  (Datetime.instant (key a) <= Datetime.instant (key b))%Z.

(** The request [q] was answered, and not with an error status. *)
Definition accepted (calls : list Call) (q : Request) : Prop :=
  exists code, In (q, Some code) calls /\ is_error code = false.

(** [target] is the name under which the API knows [rec], and it is not
    empty: the name the record carries; for a record that carries none, its
    id when that is a name already; and otherwise the [rrn] of the record
    the API gave for the id (inside [data], or as the body), in answer to a
    [GET] that is among [calls] and was answered with a status that is no
    error. *)
Definition names (srv : Server) (rec : Investigation) (calls : list Call)
    (target : string) : Prop :=
  let inv_rrn := Py.or_str (get (rrn rec)) "" in
  let inv_id := Py.or_str (get (id rec)) "" in
  Py.truthy target = true
  /\ if Py.truthy inv_rrn then target = inv_rrn
     else if Py.startswith inv_id "rrn:" then target = inv_id
     else
       exists (w : World srv) r (inv : Investigation),
         fst (serve srv (GET_investigation inv_id) w) = Responds r
         /\ In (GET_investigation inv_id, Some (status_code r)) calls
         /\ is_error (status_code r) = false
         /\ (json r = Some (Wrapped (Some inv)) \/ json r = Some (Bare inv))
         /\ rrn inv = Val target.

(** Among [calls] are all the updates [spec] asks for on [rec], each
    answered well: the status and the disposition by a status that is no
    error, the assignee by a 200 or 204 to the [PATCH] or else by the [PUT],
    the comment by a 200 or 201, posted to the name of the record. *)
Definition applied_all (srv : Server) (spec : MutationSpec)
    (rec : Investigation) (calls : list Call) : Prop :=
  let inv_rrn := Py.or_str (get (rrn rec)) "" in
  let inv_id := Py.or_str (get (id rec)) "" in
  let key := Py.or_ inv_id inv_rrn in
  (Py.truthy (chosen_status spec) = true ->
   accepted calls (PUT_status key (chosen_status spec)))
  /\ (forall d, chosen_dispo spec = Some d -> Py.truthy d = true ->
      accepted calls (PUT_disposition key d))
  /\ (forall e, chosen_email spec = Some e -> Py.truthy e = true ->
      In (PATCH_assignee key e, Some 200%Z) calls
      \/ In (PATCH_assignee key e, Some 204%Z) calls
      \/ accepted calls (PUT_assignee key e))
  /\ (forall c, comment spec = Some c -> Py.truthy c = true ->
      exists target code,
        In (POST_comment target c, Some code) calls
        /\ (code = 200%Z \/ code = 201%Z)
        /\ names srv rec calls target).

Section Run.

Variable srv : Server.
Variable ep : Endpoints.
Variable spec : MutationSpec.
Variable rows : list Investigation.
Variable env : Env srv.

(** The results and the environment when the worker has finished the first
    [j] records of the run. *)
Definition before_record (j : nat) : Results * Env srv :=
  worker_loop srv ep spec (List.length rows) 1 (firstn j rows)
    (mkResults 0 [], env).

(** The [try] block of the record at 0-based position [j], as the run
    reaches it: how it ends and the calls it adds. *)
Definition attempt (j : nat) : option (Result unit * list Call) :=
  match nth_error rows j with
  | None => None
  | Some rec =>
      let (results, e) := before_record j in
      let e0 :=
        snd (after srv
               (update_detail (S j) (List.length rows)
                  (get_default (title rec) "")) e) in
      let m := try_body srv ep spec (S j) rec results in
      Some (fst (m e0), calls_of m e0)
  end.

Definition calls_at (j : nat) : list Call :=
  match attempt j with Some (_, calls) => calls | None => [] end.

End Run.

(** The queued calls of [_add_to_comment_history]. *)
Definition is_add_to_history (ev : UiEvent) : bool :=
  match ev with add_to_history _ => true | _ => false end.

Definition history_events (evs : list UiEvent) : nat :=
  List.length (filter is_add_to_history evs).

(** [m] queues nothing. *)
Definition silent {srv A} (m : M srv A) : Prop :=
  forall env, ui (snd (m env)) = ui env.

(** What the [try] block queues for the history, given how it ends. *)
Definition queued (spec : MutationSpec) (idx : nat) (results : Results)
    (out : Result unit) : list UiEvent :=
  match out, comment spec with
  | Returned _, Some c =>
      if (Py.truthy c && ((idx =? 1) && (successes results =? 0)))%nat
      then [add_to_history c] else []
  | _, _ => []
  end.

(** ** Vocabulary of the further properties *)

Section RunReport.

Variable srv : Server.
Variable ep : Endpoints.
Variable spec : MutationSpec.
Variable rows : list Investigation.
Variable env : Env srv.

(** Whether the [try] block of the record at position [j] returns. *)
Definition returned_at (j : nat) : bool :=
  match attempt srv ep spec rows env j with
  | Some (Returned _, _) => true
  | _ => false
  end.

(** The entry of [fails] the record at position [j] causes, if any. *)
Definition failure_at (j : nat) : list string :=
  match nth_error rows j, attempt srv ep spec rows env j with
  | Some rec, Some (Raised e, _) =>
      [Py.str_opt (get_default (title rec) "") +++ ": " +++ str_exn e]
  | _, _ => []
  end.

(** What the turn of the record at position [j] queues for the main loop. *)
Definition events_at (j : nat) : list UiEvent :=
  match nth_error rows j, attempt srv ep spec rows env j with
  | Some rec, Some (out, _) =>
      let t := get_default (title rec) "" in
      let total := List.length rows in
      update_detail (S j) total t
        :: match j with
           | O => queued spec 1 (mkResults 0 []) out
           | S _ => []
           end
        ++ [match out with
            | Returned _ => log_updated (S j) total t
            | Raised e => log_failed (S j) total t (str_exn e)
            end]
  | _, _ => []
  end.

End RunReport.

(** The place of a request in the order of a record's calls. *)
Definition rank (q : Request) : nat :=
  match q with
  | GET_investigations _ => 0
  | PUT_status _ _ => 1
  | PUT_disposition _ _ => 2
  | PATCH_assignee _ _ => 3
  | PUT_assignee _ _ => 4
  | GET_investigation _ => 5
  | POST_comment _ _ => 6
  end.

Definition rank_of (c : Call) : nat := rank (fst c).

(** [m] adds calls of ranks from [lo] up to, not including, [hi], each rank
    at most once and in rising order. *)
Definition staged {srv A} (lo hi : nat) (m : M srv A) : Prop :=
  forall env,
  exists calls,
    sent (snd (m env)) = sent env ++ calls
    /\ StronglySorted lt (map rank_of calls)
    /\ Forall (fun c => (lo <= rank_of c < hi)%nat) calls.

(** A call after which the worker goes on with the record: it was answered,
    and not with an error status, except that a refused [PATCH] of the
    assignee is followed by the [PUT]. *)
Definition passable (c : Call) : bool :=
  match snd c with
  | Some code =>
      negb (is_error code)
      || match fst c with PATCH_assignee _ _ => true | _ => false end
  | None => false
  end.

(** Of the calls [m] adds, all but the last are passable, and the last one
    too when [m] returns. *)
Definition tidy {srv A} (m : M srv A) : Prop :=
  forall env,
  exists calls,
    sent (snd (m env)) = sent env ++ calls
    /\ Forall (fun c => passable c = true) (removelast calls)
    /\ (forall a, fst (m env) = Returned a ->
                  Forall (fun c => passable c = true) calls).

(** Whether [o] holds the string [s]. *)
Definition holds (o : option string) (s : string) : bool :=
  match o with Some t => String.eqb t s | None => false end.

(** Whether [q] is a call the worker may issue for [rec] under [spec]: it
    addresses [rec] by the key the worker uses for it, it carries a value
    that [spec] asks for and that is not empty, and a comment goes to a
    target that is not empty, the record's own name when it has one. *)
Definition call_for (spec : MutationSpec) (rec : Investigation)
    (q : Request) : bool :=
  let inv_rrn := Py.or_str (get (rrn rec)) "" in
  let inv_id := Py.or_str (get (id rec)) "" in
  let key := Py.or_ inv_id inv_rrn in
  match q with
  | GET_investigations _ => false
  | PUT_status k s =>
      String.eqb k key && String.eqb (chosen_status spec) s && Py.truthy s
  | PUT_disposition k d =>
      String.eqb k key && holds (chosen_dispo spec) d && Py.truthy d
  | PATCH_assignee k e | PUT_assignee k e =>
      String.eqb k key && holds (chosen_email spec) e && Py.truthy e
  | GET_investigation i =>
      Py.truthy_opt (comment spec) && String.eqb i inv_id
      && negb (Py.truthy inv_rrn) && Py.truthy i
      && negb (Py.startswith i "rrn:")
  | POST_comment t c =>
      holds (comment spec) c && Py.truthy c && Py.truthy t
      && (if Py.truthy inv_rrn then String.eqb t inv_rrn else true)
  end.

(** A server that knows every investigation by the name [name]: it answers
    a [GET] with the record inside a [data] envelope when [wrapped], and
    with the bare record otherwise. *)
Definition resolving_server (wrapped : bool) (name : string) : Server :=
  mkServer unit
    (fun q w =>
       match q as q0 return Reply (body_of q0) * unit with
       | GET_investigations _ =>
           (Responds (mkResponse 200 "OK" "" "" None), w)
       | GET_investigation i =>
           let inv := investigation i name "found" "2024-03-01T10:00:00Z"
                        Missing in
           (Responds
              (mkResponse 200 "OK" "" ""
                 (Some (if wrapped then Wrapped (Some inv) else Bare inv))),
            w)
       | POST_comment _ _ =>
           (Responds (mkResponse 201 "Created" "" "" None), w)
       | _ => (Responds (mkResponse 200 "OK" "" "" None), w)
       end).

(** The kinds of request a field of the form gives rise to. *)
Definition is_status_request (q : Request) : bool :=
  match q with PUT_status _ _ => true | _ => false end.

Definition is_disposition_request (q : Request) : bool :=
  match q with PUT_disposition _ _ => true | _ => false end.

Definition is_comment_request (q : Request) : bool :=
  match q with
  | GET_investigation _ | POST_comment _ _ => true
  | _ => false
  end.

(** Whether a list response makes [list_investigations] ask for another
    page after the one at [index]: the page is not empty, the number of
    pages it declares is not zero and lies more than one beyond the index it
    reports (the index asked for when it reports none). *)
Definition promises_more (index : Z) (p : Payload) : bool :=
  match data p with
  | Val (_ :: _) =>
      let meta :=
        match metadata p with
        | Val m => m
        | _ => mkMetadata Missing Missing
        end in
      match total_pages meta, get_default (m_index meta) index with
      | Val t, Some current_index =>
          negb (t =? 0)%Z && (current_index <? t - 1)%Z
      | _, _ => false
      end
  | _ => false
  end.

(** A list endpoint that never runs dry: whatever page is asked for, it
    answers with [first_row] and reports the first of two pages. *)
Definition endless_server : Server :=
  mkServer unit
    (fun q w =>
       match q as q0 return Reply (body_of q0) * unit with
       | GET_investigations p =>
           (Responds
              (mkResponse 200 "OK" "" ""
                 (Some
                    (mkPayload (Val [first_row])
                       (Val (mkMetadata (Val 2%Z) (Val 0%Z)))))),
            w)
       | GET_investigation _ =>
           (Responds (mkResponse 404 "Not Found" "" "" None), w)
       | _ => (Responds (mkResponse 404 "Not Found" "" "" None), w)
       end).

(** The rows of [l] created at the instant [v], in their order in [l]. *)
Definition created_at {A : Type} (key : A -> datetime) (v : Z)
    (l : list A) : list A :=
  filter (fun r => (Datetime.instant (key r) =? v)%Z) l.

(** The rows whose box is ticked, the k-th box going with the k-th row. *)
Definition ticked (vars : list bool) (shown : list Investigation)
  : list Investigation :=
  map snd (filter fst (combine vars shown)).

(** The view for the state [st]. *)
Definition view_of (fromisoformat : string -> option datetime)
    (st : Listing.state) : Result (list Investigation) :=
  _sorted_rows_current_view fromisoformat (Listing.rows st)
    (Listing.sort_oldest_first st) (Listing.assignee_filter_var st).

(** Names and addresses as [save] and [get_assignees_from_settings] let
    them through: stripped and not empty. *)
Definition clean (p : string * string) : Prop :=
  Py.strip (fst p) = fst p /\ Py.strip (snd p) = snd p
  /\ Py.truthy (fst p) = true /\ Py.truthy (snd p) = true.

(** The text of a test comment. *)
Definition test_text (comment_box : string) : string :=
  Py.or_ (Py.strip comment_box) "Test comment from Troubleshoot button".

(** A server on which nothing can be looked up and that accepts every
    comment. *)
Definition lookup_fails : Server :=
  status_server
    (fun q =>
       match q with
       | GET_investigation _ => 404
       | POST_comment _ _ => 201
       | _ => 200
       end%Z).

(** The comments of a session that are not blank. *)
Definition not_blank (cs : list string) : list string :=
  filter (fun c => Py.truthy (Py.strip c)) cs.

(** The requests a run makes for [rec] when every one is accepted and the
    record has a name: one for each field of [spec] that is not empty. *)
Definition requests_for (spec : MutationSpec) (rec : Investigation)
  : list Request :=
  let inv_rrn := Py.or_str (get (rrn rec)) "" in
  let inv_id := Py.or_str (get (id rec)) "" in
  let key := Py.or_ inv_id inv_rrn in
  (if Py.truthy (chosen_status spec)
   then [PUT_status key (chosen_status spec)] else [])
  ++ (match chosen_dispo spec with
      | Some d => if Py.truthy d then [PUT_disposition key d] else []
      | None => []
      end)
  ++ (match chosen_email spec with
      | Some e => if Py.truthy e then [PATCH_assignee key e] else []
      | None => []
      end)
  ++ (match comment spec with
      | Some c => if Py.truthy c then [POST_comment inv_rrn c] else []
      | None => []
      end).

(** [m] returns from every environment, having added [calls]. *)
Definition returns_after {srv A} (m : M srv A) (calls : list Call) : Prop :=
  forall env,
  exists a env',
    m env = (Returned a, env') /\ sent env' = sent env ++ calls.

(** * Properties *)

(** ** Python strings *)

Lemma truthy_false_iff (s : string) : Py.truthy s = false <-> s = "".
Proof. destruct s; simpl; split; congruence. Qed.

Lemma startswith_truthy (s p : string) :
  Py.truthy p = true -> Py.startswith s p = true -> Py.truthy s = true.
Proof.
  unfold Py.startswith. destruct p as [|a p]; [discriminate|].
  destruct s as [|b s]; simpl; [discriminate | reflexivity].
Qed.

(** ** Identifier resolution *)

(** C8: an identifier that starts with [rrn:] is returned as it is, and the
    record of calls, the server and the queue are left as they were: no
    request is issued. *)
Theorem get_rrn_canonical_is_noop (srv : Server) (id_or_rrn : string)
    (env : Env srv) :
  Py.startswith id_or_rrn "rrn:" = true ->
  get_rrn srv id_or_rrn env = (Returned id_or_rrn, env).
Proof.
  intros H. unfold get_rrn.
  rewrite (startswith_truthy id_or_rrn "rrn:" eq_refl H). simpl.
  rewrite H. reflexivity.
Qed.

Lemma get_rrn_canonical_is_noop_witness :
  Py.startswith "rrn:investigation:ABC123" "rrn:" = true
  /\ get_rrn (status_server (fun _ => 500%Z)) "rrn:investigation:ABC123"
       (start (status_server (fun _ => 500%Z)) tt)
     = (Returned "rrn:investigation:ABC123",
        start (status_server (fun _ => 500%Z)) tt).
Proof.
  split; [reflexivity|].
  apply (get_rrn_canonical_is_noop (status_server (fun _ => 500%Z))).
  reflexivity.
Defined.

(** ** Comments *)

(** C10: with an empty or missing text, [create_comment_v1] returns
    [ok = True] and status 204 for every target, and the environment is the
    one it was given: no request is issued.  The worker's test of [ok]
    passes on that outcome, and its [if comment:] block is skipped for such
    a text whatever the block would do. *)
Theorem create_comment_v1_empty_text (srv : Server) (ep : Endpoints)
    (target_rrn : string) (text : option string) (env : Env srv) :
  Py.truthy_opt text = false ->
  create_comment_v1 srv ep target_rrn text env
  = (Returned (mkInfo true 204 (URL_V1_CREATE_COMMENT ep) "" None), env)
  /\ (forall info, fst (create_comment_v1 srv ep target_rrn text env)
                   = Returned info -> ok info = true)
  /\ (forall k, if_set srv text k env = (Returned tt, env)).
Proof.
  intros H.
  assert (E : create_comment_v1 srv ep target_rrn text env
              = (Returned (mkInfo true 204 (URL_V1_CREATE_COMMENT ep) "" None),
                 env)).
  { unfold create_comment_v1. destruct text as [t|]; [|reflexivity].
    simpl in H. rewrite H. reflexivity. }
  split; [exact E|]. split.
  - intros info. rewrite E. simpl. intros [= <-]. reflexivity.
  - intros k. unfold if_set. destruct text as [t|]; [|reflexivity].
    simpl in H. rewrite H. reflexivity.
Qed.

Lemma create_comment_v1_empty_text_witness :
  Py.truthy_opt (Some "") = false
  /\ create_comment_v1 (status_server (fun _ => 500%Z))
       (set_api_endpoints "us") "rrn:investigation:ABC123" (Some "")
       (start (status_server (fun _ => 500%Z)) tt)
     = (Returned
          (mkInfo true 204
             "https://us.api.insight.rapid7.com/idr/v1/comments" "" None),
        start (status_server (fun _ => 500%Z)) tt).
Proof.
  split; [reflexivity|].
  apply (create_comment_v1_empty_text (status_server (fun _ => 500%Z))
           (set_api_endpoints "us") "rrn:investigation:ABC123" (Some "")
           (start (status_server (fun _ => 500%Z)) tt) eq_refl).
Defined.

(** ** Comment history *)

Lemma last_n_length {A} (n : nat) (l : list A) :
  List.length (Py.last_n n l) = Nat.min n (List.length l).
Proof. unfold Py.last_n. rewrite length_skipn. lia. Qed.

Lemma last_n_suffix {A} (n : nat) (l : list A) :
  exists dropped, l = dropped ++ Py.last_n n l
                  /\ List.length dropped = List.length l - n.
Proof.
  exists (firstn (List.length l - n) l). unfold Py.last_n. split.
  - symmetry. apply firstn_skipn.
  - rewrite length_firstn. lia.
Qed.

(** X2: what is written to the settings file never holds more than 50
    entries, and they are the newest ones of the list in memory. *)
Lemma saved_history_is_last_50 (app : App) (d : Disk) :
  writable d = true ->
  cfg_comment_history (load_settings (_save_comment_history app d))
  = Py.last_n 50 (comment_history app)
  /\ (List.length
        (cfg_comment_history (load_settings (_save_comment_history app d)))
      <= 50)%nat.
Proof.
  intros W. unfold _save_comment_history, save_settings. rewrite W.
  unfold load_settings at 1 3. simpl. split; [reflexivity|].
  rewrite last_n_length. lia.
Qed.

(** An append of a text that is not blank makes the list in memory one entry
    longer, whatever its length was. *)
Lemma add_to_comment_history_length (now c : string) (app : App) (d : Disk) :
  Py.truthy (Py.strip c) = true ->
  List.length (comment_history (fst (_add_to_comment_history now c (app, d))))
  = S (List.length (comment_history app)).
Proof.
  intros H. unfold _add_to_comment_history.
  assert (T : Py.truthy c = true).
  { destruct c; [discriminate H | reflexivity]. }
  rewrite T, H. simpl. rewrite length_app. simpl. lia.
Qed.

(** C2, at the failing input: 51 appends in one session, starting from an
    empty history.  The list in memory, which the history tab displays, then
    holds 51 entries and still starts with the first comment; only the copy
    written to the settings file is cut to the newest 50. *)
Theorem comment_history_in_memory_exceeds_50 :
  let clock := fun k => "2026-01-01 00:00:" +++ Py.str_int (Z.of_nat k) in
  let texts := map (fun k => "comment " +++ Py.str_int (Z.of_nat k)) (seq 1 51) in
  let st := add_all clock 1 texts (_load_comment_history (mkDisk None true),
                                   mkDisk None true) in
  List.length (comment_history (fst st)) = 51%nat
  /\ option_map text (hd_error (comment_history (fst st))) = Some "comment 1"
  /\ List.length (cfg_comment_history (load_settings (snd st))) = 50%nat
  /\ option_map text (hd_error (cfg_comment_history (load_settings (snd st))))
     = Some "comment 2".
Proof. vm_compute. repeat split. Qed.

(** ** Which calls a computation adds *)

Section Sends.

Variable srv : Server.
Variable P : Request -> bool.

Lemma sends_ret {A} (a : A) : sends P (ret srv a).
Proof. intros env. exists []. simpl. rewrite app_nil_r. auto. Qed.

Lemma sends_raise {A} (e : exn) : sends P (@raise srv A e).
Proof. intros env. exists []. simpl. rewrite app_nil_r. auto. Qed.

Lemma sends_after (ev : UiEvent) : sends P (after srv ev).
Proof. intros env. exists []. simpl. rewrite app_nil_r. auto. Qed.

Lemma sends_request (q : Request) : P q = true -> sends P (request srv q).
Proof.
  intros H env. unfold request.
  destruct (serve srv q (world env)) as [[e|r] w]; simpl;
    eexists; (split; [reflexivity|]); repeat constructor; exact H.
Qed.

Lemma sends_bind {A B} (m : M srv A) (k : A -> M srv B) :
  sends P m -> (forall a, sends P (k a)) -> sends P (bind srv m k).
Proof.
  intros Hm Hk env. unfold bind.
  destruct (Hm env) as (c1 & E1 & F1).
  destruct (m env) as [[a|e] env1] eqn:Em; simpl in *.
  - destruct (Hk a env1) as (c2 & E2 & F2).
    exists (c1 ++ c2). rewrite E2, E1, app_assoc. split; [reflexivity|].
    apply Forall_app; auto.
  - exists c1. auto.
Qed.

Lemma sends_raise_for_status {B} (r : Response B) :
  sends P (raise_for_status srv r).
Proof.
  unfold raise_for_status.
  repeat match goal with |- context [if ?b then _ else _] => destruct b end;
    first [apply sends_raise | apply sends_ret].
Qed.

Lemma sends_decode {B} (r : Response B) : sends P (decode srv r).
Proof.
  unfold decode. destruct (json r); auto using sends_raise, sends_ret.
Qed.

Lemma sends_set_status (k s : string) :
  P (PUT_status k s) = true -> sends P (set_status srv k s).
Proof.
  intros H. unfold set_status.
  apply sends_bind; auto using sends_request, sends_raise_for_status.
Qed.

Lemma sends_set_disposition (k s : string) :
  P (PUT_disposition k s) = true -> sends P (set_disposition srv k s).
Proof.
  intros H. unfold set_disposition.
  apply sends_bind; auto using sends_request, sends_raise_for_status.
Qed.

Lemma sends_assign_user (k e : string) :
  P (PATCH_assignee k e) = true -> P (PUT_assignee k e) = true ->
  sends P (assign_user srv k e).
Proof.
  intros H1 H2. unfold assign_user.
  apply sends_bind; [auto using sends_request|]. intros r.
  destruct (_ || _)%bool; [apply sends_ret|].
  apply sends_bind; auto using sends_request, sends_raise_for_status.
Qed.

Lemma sends_get_rrn (i : string) :
  P (GET_investigation i) = true -> sends P (get_rrn srv i).
Proof.
  intros H. unfold get_rrn.
  destruct (negb _); [apply sends_raise|].
  destruct (Py.startswith _ _); [apply sends_ret|].
  apply sends_bind; [auto using sends_request|]. intros r.
  apply sends_bind; [apply sends_raise_for_status|]. intros _.
  apply sends_bind; [apply sends_decode|]. intros j.
  destruct j as [[inv|]|inv|]; try apply sends_raise;
    (destruct (get (rrn inv)) as [s|]; [|apply sends_raise];
     destruct (Py.truthy s); auto using sends_raise, sends_ret).
Qed.

Lemma sends_create_comment_v1 (ep : Endpoints) (t : string)
    (text : option string) :
  (forall c, text = Some c -> P (POST_comment t c) = true) ->
  sends P (create_comment_v1 srv ep t text).
Proof.
  intros H. unfold create_comment_v1.
  destruct text as [c|]; [|apply sends_ret].
  destruct (Py.truthy c); [|apply sends_ret].
  apply sends_bind; [auto using sends_request|]. intros r. apply sends_ret.
Qed.

Lemma sends_if_set (x : option string) (k : string -> M srv unit) :
  (forall s, x = Some s -> sends P (k s)) -> sends P (if_set srv x k).
Proof.
  intros H. unfold if_set. destruct x as [s|]; [|apply sends_ret].
  destruct (Py.truthy s); [auto | apply sends_ret].
Qed.

End Sends.

(** ** Bulk update: the assignee step *)

Section WorkerSends.

Variable srv : Server.
Variable ep : Endpoints.
Variable P : Request -> bool.
Variable spec : MutationSpec.

(** Every request the [try] block can issue for [spec] satisfies [P]. *)
Hypothesis try_body_sends :
  forall idx rec results, sends P (try_body srv ep spec idx rec results).

Lemma worker_turn_sends (total idx : nat) (rec : Investigation)
    (st : Results * Env srv) :
  exists calls,
    sent (snd (worker_turn srv ep spec total idx rec st))
    = sent (snd st) ++ calls
    /\ Forall (fun c => P (fst c) = true) calls.
Proof.
  destruct st as [results env]. unfold worker_turn.
  set (env0 := snd (after srv _ env)).
  destruct (try_body_sends idx rec results env0) as (calls & E & F).
  exists calls. split; [|exact F].
  destruct (try_body srv ep spec idx rec results env0) as [[u|e] env1];
    simpl in *; exact E.
Qed.

Lemma worker_loop_sends (total : nat) (rows : list Investigation) :
  forall idx st,
  exists calls,
    sent (snd (worker_loop srv ep spec total idx rows st))
    = sent (snd st) ++ calls
    /\ Forall (fun c => P (fst c) = true) calls.
Proof.
  induction rows as [|rec rest IH]; intros idx st; simpl.
  - exists []. rewrite app_nil_r. auto.
  - destruct (IH (S idx) (worker_turn srv ep spec total idx rec st))
      as (c2 & E2 & F2).
    destruct (worker_turn_sends total idx rec st) as (c1 & E1 & F1).
    exists (c1 ++ c2). rewrite E2, E1, app_assoc. split; [reflexivity|].
    apply Forall_app; auto.
Qed.

Lemma worker_sends (rows : list Investigation) (env : Env srv) :
  exists calls,
    sent (snd (worker srv ep spec rows env)) = sent env ++ calls
    /\ Forall (fun c => P (fst c) = true) calls.
Proof.
  unfold worker.
  destruct (worker_loop_sends (List.length rows) rows 1
              (mkResults 0 [], env)) as (calls & E & F).
  destruct (worker_loop srv ep spec (List.length rows) 1 rows _)
    as [results env'].
  exists calls. simpl in *. auto.
Qed.

End WorkerSends.

Lemma no_change_label_gives_no_email (cfg : Settings) :
  email_of_label (get_assignees_from_settings cfg) "Unassigned / No Change"
  = None.
Proof. reflexivity. Qed.

Lemma try_body_without_email_sends (srv : Server) (ep : Endpoints)
    (spec : MutationSpec) (idx : nat) (rec : Investigation)
    (results : Results) :
  chosen_email spec = None ->
  sends (fun q => negb (is_assignee_request q))
    (try_body srv ep spec idx rec results).
Proof.
  intros H. unfold try_body. rewrite H.
  repeat (apply sends_bind; [|intros _]).
  - apply sends_if_set. intros s _. apply sends_set_status. reflexivity.
  - apply sends_if_set. intros s _. apply sends_set_disposition. reflexivity.
  - apply sends_ret.
  - apply sends_if_set. intros c _. unfold comment_step.
    apply sends_bind.
    + destruct (Py.truthy _); [apply sends_ret|].
      apply sends_get_rrn. reflexivity.
    + intros t. apply sends_bind.
      * apply sends_create_comment_v1. reflexivity.
      * intros info. destruct (negb _); [apply sends_raise|].
        destruct (_ && _)%bool; [apply sends_after | apply sends_ret].
Qed.

(** C9: when the assignee chosen in the form is the entry
    "Unassigned / No Change" (the one with no address), the whole run adds no
    [PATCH] or [PUT] assignee call to the record of calls, for any selection,
    any settings and any server. *)
Theorem no_change_assignee_issues_no_assignee_call (srv : Server)
    (ep : Endpoints) (cfg : Settings) (form : Form)
    (rows : list Investigation) (env : Env srv) :
  assignee_choice form = "Unassigned / No Change" ->
  chosen_email (mutation_spec cfg form) = None
  /\ filter is_assignee_call
       (sent (snd (update_selected_async srv ep cfg form rows env)))
     = filter is_assignee_call (sent env).
Proof.
  intros H.
  assert (E : chosen_email (mutation_spec cfg form) = None).
  { unfold mutation_spec.
    change (email_of_label (get_assignees_from_settings cfg)
              (assignee_choice form) = None).
    rewrite H. apply no_change_label_gives_no_email. }
  split; [exact E|].
  unfold update_selected_async. destruct rows as [|r rows]; [reflexivity|].
  destruct (worker_sends srv ep (fun q => negb (is_assignee_request q))
              (mutation_spec cfg form)
              (fun idx rec results =>
                 try_body_without_email_sends srv ep _ idx rec results E)
              (r :: rows) env) as (calls & Es & F).
  destruct (worker srv ep (mutation_spec cfg form) (r :: rows) env)
    as [results env'].
  simpl in *. rewrite Es, filter_app.
  assert (N : filter is_assignee_call calls = []).
  { clear Es. induction F as [|c calls Hc F IH]; [reflexivity|].
    simpl. unfold is_assignee_call at 1.
    destruct (is_assignee_request (fst c)); [discriminate Hc | exact IH]. }
  rewrite N. apply app_nil_r.
Qed.

(** ** Assignee filter *)

Lemma subseq_refl {A} (l : list A) : subseq l l.
Proof. induction l; constructor; assumption. Qed.

Lemma filter_subseq {A} (p : A -> bool) (l : list A) : subseq (filter p l) l.
Proof.
  induction l as [|x l IH]; simpl; [constructor|].
  destruct (p x); constructor; exact IH.
Qed.

Lemma assignee_from_rec_stripped (r : Investigation) :
  _assignee_from_rec r = stripped_email r.
Proof.
  unfold _assignee_from_rec, stripped_email, assignee_email.
  destruct (assignee r) as [| |a]; simpl; try reflexivity.
  destruct (email a) as [| |s]; simpl; try reflexivity.
  destruct s; reflexivity.
Qed.

Lemma filter_ext_bool {A} (p q : A -> bool) (l : list A) :
  (forall x, p x = q x) -> filter p l = filter q l.
Proof.
  intros H. induction l as [|x l IH]; simpl; [reflexivity|].
  rewrite H, IH. reflexivity.
Qed.

(** C7, as amended: ["All"] returns the rows as they are; ["Unassigned"]
    returns exactly the rows whose address is empty once the whitespace
    around it is removed (no assignee, no address, or a blank one); any other
    choice returns exactly the rows whose address, with the whitespace around
    it removed, is that choice; the rows kept stay in their order. *)
Theorem assignee_filter_keeps_stripped_matches (rows : list Investigation) :
  _apply_assignee_filter "All" rows = rows
  /\ _apply_assignee_filter "Unassigned" rows
     = filter (fun r => String.eqb (stripped_email r) "") rows
  /\ (forall choice,
        choice <> "All" -> choice <> "Unassigned" ->
        _apply_assignee_filter choice rows
        = filter (fun r => String.eqb (stripped_email r) choice) rows)
  /\ (forall choice, subseq (_apply_assignee_filter choice rows) rows).
Proof.
  split; [reflexivity|]. split; [|split].
  - unfold _apply_assignee_filter. simpl. apply filter_ext_bool. intros r.
    rewrite assignee_from_rec_stripped. destruct (stripped_email r); reflexivity.
  - intros choice H1 H2. unfold _apply_assignee_filter.
    destruct (String.eqb_spec choice "All") as [E|_]; [contradiction|].
    destruct (String.eqb_spec choice "Unassigned") as [E|_]; [contradiction|].
    apply filter_ext_bool. intros r. rewrite assignee_from_rec_stripped.
    reflexivity.
  - intros choice. unfold _apply_assignee_filter.
    destruct (String.eqb choice "All"); [apply subseq_refl|].
    destruct (String.eqb choice "Unassigned"); apply filter_subseq.
Qed.

Lemma assignee_filter_keeps_stripped_matches_witness :
  "bob@example.com" <> "All" /\ "bob@example.com" <> "Unassigned"
  /\ _apply_assignee_filter "bob@example.com"
       [investigation "1" "rrn:1" "first" "2024-03-01T10:00:00Z"
          (Val "amy@example.com");
        investigation "2" "rrn:2" "second" "2024-03-02T10:00:00Z"
          (Val " bob@example.com ");
        investigation "3" "rrn:3" "third" "2024-03-03T10:00:00Z" Null;
        investigation "4" "rrn:4" "fourth" "2024-03-04T10:00:00Z"
          (Val "bob@example.com")]
     = [investigation "2" "rrn:2" "second" "2024-03-02T10:00:00Z"
          (Val " bob@example.com ");
        investigation "4" "rrn:4" "fourth" "2024-03-04T10:00:00Z"
          (Val "bob@example.com")].
Proof.
  split; [discriminate|]. split; [discriminate|].
  rewrite (proj1 (proj2 (proj2 (assignee_filter_keeps_stripped_matches _)))
             "bob@example.com");
    [reflexivity | discriminate | discriminate].
Defined.

(** C7 as the claim words it, that a literal choice keeps the rows whose
    address equals the choice and "Unassigned" the rows with an empty or
    missing address, fails on addresses with whitespace around them: the row
    with address [" bob@example.com "] is kept for the choice
    ["bob@example.com"], and a row whose address is three spaces is kept for
    "Unassigned". *)
Lemma assignee_filter_literal_counterexample :
  let padded :=
    investigation "2" "rrn:2" "second" "2024-03-02T10:00:00Z"
      (Val " bob@example.com ") in
  let blank :=
    investigation "5" "rrn:5" "fifth" "2024-03-05T10:00:00Z" (Val "   ") in
  assignee_email padded = Some " bob@example.com "
  /\ _apply_assignee_filter "bob@example.com" [padded] = [padded]
  /\ filter (fun r => match assignee_email r with
                      | Some s => String.eqb s "bob@example.com"
                      | None => false
                      end) [padded] = []
  /\ assignee_email blank = Some "   "
  /\ _apply_assignee_filter "Unassigned" [blank] = [blank]
  /\ filter (fun r => match assignee_email r with
                      | Some s => String.eqb s ""
                      | None => true
                      end) [blank] = [].
Proof. vm_compute. repeat split. Qed.

(** ** Paginated fetch *)

(** One turn against [paged_server]: an empty page stops the loop with what
    was gathered; otherwise the page is appended and the loop goes on unless
    this was the last page. *)
Lemma paged_turn (pages : list (list Investigation)) (i : nat)
    (acc : list Investigation) (env : Env (paged_server pages)) :
  list_investigations_turn (paged_server pages) (Z.of_nat i) acc env
  = (match nth i pages [] with
     | [] => Returned (false, acc)
     | p =>
         Returned
           (negb ((Z.of_nat (List.length pages) =? 0)
                  || (Z.of_nat (List.length pages) - 1 <=? Z.of_nat i))%Z,
            acc ++ p)
     end,
     mkEnv (world env) (sent env ++ [page_call i]) (ui env)).
Proof.
  unfold list_investigations_turn, bind, request. simpl.
  rewrite Nat2Z.id.
  destruct (nth i pages []) as [|x p]; simpl; [reflexivity|].
  destruct (_ || _)%bool; reflexivity.
Qed.

Lemma paged_loop (pages : list (list Investigation)) :
  Forall (fun p => p <> []) pages ->
  forall rest done acc env fuel,
    pages = done ++ rest -> rest <> [] ->
    (List.length rest <= fuel)%nat ->
    list_investigations_from (paged_server pages) fuel
      (Z.of_nat (List.length done)) acc env
    = Some (Returned (acc ++ List.concat rest),
            mkEnv (world env)
              (sent env
               ++ map page_call (seq (List.length done) (List.length rest)))
              (ui env)).
Proof.
  intros NE rest.
  induction rest as [|p rest IH]; intros done acc env fuel E R F;
    [congruence|].
  destruct fuel as [|fuel]; [simpl in F; lia|].
  cbn [list_investigations_from]. rewrite paged_turn.
  assert (Hp : nth (List.length done) pages [] = p).
  { rewrite E. apply nth_middle. }
  assert (Np : p <> []).
  { rewrite Forall_forall in NE. apply NE. rewrite E.
    apply in_or_app. right. left. reflexivity. }
  rewrite Hp. destruct p as [|x p]; [congruence|].
  assert (L : List.length pages = (List.length done + S (List.length rest))%nat).
  { rewrite E, length_app. reflexivity. }
  destruct rest as [|q rest].
  - assert (C : ((Z.of_nat (List.length pages) =? 0)
                 || (Z.of_nat (List.length pages) - 1
                     <=? Z.of_nat (List.length done)))%Z = true).
    { apply orb_true_iff. right. apply Z.leb_le. rewrite L. simpl. lia. }
    rewrite C. simpl. rewrite app_nil_r. reflexivity.
  - assert (C : ((Z.of_nat (List.length pages) =? 0)
                 || (Z.of_nat (List.length pages) - 1
                     <=? Z.of_nat (List.length done)))%Z = false).
    { apply orb_false_iff. split; [apply Z.eqb_neq | apply Z.leb_gt];
        rewrite L; simpl List.length; lia. }
    rewrite C. cbn [negb].
    replace (Z.of_nat (List.length done) + 1)%Z
      with (Z.of_nat (List.length (done ++ [x :: p])))
      by (rewrite length_app; simpl; lia).
    rewrite (IH (done ++ [x :: p])).
    + cbn [world sent ui]. rewrite <- !app_assoc.
      replace (List.length (done ++ [x :: p])) with (S (List.length done))
        by (rewrite length_app; simpl; lia).
      reflexivity.
    + rewrite E, <- app_assoc. reflexivity.
    + discriminate.
    + simpl in F |- *. lia.
Qed.

(** Against a server that holds [pages], none of them empty, the fetch ends
    within [max 1 (length pages)] turns and returns the pages one after the
    other, having asked for each page once. *)
Lemma list_investigations_paged (pages : list (list Investigation))
    (fuel : nat) (env : Env (paged_server pages)) :
  Forall (fun p => p <> []) pages ->
  (Nat.max 1 (List.length pages) <= fuel)%nat ->
  list_investigations (paged_server pages) fuel env
  = Some (Returned (List.concat pages),
          mkEnv (world env)
            (sent env
             ++ map page_call (seq 0 (Nat.max 1 (List.length pages))))
            (ui env)).
Proof.
  intros NE F. unfold list_investigations.
  destruct pages as [|p pages].
  - destruct fuel as [|fuel]; [simpl in F; lia|].
    cbn [list_investigations_from].
    change 0%Z with (Z.of_nat 0).
    rewrite (paged_turn [] 0 [] env). reflexivity.
  - change 0%Z with (Z.of_nat (List.length (@nil (list Investigation)))).
    rewrite (paged_loop (p :: pages) NE (p :: pages) [] [] env fuel eq_refl);
      [ | discriminate | simpl in F |- *; lia].
    replace (Nat.max 1 (List.length (p :: pages)))
      with (List.length (p :: pages)) by (simpl; lia).
    reflexivity.
Qed.

Lemma chunk_from_spec (page_size : nat) :
  (0 < page_size)%nat ->
  forall fuel items,
    (List.length items <= fuel)%nat ->
    List.concat (chunk_from fuel page_size items) = items
    /\ Forall (fun p => p <> []) (chunk_from fuel page_size items)
    /\ Forall (fun p => (List.length p <= page_size)%nat)
         (chunk_from fuel page_size items).
Proof.
  intros Hp. induction fuel as [|fuel IH]; intros items F.
  - destruct items; [simpl; auto | simpl in F; lia].
  - destruct items as [|x items]; [simpl; auto|].
    cbn [chunk_from].
    destruct (IH (skipn page_size (x :: items))) as (C & N & B).
    { rewrite length_skipn. cbn [List.length] in F |- *. lia. }
    split; [|split].
    + cbn [List.concat]. rewrite C. apply firstn_skipn.
    + constructor; [|exact N].
      destruct page_size; [lia | discriminate].
    + constructor; [|exact B]. rewrite length_firstn. lia.
Qed.

Lemma bind_returns (srv : Server) {A B} (m : M srv A) (k : A -> M srv B)
    (env env' : Env srv) (a : A) :
  m env = (Returned a, env') -> bind srv m k env = k a env'.
Proof. intros H. unfold bind. rewrite H. reflexivity. Qed.

(** X3: the three ways the loop of [list_investigations] ends, against any
    server: on a page without items it returns what it has gathered; on a
    page with items it returns them appended when the declared page count is
    zero (or absent), or when the reported index has reached the last
    page. *)
Lemma list_investigations_stops (srv : Server) (fuel : nat) (index : Z)
    (acc : list Investigation) (env : Env srv) (r : Response Payload)
    (w : World srv) (payload : Payload) :
  serve srv (GET_investigations (with_index params_base index)) (world env)
  = (Responds r, w) ->
  is_error (status_code r) = false ->
  json r = Some payload ->
  let items := match data payload with Val l => l | _ => [] end in
  let meta :=
    match metadata payload with
    | Val m => m
    | _ => mkMetadata Missing Missing
    end in
  let declared := match total_pages meta with Val z => z | _ => 0%Z end in
  let env' :=
    mkEnv w
      (sent env
       ++ [(GET_investigations (with_index params_base index),
            Some (status_code r))])
      (ui env) in
  (items = [] ->
   list_investigations_from srv (S fuel) index acc env
   = Some (Returned acc, env'))
  /\ (forall current,
        items <> [] ->
        get_default (m_index meta) index = Some current ->
        (declared = 0 \/ declared - 1 <= current)%Z ->
        list_investigations_from srv (S fuel) index acc env
        = Some (Returned (acc ++ items), env')).
Proof.
  intros Hs Ok Hj. cbv zeta.
  unfold is_error in Ok.
  assert (R : forall e : Env srv, raise_for_status srv r e = (Returned tt, e)).
  { intros e. unfold raise_for_status.
    destruct (Z.leb_spec 400 (status_code r)),
             (Z.ltb_spec (status_code r) 500),
             (Z.leb_spec 500 (status_code r)),
             (Z.ltb_spec (status_code r) 600);
      simpl in Ok |- *; first [reflexivity | discriminate | exfalso; lia]. }
  assert (Q : request srv (GET_investigations (with_index params_base index))
                env
              = (Returned r,
                 mkEnv w
                   (sent env
                    ++ [(GET_investigations (with_index params_base index),
                         Some (status_code r))])
                   (ui env))).
  { unfold request. rewrite Hs. reflexivity. }
  assert (D : forall e : Env srv, decode srv r e = (Returned payload, e)).
  { intros e. unfold decode. rewrite Hj. reflexivity. }
  split.
  - intros E. cbn [list_investigations_from].
    unfold list_investigations_turn.
    rewrite (bind_returns srv _ _ _ _ _ Q).
    rewrite (bind_returns srv _ _ _ _ _ (R _)).
    rewrite (bind_returns srv _ _ _ _ _ (D _)).
    rewrite E. reflexivity.
  - intros current NE Hc Stop. cbn [list_investigations_from].
    unfold list_investigations_turn.
    rewrite (bind_returns srv _ _ _ _ _ Q).
    rewrite (bind_returns srv _ _ _ _ _ (R _)).
    rewrite (bind_returns srv _ _ _ _ _ (D _)).
    destruct (match data payload with Val l => l | _ => [] end) as [|x items];
      [congruence|].
    rewrite Hc.
    match goal with
    | |- context [if ?c then _ else _] =>
        assert (C : c = true);
        [ apply orb_true_iff; destruct Stop as [Z0|Last];
          [ left; apply Z.eqb_eq; exact Z0
          | right; apply Z.leb_le; exact Last ]
        | rewrite C; reflexivity ]
    end.
Qed.

(** C4: a server that holds [items] in pages of any size [page_size > 0] and
    reports the page index and the page count with every page.  With at
    least [max 1 N] turns, [N] the number of pages, the fetch ends and
    returns exactly [items]: the pages one after the other, each asked for
    once, nothing twice and nothing left out. *)
Theorem list_investigations_fetches_every_page (page_size : nat)
    (items : list Investigation) (fuel : nat) :
  (0 < page_size)%nat ->
  (Nat.max 1 (List.length (chunk page_size items)) <= fuel)%nat ->
  list_investigations (fake_server page_size items) fuel
    (start (fake_server page_size items) tt)
  = Some (Returned items,
          @mkEnv (fake_server page_size items) tt
            (map page_call
               (seq 0 (Nat.max 1 (List.length (chunk page_size items)))))
            [])
  /\ List.concat (chunk page_size items) = items.
Proof.
  intros Hp F.
  destruct (chunk_from_spec page_size Hp (List.length items) items (le_n _))
    as (C & N & _).
  fold (chunk page_size items) in C, N.
  split; [|exact C].
  unfold fake_server.
  rewrite (list_investigations_paged (chunk page_size items) fuel _ N F).
  rewrite C. reflexivity.
Qed.

(** ** Bulk update: one record's failure *)

Section Steps.

Variable srv : Server.
Variable ep : Endpoints.

Lemma bind_returned {A B} (m : M srv A) (k : A -> M srv B)
    (env env2 : Env srv) (b : B) :
  bind srv m k env = (Returned b, env2) ->
  exists a env1, m env = (Returned a, env1) /\ k a env1 = (Returned b, env2).
Proof.
  unfold bind. destruct (m env) as [[a|e] env1]; [|discriminate].
  intros H. exists a, env1. auto.
Qed.

Lemma raise_for_status_returned {B} (r : Response B) (env env' : Env srv)
    (u : unit) :
  raise_for_status srv r env = (Returned u, env') ->
  env' = env /\ is_error (status_code r) = false.
Proof.
  unfold raise_for_status, is_error, raise, ret.
  destruct (Z.leb_spec 400 (status_code r)),
           (Z.ltb_spec (status_code r) 500),
           (Z.leb_spec 500 (status_code r)),
           (Z.ltb_spec (status_code r) 600);
    simpl; try discriminate; intros [= E]; subst env'; split;
    first [reflexivity | exfalso; lia].
Qed.

Lemma request_returned (q : Request) (env env' : Env srv)
    (r : Response (body_of q)) :
  request srv q env = (Returned r, env') ->
  sent env' = sent env ++ [(q, Some (status_code r))].
Proof.
  unfold request. destruct (serve srv q (world env)) as [[e|r'] w];
    [discriminate|].
  intros [= <- <-]. reflexivity.
Qed.

Lemma checked_request_returned (q : Request) (env env' : Env srv)
    (u : unit) :
  bind srv (request srv q) (fun r => raise_for_status srv r) env
  = (Returned u, env') ->
  exists code,
    sent env' = sent env ++ [(q, Some code)] /\ is_error code = false.
Proof.
  intros H. apply bind_returned in H. destruct H as (r & env1 & H1 & H2).
  apply request_returned in H1.
  apply raise_for_status_returned in H2. destruct H2 as [-> E].
  exists (status_code r). auto.
Qed.

Lemma assign_user_returned (k e : string) (env env' : Env srv) (u : unit) :
  assign_user srv k e env = (Returned u, env') ->
  exists calls,
    sent env' = sent env ++ calls
    /\ (In (PATCH_assignee k e, Some 200%Z) calls
        \/ In (PATCH_assignee k e, Some 204%Z) calls
        \/ accepted calls (PUT_assignee k e)).
Proof.
  intros H. unfold assign_user in H. apply bind_returned in H.
  destruct H as (r & env1 & H1 & H2). apply request_returned in H1.
  destruct (Z.eqb_spec (status_code r) 200) as [E200|N200].
  - simpl in H2. injection H2 as _ <-. eexists. split; [exact H1|].
    left. rewrite E200. left. reflexivity.
  - destruct (Z.eqb_spec (status_code r) 204) as [E204|N204].
    + simpl in H2. injection H2 as _ <-. eexists. split; [exact H1|].
      right. left. rewrite E204. left. reflexivity.
    + simpl in H2.
      apply (checked_request_returned (PUT_assignee k e)) in H2.
      destruct H2 as (code & S2 & E2).
      exists [(PATCH_assignee k e, Some (status_code r));
              (PUT_assignee k e, Some code)].
      split.
      * rewrite S2, H1, <- app_assoc. reflexivity.
      * right. right. exists code. split; [|exact E2].
        right. left. reflexivity.
Qed.

Lemma create_comment_v1_returned (t c : string) (env env' : Env srv)
    (info : CommentInfo) :
  Py.truthy c = true ->
  create_comment_v1 srv ep t (Some c) env = (Returned info, env') ->
  sent env' = sent env ++ [(POST_comment t c, Some (info_status info))]
  /\ (ok info = true ->
      info_status info = 200%Z \/ info_status info = 201%Z).
Proof.
  intros T H. unfold create_comment_v1 in H. rewrite T in H.
  apply bind_returned in H. destruct H as (r & env1 & H1 & H2).
  apply request_returned in H1. injection H2 as <- <-.
  split; [exact H1|]. simpl. intros O.
  apply orb_true_iff in O. destruct O as [O|O]; apply Z.eqb_eq in O; auto.
Qed.

(** What [get_rrn] returns, and from which answer. *)
Lemma get_rrn_returned (i s : string) (env env' : Env srv) :
  get_rrn srv i env = (Returned s, env') ->
  Py.truthy s = true
  /\ ((Py.startswith i "rrn:" = true /\ s = i /\ env' = env)
      \/ (Py.startswith i "rrn:" = false
          /\ exists r inv,
               fst (serve srv (GET_investigation i) (world env))
               = Responds r
               /\ is_error (status_code r) = false
               /\ (json r = Some (Wrapped (Some inv))
                   \/ json r = Some (Bare inv))
               /\ rrn inv = Val s
               /\ sent env'
                  = sent env
                    ++ [(GET_investigation i, Some (status_code r))])).
Proof.
  unfold get_rrn. destruct (Py.truthy i) eqn:Ti; [|discriminate].
  cbn [negb]. destruct (Py.startswith i "rrn:").
  { intros [= <- <-]. split; [exact Ti|]. left. auto. }
  intros H.
  apply bind_returned in H. destruct H as (r & env1 & H1 & H).
  apply bind_returned in H. destruct H as (u & env2 & H2 & H).
  apply bind_returned in H. destruct H as (j & env3 & H3 & H).
  apply raise_for_status_returned in H2. destruct H2 as [-> Ok].
  assert (Sv : fst (serve srv (GET_investigation i) (world env))
               = Responds r
               /\ sent env1
                  = sent env ++ [(GET_investigation i, Some (status_code r))]).
  { unfold request in H1.
    destruct (serve srv (GET_investigation i) (world env)) as [[e|r'] w];
      [discriminate H1|].
    injection H1 as <- <-. split; reflexivity. }
  destruct Sv as [Sv Se].
  unfold decode in H3. cbn [body_of] in *.
  destruct (json r) as [b|] eqn:J; [|discriminate H3].
  injection H3 as <- <-.
  assert (Fin : forall inv,
             (json r = Some (Wrapped (Some inv))
              \/ json r = Some (Bare inv)) ->
             match get (rrn inv) with
             | Some s0 =>
                 if Py.truthy s0 then ret srv s0
                 else raise srv
                        (RuntimeError "Could not find RRN in v2 response")
             | None =>
                 raise srv (RuntimeError "Could not find RRN in v2 response")
             end env1 = (Returned s, env') ->
             Py.truthy s = true
             /\ exists r0 inv0,
                  Responds r = Responds r0
                  /\ is_error (status_code r0) = false
                  /\ (json r0 = Some (Wrapped (Some inv0))
                      \/ json r0 = Some (Bare inv0))
                  /\ rrn inv0 = Val s
                  /\ sent env'
                     = sent env
                       ++ [(GET_investigation i, Some (status_code r0))]).
  { intros inv Shape K.
    destruct (rrn inv) as [| |s0] eqn:Rr; try discriminate K.
    cbn [get] in K. destruct (Py.truthy s0) eqn:T0; [|discriminate K].
    injection K as <- <-. split; [exact T0|].
    exists r, inv. repeat split; assumption. }
  destruct b as [[inv|]|inv|]; try discriminate H.
  - destruct (Fin inv (or_introl J) H) as (T & r0 & inv0 & E & Rest).
    split; [exact T|]. right. split; [reflexivity|].
    exists r0, inv0. rewrite Sv, E. split; [reflexivity | exact Rest].
  - destruct (Fin inv (or_intror J) H) as (T & r0 & inv0 & E & Rest).
    split; [exact T|]. right. split; [reflexivity|].
    exists r0, inv0. rewrite Sv, E. split; [reflexivity | exact Rest].
Qed.

Lemma names_incl (rec : Investigation) (a b : list Call) (t : string) :
  incl a b -> names srv rec a t -> names srv rec b t.
Proof.
  unfold names. intros Sub [T H]. split; [exact T|].
  destruct (Py.truthy (Py.or_str (get (rrn rec)) "")); [exact H|].
  destruct (Py.startswith (Py.or_str (get (id rec)) "") "rrn:");
    [exact H|].
  destruct H as (w & r & inv & Sv & I & Rest).
  exists w, r, inv. split; [exact Sv|]. split; [|exact Rest].
  apply Sub. exact I.
Qed.

Lemma names_app (rec : Investigation) (a b : list Call) (t : string) :
  names srv rec b t -> names srv rec (a ++ b) t.
Proof. apply names_incl. apply incl_appr. apply incl_refl. Qed.

(** The target of the comment is the name of the record. *)
Lemma target_returned (rec : Investigation) (t : string)
    (env env' : Env srv) :
  (if Py.truthy (Py.or_str (get (rrn rec)) "")
   then ret srv (Py.or_str (get (rrn rec)) "")
   else get_rrn srv (Py.or_str (get (id rec)) "")) env
  = (Returned t, env') ->
  exists calls, sent env' = sent env ++ calls /\ names srv rec calls t.
Proof.
  unfold names. intros H.
  destruct (Py.truthy (Py.or_str (get (rrn rec)) "")) eqn:Tr.
  - injection H as <- <-. exists []. split; [symmetry; apply app_nil_r|].
    split; [exact Tr | reflexivity].
  - apply get_rrn_returned in H.
    destruct H as [T [(Sw & -> & ->)|(Sw & r & inv & Sv & Ok & J & Rr & Se)]].
    + exists []. split; [symmetry; apply app_nil_r|].
      split; [exact T|]. rewrite Sw. reflexivity.
    + eexists. split; [exact Se|]. split; [exact T|]. rewrite Sw.
      exists (world env), r, inv. split; [exact Sv|].
      split; [left; reflexivity|]. auto.
Qed.

Lemma comment_step_returned (idx : nat) (results : Results)
    (rec : Investigation) (c : string) (env env' : Env srv) (u : unit) :
  Py.truthy c = true ->
  comment_step srv ep idx results (Py.or_str (get (rrn rec)) "")
    (Py.or_str (get (id rec)) "") c env
  = (Returned u, env') ->
  exists calls,
    sent env' = sent env ++ calls
    /\ exists target code,
         In (POST_comment target c, Some code) calls
         /\ (code = 200%Z \/ code = 201%Z)
         /\ names srv rec calls target.
Proof.
  intros T H. unfold comment_step in H.
  apply bind_returned in H. destruct H as (t & env1 & H1 & H).
  apply bind_returned in H. destruct H as (info & env2 & H2 & H).
  apply target_returned in H1. destruct H1 as (c1 & S1 & Nm).
  apply (create_comment_v1_returned t c env1 env2 info T) in H2.
  destruct H2 as [S2 Hok].
  destruct (ok info) eqn:O; [|discriminate H]. simpl in H.
  assert (S3 : sent env' = sent env2).
  { destruct (_ && _)%bool; injection H as _ <-; reflexivity. }
  exists (c1 ++ [(POST_comment t c, Some (info_status info))]).
  split.
  - rewrite S3, S2, S1, <- app_assoc. reflexivity.
  - exists t, (info_status info). split; [|split].
    + apply in_or_app. right. left. reflexivity.
    + apply Hok. reflexivity.
    + apply (names_incl rec c1); [|exact Nm].
      apply incl_appl. apply incl_refl.
Qed.

(** A step under [if x:] that returns has added calls with the property
    the step gives them, or none when [x] was not set. *)
Lemma if_set_returned (Q : string -> list Call -> Prop) (x : option string)
    (k : string -> M srv unit) (env env' : Env srv) (u : unit) :
  (forall s, Py.truthy s = true -> k s env = (Returned u, env') ->
             exists calls, sent env' = sent env ++ calls /\ Q s calls) ->
  if_set srv x k env = (Returned u, env') ->
  exists calls,
    sent env' = sent env ++ calls
    /\ (forall s, x = Some s -> Py.truthy s = true -> Q s calls).
Proof.
  intros Hk H. unfold if_set in H. destruct x as [s|].
  - destruct (Py.truthy s) eqn:T.
    + destruct (Hk s T H) as (calls & E & q). exists calls.
      split; [exact E|]. intros s' [= <-] _. exact q.
    + injection H as _ <-. exists []. split; [symmetry; apply app_nil_r|].
      intros s' [= <-]. congruence.
  - injection H as _ <-. exists []. split; [symmetry; apply app_nil_r|].
    discriminate.
Qed.

Lemma accepted_app (a b : list Call) (q : Request) :
  accepted a q \/ accepted b q -> accepted (a ++ b) q.
Proof.
  intros [(c & I & E)|(c & I & E)]; exists c; split; auto;
    apply in_or_app; auto.
Qed.

Lemma calls_of_app {A} (m : M srv A) (env : Env srv) (calls : list Call) :
  sent (snd (m env)) = sent env ++ calls -> calls_of m env = calls.
Proof.
  intros E. unfold calls_of. rewrite E, skipn_app, skipn_all.
  rewrite Nat.sub_diag. reflexivity.
Qed.

(** A [try] block that returns has applied every update [spec] asks for. *)
Lemma try_body_returned_applied (spec : MutationSpec) (idx : nat)
    (rec : Investigation) (results : Results) (env env' : Env srv)
    (u : unit) :
  try_body srv ep spec idx rec results env = (Returned u, env') ->
  applied_all srv spec rec
    (calls_of (try_body srv ep spec idx rec results) env).
Proof.
  intros H.
  assert (H0 := H). unfold try_body in H.
  apply bind_returned in H. destruct H as ([] & env1 & H1 & H).
  apply bind_returned in H. destruct H as ([] & env2 & H2 & H).
  apply bind_returned in H. destruct H as ([] & env3 & H3 & H4).
  set (key := Py.or_ (Py.or_str (get (id rec)) "")
                (Py.or_str (get (rrn rec)) "")) in *.
  apply (if_set_returned
           (fun s calls => accepted calls (PUT_status key s))) in H1.
  2:{ intros s _ Hs. apply (checked_request_returned (PUT_status key s)) in Hs.
      destruct Hs as (code & E & N). eexists. split; [exact E|].
      exists code. split; [left; reflexivity | exact N]. }
  apply (if_set_returned
           (fun s calls => accepted calls (PUT_disposition key s))) in H2.
  2:{ intros s _ Hs.
      apply (checked_request_returned (PUT_disposition key s)) in Hs.
      destruct Hs as (code & E & N). eexists. split; [exact E|].
      exists code. split; [left; reflexivity | exact N]. }
  apply (if_set_returned
           (fun s calls =>
              In (PATCH_assignee key s, Some 200%Z) calls
              \/ In (PATCH_assignee key s, Some 204%Z) calls
              \/ accepted calls (PUT_assignee key s))) in H3.
  2:{ intros s _ Hs. apply assign_user_returned in Hs. exact Hs. }
  apply (if_set_returned
           (fun s calls =>
              exists target code,
                In (POST_comment target s, Some code) calls
                /\ (code = 200%Z \/ code = 201%Z)
                /\ names srv rec calls target)) in H4.
  2:{ intros s T Hs.
      apply (comment_step_returned _ _ rec _ _ _ _ T) in Hs. exact Hs. }
  destruct H1 as (c1 & S1 & Q1), H2 as (c2 & S2 & Q2),
           H3 as (c3 & S3 & Q3), H4 as (c4 & S4 & Q4).
  rewrite (calls_of_app _ env (c1 ++ c2 ++ c3 ++ c4)).
  2:{ rewrite H0. simpl. rewrite S4, S3, S2, S1, <- !app_assoc.
      reflexivity. }
  unfold applied_all. split; [|split; [|split]].
  - intros T. apply accepted_app. left. apply (Q1 _ eq_refl T).
  - intros d D T. apply accepted_app. right. apply accepted_app. left.
    apply (Q2 _ D T).
  - intros e E T. destruct (Q3 _ E T) as [I|[I|I]].
    + left. apply in_or_app. right. apply in_or_app. right.
      apply in_or_app. left. exact I.
    + right. left. apply in_or_app. right. apply in_or_app. right.
      apply in_or_app. left. exact I.
    + right. right. apply accepted_app. right. apply accepted_app. right.
      apply accepted_app. left. exact I.
  - intros c C T. destruct (Q4 _ C T) as (t & code & I & K & R).
    exists t, code. split; [|split; [exact K|]].
    + apply in_or_app. right. apply in_or_app. right.
      apply in_or_app. right. exact I.
    + apply names_app, names_app, names_app. exact R.
Qed.

End Steps.

Lemma try_body_sends_any (srv : Server) (ep : Endpoints) (spec : MutationSpec)
    (idx : nat) (rec : Investigation) (results : Results) :
  sends (fun _ => true) (try_body srv ep spec idx rec results).
Proof.
  unfold try_body.
  repeat (apply sends_bind; [|intros _]).
  - apply sends_if_set. intros s _. apply sends_set_status. reflexivity.
  - apply sends_if_set. intros s _. apply sends_set_disposition. reflexivity.
  - apply sends_if_set. intros s _. apply sends_assign_user; reflexivity.
  - apply sends_if_set. intros c _. unfold comment_step.
    apply sends_bind.
    + destruct (Py.truthy _); [apply sends_ret|].
      apply sends_get_rrn. reflexivity.
    + intros t. apply sends_bind.
      * apply sends_create_comment_v1. reflexivity.
      * intros info. destruct (negb _); [apply sends_raise|].
        destruct (_ && _)%bool; [apply sends_after | apply sends_ret].
Qed.

Lemma firstn_snoc {A} (l : list A) (j : nat) (x : A) :
  nth_error l j = Some x -> firstn (S j) l = firstn j l ++ [x].
Proof.
  revert j. induction l as [|a l IH]; intros [|j] H; simpl in H;
    try discriminate.
  - injection H as ->. reflexivity.
  - exact (f_equal (cons a) (IH j H)).
Qed.

Section RunFacts.

Variable srv : Server.
Variable ep : Endpoints.
Variable spec : MutationSpec.
Variable rows : list Investigation.
Variable env : Env srv.

Let total := List.length rows.

Lemma worker_loop_snoc (l : list Investigation) (r : Investigation) :
  forall idx st,
    worker_loop srv ep spec total idx (l ++ [r]) st
    = worker_turn srv ep spec total (idx + List.length l) r
        (worker_loop srv ep spec total idx l st).
Proof.
  induction l as [|a l IH]; intros idx st; simpl.
  - rewrite Nat.add_0_r. reflexivity.
  - rewrite IH. f_equal. lia.
Qed.

Lemma before_record_S (j : nat) (rec : Investigation) :
  nth_error rows j = Some rec ->
  before_record srv ep spec rows env (S j)
  = worker_turn srv ep spec total (S j) rec
      (before_record srv ep spec rows env j).
Proof.
  intros H. unfold before_record.
  rewrite (firstn_snoc rows j rec H), worker_loop_snoc.
  rewrite length_firstn.
  assert (j < List.length rows)%nat
    by (apply nth_error_Some; congruence).
  replace (Nat.min j (List.length rows)) with j by lia.
  reflexivity.
Qed.

(** What one turn does to the results and to the record of calls, read
    off the outcome of its [try] block. *)
Lemma before_record_step (j : nat) (rec : Investigation)
    (out : Result unit) (calls : list Call) :
  nth_error rows j = Some rec ->
  attempt srv ep spec rows env j = Some (out, calls) ->
  let before := before_record srv ep spec rows env j in
  let next := before_record srv ep spec rows env (S j) in
  sent (snd next) = sent (snd before) ++ calls
  /\ match out with
     | Returned _ =>
         successes (fst next) = S (successes (fst before))
         /\ fails (fst next) = fails (fst before)
     | Raised e =>
         successes (fst next) = successes (fst before)
         /\ fails (fst next)
            = fails (fst before)
              ++ [Py.str_opt (get_default (title rec) "") +++ ": "
                  +++ str_exn e]
     end.
Proof.
  intros H A. cbv zeta. rewrite (before_record_S j rec H).
  unfold attempt in A. rewrite H in A. fold total in A.
  destruct (before_record srv ep spec rows env j) as [results e].
  unfold worker_turn.
  set (e0 := snd (after srv _ e)) in *.
  destruct (try_body_sends_any srv ep spec (S j) rec results e0)
    as (c & E & _).
  rewrite (calls_of_app srv _ e0 c E) in A.
  destruct (try_body srv ep spec (S j) rec results e0) as [[u|ex] e1];
    simpl in *; injection A as <- <-; auto.
Qed.

Variable i : nat.
Variable rec_i : Investigation.
Variable e_i : exn.
Variable calls_i : list Call.

Hypothesis at_i : nth_error rows i = Some rec_i.
Hypothesis fails_i :
  attempt srv ep spec rows env i = Some (Raised e_i, calls_i).
Hypothesis others_return :
  forall j, j <> i -> (j < List.length rows)%nat ->
            exists calls,
              attempt srv ep spec rows env j = Some (Returned tt, calls).

Let entry : string :=
  Py.str_opt (get_default (title rec_i) "") +++ ": " +++ str_exn e_i.

Lemma run_prefix (n : nat) :
  (n <= List.length rows)%nat ->
  let st := before_record srv ep spec rows env n in
  successes (fst st) = (n - (if (i <? n)%nat then 1 else 0))%nat
  /\ fails (fst st) = (if (i <? n)%nat then [entry] else [])
  /\ sent (snd st)
     = sent env
       ++ List.concat (map (calls_at srv ep spec rows env) (seq 0 n)).
Proof.
  induction n as [|n IH]; intros L; cbv zeta.
  - unfold before_record. simpl. rewrite app_nil_r. auto.
  - destruct IH as (S1 & F1 & T1); [lia|].
    destruct (nth_error rows n) as [rec|] eqn:R;
      [|apply nth_error_None in R; lia].
    rewrite seq_S, map_app, concat_app. cbn [map List.concat Nat.add].
    rewrite app_nil_r, app_assoc, <- T1.
    destruct (Nat.eq_dec n i) as [->|N].
    + rewrite at_i in R. injection R as <-.
      destruct (before_record_step i rec_i _ _ at_i fails_i) as (T & S2 & F2).
      unfold calls_at. rewrite fails_i.
      rewrite T, S2, F2, S1, F1.
      replace (i <? i)%nat with false by (symmetry; apply Nat.ltb_ge; lia).
      replace (i <? S i)%nat with true by (symmetry; apply Nat.ltb_lt; lia).
      repeat split; lia.
    + destruct (others_return n N) as (calls & A); [lia|].
      destruct (before_record_step n rec _ _ R A) as (T & S2 & F2).
      unfold calls_at. rewrite A.
      rewrite T, S2, F2, S1, F1.
      destruct (Nat.ltb_spec i n), (Nat.ltb_spec i (S n));
        repeat split; first [lia | exfalso; lia].
Qed.

End RunFacts.

(** C1: in the run over [rows], let the [try] block of the record at
    position [i] raise [e], and let the block of every other record return.
    Then the report counts [length rows - 1] successes and lists one
    failure, the title of record [i] followed by [": "] and the text of [e];
    every other record's block has applied all the updates the form asks
    for, the comment being posted to the name of that record (the one it
    carries, or the one the API gave for its id); and the calls of the
    whole run are the calls of the records one after the other, so the
    records after [i] are processed as well. *)
Theorem one_failing_record_is_isolated (srv : Server) (ep : Endpoints)
    (spec : MutationSpec) (rows : list Investigation) (env : Env srv)
    (i : nat) (rec_i : Investigation) (e : exn) (calls_i : list Call) :
  nth_error rows i = Some rec_i ->
  attempt srv ep spec rows env i = Some (Raised e, calls_i) ->
  (forall j, j <> i -> (j < List.length rows)%nat ->
             exists calls,
               attempt srv ep spec rows env j = Some (Returned tt, calls)) ->
  let run := worker srv ep spec rows env in
  successes (fst run) = (List.length rows - 1)%nat
  /\ fails (fst run)
     = [Py.str_opt (get_default (title rec_i) "") +++ ": " +++ str_exn e]
  /\ (forall j rec_j calls,
        j <> i -> nth_error rows j = Some rec_j ->
        attempt srv ep spec rows env j = Some (Returned tt, calls) ->
        applied_all srv spec rec_j calls)
  /\ sent (snd run)
     = sent env
       ++ List.concat (map (calls_at srv ep spec rows env)
                         (seq 0 (List.length rows))).
Proof.
  intros At Fi Others. cbv zeta.
  assert (I : (i < List.length rows)%nat)
    by (apply nth_error_Some; congruence).
  destruct (run_prefix srv ep spec rows env i rec_i e calls_i At Fi Others
              (List.length rows) (le_n _)) as (S1 & F1 & T1).
  unfold before_record in S1, F1, T1. rewrite firstn_all in S1, F1, T1.
  replace (i <? List.length rows)%nat with true in S1, F1
    by (symmetry; apply Nat.ltb_lt; exact I).
  unfold worker.
  destruct (worker_loop srv ep spec (List.length rows) 1 rows
              (mkResults 0 [], env)) as [results env'].
  simpl in *. split; [exact S1|]. split; [exact F1|]. split; [|exact T1].
  intros j rec_j calls _ Rj Aj.
  unfold attempt in Aj. rewrite Rj in Aj.
  destruct (before_record srv ep spec rows env j) as [res e0].
  injection Aj as Out <-.
  match goal with
  | |- applied_all _ _ _ (calls_of ?m ?x) =>
      destruct (m x) as [[u|ex] e1] eqn:M; simpl in Out; [|discriminate];
      apply (try_body_returned_applied srv ep spec (S j) rec_j res x e1 u M)
  end.
Qed.

(** ** Sorting by creation time *)

Lemma lt_same_kind (a b : datetime) :
  aware a = aware b ->
  Datetime.lt a b = Some (Datetime.instant a <? Datetime.instant b)%Z.
Proof.
  unfold aware, Datetime.lt, Datetime.instant.
  destruct (utcoffset a), (utcoffset b); intros H;
    try discriminate; reflexivity.
Qed.

Lemma lt_mixed (a b : datetime) :
  aware a <> aware b -> Datetime.lt a b = None.
Proof.
  unfold aware, Datetime.lt.
  destruct (utcoffset a), (utcoffset b); intros H; congruence.
Qed.

Section ListFacts.

Context {A : Type}.

Lemma StronglySorted_app (R : A -> A -> Prop) (l1 l2 : list A) :
  StronglySorted R l1 -> StronglySorted R l2 ->
  (forall a b, In a l1 -> In b l2 -> R a b) ->
  StronglySorted R (l1 ++ l2).
Proof.
  induction l1 as [|x l1 IH]; simpl; intros S1 S2 H; [exact S2|].
  inversion S1 as [|? ? S1' F1]; subst. constructor.
  - apply IH; auto.
  - apply Forall_app. split; [exact F1|].
    apply Forall_forall. intros b Hb. apply H; auto.
Qed.

Lemma StronglySorted_rev (R : A -> A -> Prop) (l : list A) :
  StronglySorted R l -> StronglySorted (fun a b => R b a) (rev l).
Proof.
  induction 1 as [|a l S IH F]; simpl; [constructor|].
  apply StronglySorted_app; [exact IH | repeat constructor |].
  intros x b Hx [<-|[]]. rewrite Forall_forall in F.
  apply F. apply in_rev. exact Hx.
Qed.

Lemma StronglySorted_filter (R : A -> A -> Prop) (f : A -> bool)
    (l : list A) :
  StronglySorted R l -> StronglySorted R (filter f l).
Proof.
  induction 1 as [|a l S IH F]; simpl; [constructor|].
  destruct (f a); [|exact IH]. constructor; [exact IH|].
  rewrite Forall_forall in *. intros x Hx. apply F.
  apply filter_In in Hx. tauto.
Qed.

(** In a sorted list the earlier of two positions holds the smaller. *)
Lemma StronglySorted_nth (R : A -> A -> Prop) (l : list A) :
  StronglySorted R l ->
  forall i j a b,
    (i < j)%nat -> nth_error l i = Some a -> nth_error l j = Some b ->
    R a b.
Proof.
  induction 1 as [|x l S IH F]; intros i j a b Lt Hi Hj.
  - destruct i; discriminate.
  - destruct j as [|j]; [lia|]. simpl in Hj. destruct i as [|i].
    + injection Hi as <-. rewrite Forall_forall in F. apply F.
      eapply nth_error_In. exact Hj.
    + simpl in Hi. apply (IH i j); auto. lia.
Qed.

End ListFacts.

Section SortFacts.

Context {A : Type}.

(** Order of two keyed rows by the instant of their keys. *)
Let leK (p q : datetime * A) : Prop :=
  (Datetime.instant (fst p) <= Datetime.instant (fst q))%Z.

Lemma insert_keyed_spec (k : bool) (x : datetime * A)
    (l : list (datetime * A)) :
  aware (fst x) = k ->
  Forall (fun p => aware (fst p) = k) l ->
  StronglySorted leK l ->
  exists r,
    insert_keyed x l = Some r
    /\ Permutation (x :: l) r
    /\ StronglySorted leK r.
Proof.
  intros Kx. induction l as [|y l IH]; intros Kl Sl.
  - exists [x]. repeat split; auto. repeat constructor.
  - inversion Kl as [|? ? Ky Kl']; subst.
    inversion Sl as [|? ? Sl' Fy]; subst.
    cbn [insert_keyed].
    rewrite (lt_same_kind (fst y) (fst x)) by congruence.
    destruct (Z.ltb_spec (Datetime.instant (fst y))
                (Datetime.instant (fst x))) as [Lt|Ge].
    + destruct (IH Kl' Sl') as (r & E & P & S). rewrite E.
      exists (y :: r). split; [reflexivity|]. split.
      * eapply perm_trans; [apply perm_swap|]. apply perm_skip. exact P.
      * constructor; [exact S|].
        apply (Permutation_Forall P). constructor; [|exact Fy].
        unfold leK. lia.
    + exists (x :: y :: l). split; [reflexivity|].
      split; [apply Permutation_refl|].
      constructor; [exact Sl|]. constructor; [unfold leK; lia|].
      eapply Forall_impl; [|exact Fy]. unfold leK. intros z Hz. lia.
Qed.

Lemma sort_keyed_spec (k : bool) (l : list (datetime * A)) :
  Forall (fun p => aware (fst p) = k) l ->
  exists s,
    sort_keyed l = Some s /\ Permutation l s /\ StronglySorted leK s.
Proof.
  induction l as [|x l IH]; intros K.
  - exists []. repeat split; auto. constructor.
  - inversion K as [|? ? Kx Kl]; subst.
    destruct (IH Kl) as (s & E & P & S).
    destruct (insert_keyed_spec (aware (fst x)) x s eq_refl) as (r & Er & Pr & Sr).
    + apply (Permutation_Forall P). exact Kl.
    + exact S.
    + exists r. cbn [sort_keyed]. rewrite E. split; [exact Er|].
      split; [|exact Sr].
      eapply perm_trans; [apply perm_skip; exact P | exact Pr].
Qed.

(** A naive key next to aware ones ends the sort. *)
Lemma insert_keyed_mixed (x : datetime * A) (l : list (datetime * A)) :
  l <> [] ->
  Forall (fun p => aware (fst p) = negb (aware (fst x))) l ->
  insert_keyed x l = None.
Proof.
  destruct l as [|y l]; [congruence|]. intros _ K.
  inversion K as [|? ? Ky _]; subst. cbn [insert_keyed].
  rewrite lt_mixed; [reflexivity|].
  rewrite Ky. destruct (aware (fst x)); discriminate.
Qed.

Variable key : A -> datetime.

Lemma keyed_sorted_rows (s : list (datetime * A)) :
  Forall (fun p => fst p = key (snd p)) s ->
  StronglySorted leK s -> StronglySorted (le_key key) (map snd s).
Proof.
  induction s as [|p s IH]; intros F S; simpl; [constructor|].
  inversion F as [|? ? Fp Fs]; subst. inversion S as [|? ? Ss Fl]; subst.
  constructor; [apply IH; assumption|].
  apply Forall_map. rewrite Forall_forall in *.
  intros q Hq. unfold le_key. rewrite <- Fp, <- (Fs q Hq).
  apply (Fl q Hq).
Qed.

(** Two sorted arrangements of the same rows are the same list when no
    two rows have the same instant. *)
Lemma sorted_unique (l1 : list A) :
  forall l2,
    Permutation l1 l2 ->
    StronglySorted (le_key key) l1 -> StronglySorted (le_key key) l2 ->
    NoDup (map (fun a => Datetime.instant (key a)) l1) ->
    l1 = l2.
Proof.
  induction l1 as [|x l1 IH]; intros l2 P S1 S2 N.
  - apply Permutation_nil in P. congruence.
  - destruct l2 as [|y l2].
    { apply Permutation_sym, Permutation_nil in P. discriminate. }
    inversion S1 as [|? ? S1' F1]; subst.
    inversion S2 as [|? ? S2' F2]; subst.
    inversion N as [|? ? Nx N']; subst.
    rewrite Forall_forall in F1, F2.
    assert (E : x = y).
    { assert (Hx : In x (y :: l2))
        by (apply (Permutation_in _ P); left; reflexivity).
      assert (Hy : In y (x :: l1))
        by (apply (Permutation_in _ (Permutation_sym P)); left; reflexivity).
      destruct Hx as [->|Hx]; [reflexivity|].
      destruct Hy as [->|Hy]; [reflexivity|].
      exfalso. apply Nx.
      assert (K : Datetime.instant (key x) = Datetime.instant (key y)).
      { pose proof (F1 y Hy) as L1. pose proof (F2 x Hx) as L2.
        unfold le_key in L1, L2. lia. }
      rewrite K. apply (in_map (fun a => Datetime.instant (key a))).
      exact Hy. }
    subst y. f_equal. apply IH; auto.
    apply (Permutation_cons_inv P).
Qed.

Lemma keyed_pairs (l : list A) :
  Forall (fun p => fst p = key (snd p)) (map (fun r => (key r, r)) l).
Proof. apply Forall_map. apply Forall_forall. reflexivity. Qed.

Lemma keyed_rows (l : list A) : map snd (map (fun r => (key r, r)) l) = l.
Proof. rewrite map_map. simpl. apply map_id. Qed.

(** When the keys are all aware or all naive, [sorted] returns the rows
    rearranged, in ascending order of their instants, or in descending
    order for [reverse]. *)
Lemma sorted_spec (k : bool) (reverse : bool) (l : list A) :
  (forall r, In r l -> aware (key r) = k) ->
  exists s,
    sorted key reverse l = Returned s
    /\ Permutation l s
    /\ StronglySorted
         (if reverse then (fun a b => le_key key b a) else le_key key) s.
Proof.
  intros K. unfold sorted.
  set (keyed := map (fun r => (key r, r)) l).
  assert (Kk : Forall (fun p => aware (fst p) = k) keyed).
  { apply Forall_map. apply Forall_forall. exact K. }
  destruct reverse.
  - destruct (sort_keyed_spec k (rev keyed)) as (s & E & P & S).
    { apply Forall_rev. exact Kk. }
    rewrite E. exists (map snd (rev s)). split; [reflexivity|].
    assert (Pk : Permutation keyed (rev s)).
    { eapply perm_trans; [apply Permutation_rev|].
      eapply perm_trans; [exact P | apply Permutation_rev]. }
    split.
    + rewrite <- (keyed_rows l). apply Permutation_map. exact Pk.
    + rewrite map_rev. apply StronglySorted_rev.
      apply keyed_sorted_rows; [|exact S].
      apply (Permutation_Forall P). apply Forall_rev. apply keyed_pairs.
  - destruct (sort_keyed_spec k keyed Kk) as (s & E & P & S).
    rewrite E. exists (map snd s). split; [reflexivity|]. split.
    + rewrite <- (keyed_rows l). apply Permutation_map. exact P.
    + apply keyed_sorted_rows; [|exact S].
      apply (Permutation_Forall P). apply keyed_pairs.
Qed.

End SortFacts.

Lemma apply_assignee_filter_rev (choice : string) (l : list Investigation) :
  _apply_assignee_filter choice (rev l) = rev (_apply_assignee_filter choice l).
Proof.
  unfold _apply_assignee_filter.
  destruct (String.eqb choice "All"); [reflexivity|].
  destruct (String.eqb choice "Unassigned"); apply filter_rev.
Qed.

Lemma apply_assignee_filter_sorted (R : Investigation -> Investigation -> Prop)
    (choice : string) (l : list Investigation) :
  StronglySorted R l -> StronglySorted R (_apply_assignee_filter choice l).
Proof.
  intros S. unfold _apply_assignee_filter.
  destruct (String.eqb choice "All"); [exact S|].
  destruct (String.eqb choice "Unassigned");
    apply StronglySorted_filter; exact S.
Qed.

Lemma epoch_aware : aware Datetime.epoch = true.
Proof. reflexivity. Qed.

Section ViewFacts.

Variable fromisoformat : string -> option datetime.

Lemma key_fn_parsed (r : Investigation) (d : datetime) :
  parse_created_time fromisoformat r = Some d -> key_fn fromisoformat r = d.
Proof. unfold key_fn. intros ->. reflexivity. Qed.

Lemma key_fn_unparsable (r : Investigation) :
  parse_created_time fromisoformat r = None ->
  key_fn fromisoformat r = Datetime.epoch.
Proof. unfold key_fn. intros ->. reflexivity. Qed.

(** C5, as amended: when every creation time parses, all of them with a
    UTC offset or all of them without, and no two rows have the same
    instant, both directions return and the newest-first view is the
    oldest-first view reversed, for every assignee filter. *)
Theorem sort_directions_are_reverses (rows : list Investigation)
    (choice : string) (k : bool) :
  (forall r, In r rows ->
             exists d, parse_created_time fromisoformat r = Some d
                       /\ aware d = k) ->
  NoDup (map (fun r => Datetime.instant (key_fn fromisoformat r)) rows) ->
  exists oldest_first_rows,
    _sorted_rows_current_view fromisoformat rows true choice
    = Returned oldest_first_rows
    /\ _sorted_rows_current_view fromisoformat rows false choice
       = Returned (rev oldest_first_rows).
Proof.
  intros Parsed N.
  assert (K : forall r, In r rows -> aware (key_fn fromisoformat r) = k).
  { intros r Hr. destruct (Parsed r Hr) as (d & P & Ad).
    rewrite (key_fn_parsed r d P). exact Ad. }
  destruct (sorted_spec (key_fn fromisoformat) k false rows K)
    as (s1 & E1 & P1 & S1).
  destruct (sorted_spec (key_fn fromisoformat) k true rows K)
    as (s2 & E2 & P2 & S2).
  cbv iota in S1, S2.
  assert (U : s1 = rev s2).
  { apply (sorted_unique (key_fn fromisoformat)).
    - eapply perm_trans; [apply Permutation_sym; exact P1|].
      eapply perm_trans; [exact P2 | apply Permutation_rev].
    - exact S1.
    - apply (StronglySorted_rev
               (fun a b => le_key (key_fn fromisoformat) b a) s2 S2).
    - apply (Permutation_NoDup
               (Permutation_map
                  (fun r => Datetime.instant (key_fn fromisoformat r)) P1)).
      exact N. }
  exists (_apply_assignee_filter choice s1).
  unfold _sorted_rows_current_view. cbn [negb]. rewrite E1, E2.
  split; [reflexivity|].
  rewrite U, apply_assignee_filter_rev, !rev_involutive. reflexivity.
Qed.

(** C6, as amended: a row whose creation time does not parse gets the key
    1970-01-01T00:00:00Z.  When every creation time that parses carries a
    UTC offset, the sort returns in both directions, and in the view such
    a row comes before every row whose creation time is later than that
    key when the oldest come first, and after it when the newest come
    first. *)
Theorem unparsable_sorts_as_epoch (rows : list Investigation)
    (sort_oldest_first : bool) (choice : string) :
  (forall r d, In r rows -> parse_created_time fromisoformat r = Some d ->
               aware d = true) ->
  exists shown,
    _sorted_rows_current_view fromisoformat rows sort_oldest_first choice
    = Returned shown
    /\ (forall r, parse_created_time fromisoformat r = None ->
                  key_fn fromisoformat r = Datetime.epoch)
    /\ forall i j u p d,
         nth_error shown i = Some u -> nth_error shown j = Some p ->
         parse_created_time fromisoformat u = None ->
         parse_created_time fromisoformat p = Some d ->
         (Datetime.instant Datetime.epoch < Datetime.instant d)%Z ->
         if sort_oldest_first then (i < j)%nat else (j < i)%nat.
Proof.
  intros Aware.
  assert (K : forall r, In r rows -> aware (key_fn fromisoformat r) = true).
  { intros r Hr. destruct (parse_created_time fromisoformat r) as [d|] eqn:P.
    - rewrite (key_fn_parsed r d P). apply (Aware r d Hr P).
    - rewrite (key_fn_unparsable r P). apply epoch_aware. }
  destruct (sorted_spec (key_fn fromisoformat) true (negb sort_oldest_first)
              rows K) as (s & E & _ & S).
  exists (_apply_assignee_filter choice s).
  unfold _sorted_rows_current_view. rewrite E.
  split; [reflexivity|]. split; [exact key_fn_unparsable|].
  intros i j u p d Hi Hj Pu Pp Later.
  apply (apply_assignee_filter_sorted _ choice) in S.
  assert (Ne : i <> j).
  { intros ->. rewrite Hi in Hj. injection Hj as ->.
    rewrite Pu in Pp. discriminate. }
  assert (Order : ~ le_key (key_fn fromisoformat) p u).
  { unfold le_key. rewrite (key_fn_parsed p d Pp), (key_fn_unparsable u Pu).
    lia. }
  destruct sort_oldest_first; cbn [negb] in S.
  - destruct (Nat.lt_ge_cases i j) as [L|G]; [exact L|].
    exfalso. apply Order.
    apply (StronglySorted_nth _ _ S j i p u); auto. lia.
  - destruct (Nat.lt_ge_cases j i) as [L|G]; [exact L|].
    exfalso. apply Order.
    apply (StronglySorted_nth _ _ S i j u p); auto. lia.
Qed.

End ViewFacts.

(** ** The properties at concrete inputs *)

(** C5 as the claim words it fails on two rows created at the same instant:
    both parse, and both directions show them in the order they were
    fetched, so neither view is the other reversed. *)
Lemma sort_directions_tie_counterexample :
  parse_created_time Iso.fromisoformat first_row
  = parse_created_time Iso.fromisoformat twin_row
  /\ parse_created_time Iso.fromisoformat first_row
     = Some (Datetime.make 2024 3 1 10 0 0 (Some 0%Z))
  /\ _sorted_rows_current_view Iso.fromisoformat [first_row; twin_row] true
       "All"
     = Returned [first_row; twin_row]
  /\ _sorted_rows_current_view Iso.fromisoformat [first_row; twin_row] false
       "All"
     = Returned [first_row; twin_row]
  /\ [first_row; twin_row] <> rev [first_row; twin_row].
Proof. vm_compute. repeat split. discriminate. Qed.

Lemma sort_directions_are_reverses_witness :
  (forall r, In r three_rows ->
             exists d, parse_created_time Iso.fromisoformat r = Some d
                       /\ aware d = true)
  /\ NoDup (map (fun r => Datetime.instant (key_fn Iso.fromisoformat r))
              three_rows)
  /\ exists oldest_first_rows,
       _sorted_rows_current_view Iso.fromisoformat three_rows true
         "Unassigned"
       = Returned oldest_first_rows
       /\ _sorted_rows_current_view Iso.fromisoformat three_rows false
            "Unassigned"
          = Returned (rev oldest_first_rows).
Proof.
  assert (H1 : forall r, In r three_rows ->
                 exists d, parse_created_time Iso.fromisoformat r = Some d
                           /\ aware d = true).
  { intros r [<-|[<-|[<-|[]]]]; eexists; split; vm_compute; reflexivity. }
  assert (H2 : NoDup (map (fun r => Datetime.instant
                                      (key_fn Iso.fromisoformat r))
                        three_rows)).
  { vm_compute. repeat constructor; simpl; intuition discriminate. }
  split; [exact H1|]. split; [exact H2|].
  exact (sort_directions_are_reverses Iso.fromisoformat three_rows
           "Unassigned" true H1 H2).
Defined.

(** C6 as the claim words it fails on a row created before 1970 next to a row
    whose creation time does not parse: oldest first, the row of 1969 comes
    before the undated one, and newest first it comes after it. *)
Lemma unparsable_after_early_counterexample :
  parse_created_time Iso.fromisoformat undated_row = None
  /\ parse_created_time Iso.fromisoformat early_row
     = Some (Datetime.make 1969 7 20 20 17 0 (Some 0%Z))
  /\ _sorted_rows_current_view Iso.fromisoformat [undated_row; early_row]
       true "All"
     = Returned [early_row; undated_row]
  /\ _sorted_rows_current_view Iso.fromisoformat [undated_row; early_row]
       false "All"
     = Returned [undated_row; early_row].
Proof. vm_compute. repeat split. Qed.

(** A creation time without a UTC offset next to one that does not parse
    ends the sort with a [TypeError], in both directions. *)
Lemma naive_next_to_unparsable_aborts :
  parse_created_time Iso.fromisoformat naive_row
  = Some (Datetime.make 2024 3 4 10 0 0 None)
  /\ _sorted_rows_current_view Iso.fromisoformat [naive_row; undated_row]
       true "All"
     = Raised (TypeError "can't compare offset-naive and offset-aware datetimes")
  /\ _sorted_rows_current_view Iso.fromisoformat [naive_row; undated_row]
       false "All"
     = Raised (TypeError "can't compare offset-naive and offset-aware datetimes").
Proof. vm_compute. repeat split. Qed.

Lemma unparsable_sorts_as_epoch_witness :
  (forall r d, In r [third_row; undated_row; first_row] ->
               parse_created_time Iso.fromisoformat r = Some d ->
               aware d = true)
  /\ exists shown,
       _sorted_rows_current_view Iso.fromisoformat
         [third_row; undated_row; first_row] false "All"
       = Returned shown
       /\ (forall r, parse_created_time Iso.fromisoformat r = None ->
                     key_fn Iso.fromisoformat r = Datetime.epoch)
       /\ forall i j u p d,
            nth_error shown i = Some u -> nth_error shown j = Some p ->
            parse_created_time Iso.fromisoformat u = None ->
            parse_created_time Iso.fromisoformat p = Some d ->
            (Datetime.instant Datetime.epoch < Datetime.instant d)%Z ->
            (j < i)%nat.
Proof.
  assert (H : forall r d, In r [third_row; undated_row; first_row] ->
                parse_created_time Iso.fromisoformat r = Some d ->
                aware d = true).
  { intros r d [<-|[<-|[<-|[]]]]; vm_compute; intros [= <-]; reflexivity. }
  split; [exact H|].
  exact (unparsable_sorts_as_epoch Iso.fromisoformat
           [third_row; undated_row; first_row] false "All" H).
Defined.

Lemma list_investigations_fetches_every_page_witness :
  (0 < 2)%nat
  /\ (Nat.max 1 (List.length (chunk 2 three_rows)) <= 2)%nat
  /\ list_investigations (fake_server 2 three_rows) 2
       (start (fake_server 2 three_rows) tt)
     = Some (Returned three_rows,
             @mkEnv (fake_server 2 three_rows) tt
               [page_call 0; page_call 1] []).
Proof.
  assert (H1 : (0 < 2)%nat) by (repeat constructor).
  assert (H2 : (Nat.max 1 (List.length (chunk 2 three_rows)) <= 2)%nat)
    by (vm_compute; repeat constructor).
  split; [exact H1|]. split; [exact H2|].
  exact (proj1 (list_investigations_fetches_every_page 2 three_rows 2 H1 H2)).
Defined.

Lemma one_failing_record_is_isolated_witness :
  nth_error [first_row; second_row; nameless_row] 1 = Some second_row
  /\ attempt names_and_refuses_assignee_2 us full_spec
       [first_row; second_row; nameless_row]
       (start names_and_refuses_assignee_2 tt) 1
     = Some (Raised (HTTPError "404 Client Error: Not Found for url: "),
             [(PUT_status "2" "CLOSED", Some 200%Z);
              (PUT_disposition "2" "BENIGN", Some 200%Z);
              (PATCH_assignee "2" "amy@example.com", Some 500%Z);
              (PUT_assignee "2" "amy@example.com", Some 404%Z)])
  /\ successes
       (fst (worker names_and_refuses_assignee_2 us full_spec
               [first_row; second_row; nameless_row]
               (start names_and_refuses_assignee_2 tt)))
     = 2%nat
  /\ fails
       (fst (worker names_and_refuses_assignee_2 us full_spec
               [first_row; second_row; nameless_row]
               (start names_and_refuses_assignee_2 tt)))
     = ["second: 404 Client Error: Not Found for url: "]
  /\ attempt names_and_refuses_assignee_2 us full_spec
       [first_row; second_row; nameless_row]
       (start names_and_refuses_assignee_2 tt) 2
     = Some (Returned tt,
             [(PUT_status "8" "CLOSED", Some 200%Z);
              (PUT_disposition "8" "BENIGN", Some 200%Z);
              (PATCH_assignee "8" "amy@example.com", Some 200%Z);
              (GET_investigation "8", Some 200%Z);
              (POST_comment "rrn:8" "Closing as duplicate", Some 201%Z)])
  /\ applied_all names_and_refuses_assignee_2 full_spec nameless_row
       [(PUT_status "8" "CLOSED", Some 200%Z);
        (PUT_disposition "8" "BENIGN", Some 200%Z);
        (PATCH_assignee "8" "amy@example.com", Some 200%Z);
        (GET_investigation "8", Some 200%Z);
        (POST_comment "rrn:8" "Closing as duplicate", Some 201%Z)].
Proof.
  assert (At : nth_error [first_row; second_row; nameless_row] 1
               = Some second_row) by reflexivity.
  assert (Fi : attempt names_and_refuses_assignee_2 us full_spec
                 [first_row; second_row; nameless_row]
                 (start names_and_refuses_assignee_2 tt) 1
               = Some (Raised (HTTPError "404 Client Error: Not Found for url: "),
                       [(PUT_status "2" "CLOSED", Some 200%Z);
                        (PUT_disposition "2" "BENIGN", Some 200%Z);
                        (PATCH_assignee "2" "amy@example.com", Some 500%Z);
                        (PUT_assignee "2" "amy@example.com", Some 404%Z)]))
    by (vm_compute; reflexivity).
  assert (Last : attempt names_and_refuses_assignee_2 us full_spec
                   [first_row; second_row; nameless_row]
                   (start names_and_refuses_assignee_2 tt) 2
                 = Some (Returned tt,
                         [(PUT_status "8" "CLOSED", Some 200%Z);
                          (PUT_disposition "8" "BENIGN", Some 200%Z);
                          (PATCH_assignee "8" "amy@example.com", Some 200%Z);
                          (GET_investigation "8", Some 200%Z);
                          (POST_comment "rrn:8" "Closing as duplicate",
                             Some 201%Z)]))
    by (vm_compute; reflexivity).
  assert (Others : forall j, j <> 1%nat ->
             (j < List.length [first_row; second_row; nameless_row])%nat ->
             exists calls,
               attempt names_and_refuses_assignee_2 us full_spec
                 [first_row; second_row; nameless_row]
                 (start names_and_refuses_assignee_2 tt) j
               = Some (Returned tt, calls)).
  { intros [|[|[|j]]] N L.
    - eexists. vm_compute. reflexivity.
    - congruence.
    - eexists. exact Last.
    - simpl in L. lia. }
  destruct (one_failing_record_is_isolated names_and_refuses_assignee_2 us
              full_spec [first_row; second_row; nameless_row]
              (start names_and_refuses_assignee_2 tt) 1 second_row _ _
              At Fi Others) as (S & F & Applied & _).
  split; [exact At|]. split; [exact Fi|]. split; [exact S|].
  split; [exact F|]. split; [exact Last|].
  apply (Applied 2%nat nameless_row); [discriminate | reflexivity | exact Last].
Defined.

Lemma no_change_assignee_issues_no_assignee_call_witness :
  assignee_choice close_form = "Unassigned / No Change"
  /\ filter is_assignee_call
       (sent (snd (update_selected_async accepts_all us two_assignees
                     close_form three_rows (start accepts_all tt))))
     = [].
Proof.
  split; [reflexivity|].
  exact (proj2 (no_change_assignee_issues_no_assignee_call accepts_all us
                  two_assignees close_form three_rows (start accepts_all tt)
                  eq_refl)).
Defined.

(** ** The comment history of a bulk run *)

(** C3, at the failing input: two rows are selected, a status and a comment
    are asked for, and the server refuses the status of the first row.  The
    comment is posted to the second row and accepted (201), the report
    counts that row as a success, and yet no [add_to_history] is queued: the
    history is as empty after the run as before it. *)
Theorem first_row_failure_loses_history_entry :
  let run :=
    update_selected_async refuses_status_1 us two_assignees close_form
      [first_row; second_row] (start refuses_status_1 tt) in
  fst run
  = Some (mkResults 1 ["first: 404 Client Error: Not Found for url: "])
  /\ In (POST_comment "rrn:2" "Closing as duplicate", Some 201%Z)
       (sent (snd run))
  /\ filter (fun ev => match ev with add_to_history _ => true | _ => false end)
       (ui (snd run)) = []
  /\ comment_history
       (fst (run_ui tick 0 (ui (snd run))
               (_load_comment_history (mkDisk None true), mkDisk None true)))
     = [].
Proof. vm_compute. repeat split. right. right. left. reflexivity. Qed.

(** When every row succeeds, a run over five rows leaves one new entry in the
    history. *)
Lemma five_rows_one_history_entry :
  let run :=
    update_selected_async accepts_all us two_assignees close_form
      [first_row; second_row; third_row; twin_row; early_row]
      (start accepts_all tt) in
  fst run = Some (mkResults 5 [])
  /\ map text
       (comment_history
          (fst (run_ui tick 0 (ui (snd run))
                  (_load_comment_history (mkDisk None true),
                   mkDisk None true))))
     = ["Closing as duplicate"].
Proof. vm_compute. repeat split. Qed.

(** ** Bulk update: what a run adds to the history *)

Section Queue.

Variable srv : Server.
Variable ep : Endpoints.

Lemma silent_ret {A} (a : A) : silent (ret srv a).
Proof. intros env. reflexivity. Qed.

Lemma silent_raise {A} (e : exn) : silent (@raise srv A e).
Proof. intros env. reflexivity. Qed.

Lemma silent_request (q : Request) : silent (request srv q).
Proof.
  intros env. unfold request.
  destruct (serve srv q (world env)) as [[e|r] w]; reflexivity.
Qed.

Lemma silent_bind {A B} (m : M srv A) (k : A -> M srv B) :
  silent m -> (forall a, silent (k a)) -> silent (bind srv m k).
Proof.
  intros Hm Hk env. unfold bind. specialize (Hm env).
  destruct (m env) as [[a|e] env1]; simpl in *; [|exact Hm].
  rewrite Hk. exact Hm.
Qed.

Lemma silent_raise_for_status {B} (r : Response B) :
  silent (raise_for_status srv r).
Proof.
  unfold raise_for_status.
  repeat match goal with |- context [if ?b then _ else _] => destruct b end;
    first [apply silent_raise | apply silent_ret].
Qed.

Lemma silent_checked_request (q : Request) :
  silent (bind srv (request srv q) (fun r => raise_for_status srv r)).
Proof.
  apply silent_bind; [apply silent_request|].
  intros r. apply silent_raise_for_status.
Qed.

Lemma silent_assign_user (k e : string) : silent (assign_user srv k e).
Proof.
  unfold assign_user. apply silent_bind; [apply silent_request|]. intros r.
  destruct (_ || _)%bool; [apply silent_ret|].
  apply (silent_checked_request (PUT_assignee k e)).
Qed.

Lemma silent_get_rrn (i : string) : silent (get_rrn srv i).
Proof.
  unfold get_rrn.
  destruct (negb _); [apply silent_raise|].
  destruct (Py.startswith _ _); [apply silent_ret|].
  apply silent_bind; [apply silent_request|]. intros r.
  apply silent_bind; [apply silent_raise_for_status|]. intros _.
  apply silent_bind.
  { unfold decode. destruct (json r);
      [apply silent_ret | apply silent_raise]. }
  intros j.
  destruct j as [[inv|]|inv|]; try apply silent_raise;
    (destruct (get (rrn inv)) as [s|]; [|apply silent_raise];
     destruct (Py.truthy s); [apply silent_ret | apply silent_raise]).
Qed.

Lemma silent_create_comment_v1 (t : string) (text : option string) :
  silent (create_comment_v1 srv ep t text).
Proof.
  unfold create_comment_v1. destruct text as [c|]; [|apply silent_ret].
  destruct (Py.truthy c); [|apply silent_ret].
  apply silent_bind; [apply silent_request|]. intros r. apply silent_ret.
Qed.

Lemma silent_if_set (x : option string) (k : string -> M srv unit) :
  (forall s, silent (k s)) -> silent (if_set srv x k).
Proof.
  intros H. unfold if_set. destruct x as [s|]; [|apply silent_ret].
  destruct (Py.truthy s); [apply H | apply silent_ret].
Qed.

(** After a step that queues nothing, the queue grows by what the rest
    queues. *)
Lemma bind_silent_queue {A} (m : M srv A) (k : A -> M srv unit)
    (f : Result unit -> list UiEvent) :
  silent m -> (forall e, f (Raised e) = []) ->
  (forall a env, ui (snd (k a env)) = ui env ++ f (fst (k a env))) ->
  forall env,
    ui (snd (bind srv m k env)) = ui env ++ f (fst (bind srv m k env)).
Proof.
  intros Hm Hf Hk env. unfold bind. specialize (Hm env).
  destruct (m env) as [[a|e] env1]; simpl in *.
  - rewrite Hk, Hm. reflexivity.
  - rewrite Hf, app_nil_r. exact Hm.
Qed.

Lemma comment_step_queue (idx : nat) (results : Results)
    (inv_rrn inv_id c : string) (env : Env srv) :
  ui (snd (comment_step srv ep idx results inv_rrn inv_id c env))
  = ui env
    ++ match fst (comment_step srv ep idx results inv_rrn inv_id c env) with
       | Returned _ =>
           if ((idx =? 1) && (successes results =? 0))%nat
           then [add_to_history c] else []
       | Raised _ => []
       end.
Proof.
  unfold comment_step.
  set (f := fun out : Result unit =>
              match out with
              | Returned _ =>
                  if ((idx =? 1) && (successes results =? 0))%nat
                  then [add_to_history c] else []
              | Raised _ => []
              end).
  revert env. apply (bind_silent_queue _ _ f).
  - destruct (Py.truthy inv_rrn); [apply silent_ret | apply silent_get_rrn].
  - reflexivity.
  - intros t. apply (bind_silent_queue _ _ f).
    + apply silent_create_comment_v1.
    + reflexivity.
    + intros info env1. unfold f. destruct (negb (ok info)).
      * simpl. rewrite app_nil_r. reflexivity.
      * destruct ((idx =? 1) && (successes results =? 0))%nat; simpl;
          [reflexivity | rewrite app_nil_r; reflexivity].
Qed.

Lemma queued_raised (spec : MutationSpec) (idx : nat) (results : Results)
    (e : exn) :
  queued spec idx results (Raised e) = [].
Proof. reflexivity. Qed.

Lemma try_body_queue (spec : MutationSpec) (idx : nat) (rec : Investigation)
    (results : Results) (env : Env srv) :
  ui (snd (try_body srv ep spec idx rec results env))
  = ui env
    ++ queued spec idx results (fst (try_body srv ep spec idx rec results env)).
Proof.
  unfold try_body. revert env.
  apply (bind_silent_queue _ _ (queued spec idx results));
    [|apply queued_raised|intros _].
  { apply silent_if_set. intros s. apply (silent_checked_request _). }
  apply (bind_silent_queue _ _ (queued spec idx results));
    [|apply queued_raised|intros _].
  { apply silent_if_set. intros s. apply (silent_checked_request _). }
  apply (bind_silent_queue _ _ (queued spec idx results));
    [|apply queued_raised|intros _].
  { apply silent_if_set. intros s. apply silent_assign_user. }
  intros env1. unfold if_set, queued.
  destruct (comment spec) as [c|].
  - destruct (Py.truthy c).
    + rewrite comment_step_queue.
      destruct (fst (comment_step _ _ _ _ _ _ _ _)); reflexivity.
    + simpl. rewrite app_nil_r. reflexivity.
  - simpl. rewrite app_nil_r. reflexivity.
Qed.

Lemma history_events_app (a b : list UiEvent) :
  history_events (a ++ b) = (history_events a + history_events b)%nat.
Proof. unfold history_events. rewrite filter_app, length_app. reflexivity. Qed.

Variable spec : MutationSpec.

Lemma worker_turn_history (total idx : nat) (rec : Investigation)
    (results : Results) (env : Env srv) :
  let env0 :=
    snd (after srv (update_detail idx total (get_default (title rec) "")) env)
  in
  history_events
    (ui (snd (worker_turn srv ep spec total idx rec (results, env))))
  = (history_events (ui env)
     + history_events
         (queued spec idx results
            (fst (try_body srv ep spec idx rec results env0))))%nat.
Proof.
  cbv zeta. unfold worker_turn.
  set (env0 := snd (after srv _ env)).
  pose proof (try_body_queue spec idx rec results env0) as Q.
  destruct (try_body srv ep spec idx rec results env0) as [[u|e] env1];
    simpl in Q |- *; rewrite Q; subst env0; simpl;
    rewrite !history_events_app; simpl; unfold history_events at 2 4; simpl;
    lia.
Qed.

Lemma worker_loop_history_later (total : nat) (rows : list Investigation) :
  forall idx st,
    (2 <= idx)%nat ->
    history_events (ui (snd (worker_loop srv ep spec total idx rows st)))
    = history_events (ui (snd st)).
Proof.
  induction rows as [|rec rest IH]; intros idx [results env] L;
    [reflexivity|].
  cbn [worker_loop]. rewrite IH by lia.
  rewrite worker_turn_history. unfold queued.
  replace (idx =? 1)%nat with false by (symmetry; apply Nat.eqb_neq; lia).
  destruct (fst _); destruct (comment spec) as [c|];
    cbn [andb fst snd]; rewrite ?andb_false_r;
    unfold history_events at 2; simpl; lia.
Qed.

(** X1: a run queues one call of [_add_to_comment_history] when a comment is
    asked for and the [try] block of the first selected record returns, and
    none otherwise, however many records are selected. *)
Lemma history_events_of_run (rows : list Investigation) (env : Env srv) :
  history_events (ui (snd (worker srv ep spec rows env)))
  = (history_events (ui env)
     + match attempt srv ep spec rows env 0 with
       | Some (Returned _, _) =>
           if Py.truthy_opt (comment spec) then 1 else 0
       | _ => 0
       end)%nat.
Proof.
  unfold worker.
  destruct (worker_loop srv ep spec (List.length rows) 1 rows
              (mkResults 0 [], env)) as [results env'] eqn:W.
  cbn [snd after ui]. rewrite history_events_app.
  change env' with (snd (results, env')). rewrite <- W. clear W.
  unfold history_events at 2. cbn [filter is_add_to_history List.length].
  rewrite Nat.add_0_r.
  destruct rows as [|rec rest]; [simpl; lia|].
  cbn [worker_loop]. rewrite worker_loop_history_later by lia.
  rewrite worker_turn_history.
  unfold attempt, before_record. cbn [nth_error firstn worker_loop fst].
  destruct (fst (try_body srv ep spec 1 rec (mkResults 0 []) _)) as [u|e];
    unfold queued; [|reflexivity].
  destruct (comment spec) as [c|]; [|reflexivity].
  cbn [Py.truthy_opt successes Nat.eqb andb].
  rewrite andb_true_r. destruct (Py.truthy c); reflexivity.
Qed.

End Queue.

(** Every queued call with a text that is not blank adds one entry to the
    history in memory. *)
Lemma run_ui_history_length (clock : nat -> string) (evs : list UiEvent) :
  (forall c, In (add_to_history c) evs -> Py.truthy (Py.strip c) = true) ->
  forall k app d,
    List.length (comment_history (fst (run_ui clock k evs (app, d))))
    = (List.length (comment_history app) + history_events evs)%nat.
Proof.
  induction evs as [|ev evs IH]; intros H k app d;
    [simpl; unfold history_events; simpl; lia|].
  assert (H' : forall c, In (add_to_history c) evs ->
                         Py.truthy (Py.strip c) = true)
    by (intros c Hc; apply H; right; exact Hc).
  destruct ev; cbn [run_ui]; try (rewrite (IH H'); reflexivity).
  destruct (_add_to_comment_history (clock k) c (app, d)) as [app' d'] eqn:E.
  rewrite (IH H').
  assert (L := add_to_comment_history_length (clock k) c app d
                 (H c (or_introl eq_refl))).
  rewrite E in L. simpl in L. rewrite L.
  unfold history_events. simpl. lia.
Qed.

Lemma saved_history_is_last_50_witness :
  writable (mkDisk None true) = true
  /\ cfg_comment_history
       (load_settings
          (_save_comment_history
             (mkApp [mkEntry "2026-01-01 00:00:00" "Closing as duplicate"])
             (mkDisk None true)))
     = [mkEntry "2026-01-01 00:00:00" "Closing as duplicate"].
Proof.
  split; [reflexivity|].
  exact (proj1 (saved_history_is_last_50
                  (mkApp [mkEntry "2026-01-01 00:00:00"
                            "Closing as duplicate"])
                  (mkDisk None true) eq_refl)).
Defined.

Lemma list_investigations_stops_witness :
  serve (paged_server [[first_row]])
    (GET_investigations (with_index params_base 1))
    (world (start (paged_server [[first_row]]) tt))
  = (Responds
       (mkResponse 200 "OK" "" ""
          (Some (mkPayload (Val [])
                   (Val (mkMetadata (Val 1%Z) (Val 1%Z)))))), tt)
  /\ list_investigations_from (paged_server [[first_row]]) 1 1 [first_row]
       (start (paged_server [[first_row]]) tt)
     = Some (Returned [first_row],
             @mkEnv (paged_server [[first_row]]) tt
               [(GET_investigations (with_index params_base 1), Some 200%Z)]
               []).
Proof.
  split; [reflexivity|].
  exact (proj1 (list_investigations_stops (paged_server [[first_row]]) 0 1
                  [first_row] (start (paged_server [[first_row]]) tt)
                  (mkResponse 200 "OK" "" ""
                     (Some (mkPayload (Val [])
                              (Val (mkMetadata (Val 1%Z) (Val 1%Z))))))
                  tt
                  (mkPayload (Val []) (Val (mkMetadata (Val 1%Z) (Val 1%Z))))
                  eq_refl eq_refl eq_refl)
           eq_refl).
Defined.

(** ** Bulk update: the report and the queue of any run *)

Section ReportFacts.

Variable srv : Server.
Variable ep : Endpoints.
Variable spec : MutationSpec.
Variable rows : list Investigation.
Variable env : Env srv.

Lemma attempt_defined (j : nat) (rec : Investigation) :
  nth_error rows j = Some rec ->
  exists out calls, attempt srv ep spec rows env j = Some (out, calls).
Proof.
  intros H. unfold attempt. rewrite H.
  destruct (before_record srv ep spec rows env j) as [results e].
  eexists. eexists. reflexivity.
Qed.

Lemma report_prefix (n : nat) :
  (n <= List.length rows)%nat ->
  let st := before_record srv ep spec rows env n in
  successes (fst st)
  = List.length (filter (returned_at srv ep spec rows env) (seq 0 n))
  /\ fails (fst st)
     = List.concat (map (failure_at srv ep spec rows env) (seq 0 n))
  /\ (successes (fst st) + List.length (fails (fst st)) = n)%nat
  /\ sent (snd st)
     = sent env
       ++ List.concat (map (calls_at srv ep spec rows env) (seq 0 n)).
Proof.
  induction n as [|n IH]; intros L; cbv zeta.
  - unfold before_record. simpl. rewrite app_nil_r. auto.
  - destruct IH as (S1 & F1 & N1 & T1); [lia|].
    destruct (nth_error rows n) as [rec|] eqn:R;
      [|apply nth_error_None in R; lia].
    destruct (attempt_defined n rec R) as (out & calls & A).
    destruct (before_record_step srv ep spec rows env n rec out calls R A)
      as (T & O).
    rewrite seq_S, filter_app, !map_app, !concat_app, length_app.
    cbn [map List.concat filter Nat.add].
    unfold returned_at at 2, failure_at at 2, calls_at at 2.
    rewrite R, A, !app_nil_r, app_assoc, <- T1, <- F1, <- S1.
    destruct out as [u|e]; destruct O as [O1 O2]; rewrite O1, O2, T.
    + cbn [List.length]. rewrite app_nil_r. repeat split; lia.
    + cbn [List.length]. rewrite length_app. cbn [List.length].
      repeat split; lia.
Qed.

(** X4: the report of any run counts every selected record once: the
    successes are the records whose [try] block returns, the failures are
    one entry, title and error text, for each record whose block raises, in
    the order of the selection, and the two add up to the number of records.
    The calls of the run are the calls of the records, one record after the
    other. *)
Theorem bulk_report_lists_failures_in_order :
  let run := worker srv ep spec rows env in
  let positions := seq 0 (List.length rows) in
  successes (fst run)
  = List.length (filter (returned_at srv ep spec rows env) positions)
  /\ fails (fst run)
     = List.concat (map (failure_at srv ep spec rows env) positions)
  /\ (successes (fst run) + List.length (fails (fst run))
      = List.length rows)%nat
  /\ sent (snd run)
     = sent env
       ++ List.concat (map (calls_at srv ep spec rows env) positions).
Proof.
  cbv zeta.
  pose proof (report_prefix (List.length rows) (le_n _)) as H.
  cbv zeta in H. unfold before_record in H. rewrite firstn_all in H.
  unfold worker.
  destruct (worker_loop srv ep spec (List.length rows) 1 rows
              (mkResults 0 [], env)) as [results env'].
  exact H.
Qed.

Lemma queued_later (idx : nat) (results : Results) (out : Result unit) :
  (2 <= idx)%nat -> queued spec idx results out = [].
Proof.
  intros L. unfold queued.
  replace (idx =? 1)%nat with false by (symmetry; apply Nat.eqb_neq; lia).
  destruct out; [|reflexivity]. destruct (comment spec); [|reflexivity].
  rewrite andb_false_r. reflexivity.
Qed.

Lemma before_record_0 :
  before_record srv ep spec rows env 0 = (mkResults 0 [], env).
Proof. reflexivity. Qed.

Lemma queue_prefix (n : nat) :
  (n <= List.length rows)%nat ->
  ui (snd (before_record srv ep spec rows env n))
  = ui env ++ List.concat (map (events_at srv ep spec rows env) (seq 0 n)).
Proof.
  induction n as [|n IH]; intros L.
  - unfold before_record. simpl. rewrite app_nil_r. reflexivity.
  - destruct (nth_error rows n) as [rec|] eqn:R;
      [|apply nth_error_None in R; lia].
    rewrite seq_S, map_app, concat_app. cbn [map List.concat Nat.add].
    rewrite app_nil_r, app_assoc, <- IH by lia.
    rewrite (before_record_S srv ep spec rows env n rec R).
    unfold events_at, attempt. rewrite R.
    assert (Q0 : n = 0%nat ->
                 before_record srv ep spec rows env n = (mkResults 0 [], env))
      by (intros ->; reflexivity).
    destruct (before_record srv ep spec rows env n) as [results e].
    unfold worker_turn.
    set (e0 := snd (after srv _ e)).
    pose proof (try_body_queue srv ep spec (S n) rec results e0) as Q.
    destruct (try_body srv ep spec (S n) rec results e0) as [out e1].
    cbn [fst snd] in Q |- *.
    assert (E : queued spec (S n) results out
                = match n with
                  | O => queued spec 1 (mkResults 0 []) out
                  | S _ => []
                  end).
    { destruct n as [|n].
      - specialize (Q0 eq_refl). injection Q0 as -> _. reflexivity.
      - apply queued_later. lia. }
    rewrite <- E.
    destruct out as [u|ex]; cbn [snd after ui]; rewrite Q; subst e0;
      cbn [snd after ui]; rewrite <- !app_assoc; reflexivity.
Qed.

(** X5: what any run hands to the main loop: for each selected record, in
    order, a progress event with its 1-based position, the total and its
    title, then (for the first record only, when its comment went through)
    the addition to the comment history, then the log of its outcome; and
    last of all the completion event, which carries the report the worker
    returns. *)
Theorem progress_queue_of_run :
  let run := worker srv ep spec rows env in
  ui (snd run)
  = ui env
    ++ List.concat (map (events_at srv ep spec rows env)
                      (seq 0 (List.length rows)))
    ++ [update_complete (fst run) (List.length rows)].
Proof.
  cbv zeta.
  pose proof (queue_prefix (List.length rows) (le_n _)) as H.
  unfold before_record in H. rewrite firstn_all in H.
  unfold worker.
  destruct (worker_loop srv ep spec (List.length rows) 1 rows
              (mkResults 0 [], env)) as [results env'].
  cbn [fst snd after ui] in H |- *. rewrite H, <- app_assoc. reflexivity.
Qed.

End ReportFacts.

(** ** Bulk update: the calls of one record *)

Section Staged.

Variable srv : Server.
Variable ep : Endpoints.

Lemma staged_nothing {A} (lo hi : nat) (m : M srv A) :
  (forall env, sent (snd (m env)) = sent env) -> staged lo hi m.
Proof.
  intros H env. exists []. rewrite H, app_nil_r.
  repeat split; constructor.
Qed.

Lemma staged_request (q : Request) :
  staged (rank q) (S (rank q)) (request srv q).
Proof.
  intros env. unfold request.
  destruct (serve srv q (world env)) as [[e|r] w]; simpl;
    eexists; (split; [reflexivity|]); split;
    repeat constructor; unfold rank_of; simpl; lia.
Qed.

Lemma staged_bind {A B} (lo mid hi : nat) (m : M srv A) (k : A -> M srv B) :
  (lo <= mid <= hi)%nat ->
  staged lo mid m -> (forall a, staged mid hi (k a)) ->
  staged lo hi (bind srv m k).
Proof.
  intros L Hm Hk env. unfold bind.
  destruct (Hm env) as (c1 & E1 & S1 & F1).
  destruct (m env) as [[a|e] env1]; simpl in *.
  - destruct (Hk a env1) as (c2 & E2 & S2 & F2).
    exists (c1 ++ c2). rewrite E2, E1, app_assoc.
    split; [reflexivity|]. rewrite Forall_forall in F1, F2. split.
    + rewrite map_app. apply StronglySorted_app; auto.
      intros x y Hx Hy. apply in_map_iff in Hx, Hy.
      destruct Hx as (cx & <- & Hx), Hy as (cy & <- & Hy).
      specialize (F1 cx Hx). specialize (F2 cy Hy). lia.
    + apply Forall_forall. intros c Hc. apply in_app_or in Hc.
      destruct Hc as [Hc|Hc]; [specialize (F1 c Hc) | specialize (F2 c Hc)];
        lia.
  - exists c1. repeat split; auto.
    eapply Forall_impl; [|exact F1]. simpl. intros c Hc. lia.
Qed.

Lemma staged_checked_request (q : Request) :
  staged (rank q) (S (rank q))
    (bind srv (request srv q) (fun r => raise_for_status srv r)).
Proof.
  apply (staged_bind _ (S (rank q))); [lia | apply staged_request |].
  intros r. apply staged_nothing. intros env.
  destruct (sends_raise_for_status srv (fun _ => false) r env)
    as (calls & E & F).
  destruct calls as [|c calls]; [rewrite E; apply app_nil_r|].
  inversion F; discriminate.
Qed.

Lemma staged_if_set (lo hi : nat) (x : option string)
    (k : string -> M srv unit) :
  (forall s, staged lo hi (k s)) -> staged lo hi (if_set srv x k).
Proof.
  intros H. unfold if_set. destruct x as [s|];
    [destruct (Py.truthy s); [apply H|] | ];
    apply staged_nothing; reflexivity.
Qed.

Lemma staged_assign_user (k e : string) : staged 3 5 (assign_user srv k e).
Proof.
  unfold assign_user.
  apply (staged_bind _ 4); [lia | apply (staged_request (PATCH_assignee k e)) |].
  intros r. destruct (_ || _)%bool.
  - apply staged_nothing. reflexivity.
  - apply (staged_checked_request (PUT_assignee k e)).
Qed.

Lemma get_rrn_calls (i : string) (env : Env srv) :
  sent (snd (get_rrn srv i env)) = sent env
  \/ exists code,
       sent (snd (get_rrn srv i env))
       = sent env ++ [(GET_investigation i, code)].
Proof.
  unfold get_rrn.
  destruct (negb _); [left; reflexivity|].
  destruct (Py.startswith _ _); [left; reflexivity|].
  right. unfold bind, request.
  destruct (serve srv (GET_investigation i) (world env)) as [[e|r] w];
    [eexists; reflexivity|].
  exists (Some (status_code r)).
  set (env1 := mkEnv w _ _).
  change (sent env ++ [(GET_investigation i, Some (status_code r))])
    with (sent env1).
  destruct (raise_for_status srv r env1) as [[u|e] env2] eqn:R.
  - assert (E2 : env2 = env1).
    { apply (raise_for_status_returned srv r env1 env2 u) in R. tauto. }
    subst env2. unfold decode. destruct (json r) as [j|]; [|reflexivity].
    simpl. destruct j as [[inv|]|inv|]; try reflexivity;
      (destruct (get (rrn inv)) as [s0|]; [|reflexivity];
       destruct (Py.truthy s0); reflexivity).
  - unfold raise_for_status in R.
    repeat match type of R with
           | (if ?b then _ else _) _ = _ => destruct b
           end; injection R as _ <-; reflexivity.
Qed.

Lemma staged_get_rrn (i : string) : staged 5 6 (get_rrn srv i).
Proof.
  intros env. destruct (get_rrn_calls i env) as [E|(code & E)].
  - exists []. rewrite E, app_nil_r. repeat split; constructor.
  - eexists. split; [exact E|].
    split; repeat constructor; unfold rank_of; simpl; lia.
Qed.

Lemma staged_create_comment_v1 (t : string) (text : option string) :
  staged 6 7 (create_comment_v1 srv ep t text).
Proof.
  unfold create_comment_v1.
  destruct text as [c|]; [|apply staged_nothing; reflexivity].
  destruct (Py.truthy c); [|apply staged_nothing; reflexivity].
  apply (staged_bind _ 7); [lia | apply (staged_request (POST_comment t c)) |].
  intros r. apply staged_nothing. reflexivity.
Qed.

Lemma staged_comment_step (idx : nat) (results : Results)
    (inv_rrn inv_id c : string) :
  staged 5 7 (comment_step srv ep idx results inv_rrn inv_id c).
Proof.
  unfold comment_step. apply (staged_bind _ 6); [lia | |].
  - destruct (Py.truthy inv_rrn);
      [apply staged_nothing; reflexivity | apply staged_get_rrn].
  - intros t. apply (staged_bind _ 7); [lia | |].
    + apply staged_create_comment_v1.
    + intros info. apply staged_nothing. intros env.
      destruct (negb (ok info)); [reflexivity|].
      destruct (_ && _)%bool; reflexivity.
Qed.

Lemma staged_try_body (spec : MutationSpec) (idx : nat)
    (rec : Investigation) (results : Results) :
  staged 1 7 (try_body srv ep spec idx rec results).
Proof.
  unfold try_body.
  apply (staged_bind _ 2); [lia | | intros _].
  { apply staged_if_set. intros s. apply (staged_checked_request (PUT_status _ s)). }
  apply (staged_bind _ 3); [lia | | intros _].
  { apply staged_if_set. intros s.
    apply (staged_checked_request (PUT_disposition _ s)). }
  apply (staged_bind _ 5); [lia | | intros _].
  { apply staged_if_set. intros s. apply staged_assign_user. }
  apply staged_if_set. intros c. apply staged_comment_step.
Qed.

(** X6: the calls the worker issues for one record come in a fixed order and
    each kind at most once: the status, then the disposition, then the
    [PATCH] and the [PUT] of the assignee, then the [GET] that resolves the
    name, then the [POST] of the comment; and never a list request.  This
    holds for every server, whatever it answers. *)
Theorem try_body_calls_in_fixed_order (spec : MutationSpec) (idx : nat)
    (rec : Investigation) (results : Results) (env : Env srv) :
  let calls := calls_of (try_body srv ep spec idx rec results) env in
  StronglySorted lt (map rank_of calls)
  /\ Forall (fun c => (1 <= rank_of c <= 6)%nat) calls.
Proof.
  cbv zeta.
  destruct (staged_try_body spec idx rec results env) as (calls & E & S & F).
  rewrite (calls_of_app srv _ env calls E). split; [exact S|].
  eapply Forall_impl; [|exact F]. simpl. intros c Hc. lia.
Qed.

End Staged.

Section Tidy.

Variable srv : Server.
Variable ep : Endpoints.

Lemma Forall_removelast {A} (P : A -> Prop) (l : list A) :
  Forall P l -> Forall P (removelast l).
Proof.
  induction 1 as [|x l Hx Hl IH]; [constructor|].
  destruct l as [|y l]; [constructor|].
  change (Forall P (x :: removelast (y :: l))). constructor; assumption.
Qed.

Lemma tidy_nothing {A} (m : M srv A) :
  (forall env, sent (snd (m env)) = sent env) -> tidy m.
Proof.
  intros H env. exists []. rewrite H, app_nil_r.
  repeat split; constructor.
Qed.

Lemma tidy_bind {A B} (m : M srv A) (k : A -> M srv B) :
  tidy m -> (forall a, tidy (k a)) -> tidy (bind srv m k).
Proof.
  intros Hm Hk env. unfold bind.
  destruct (Hm env) as (c1 & E1 & L1 & R1).
  destruct (m env) as [[a|e] env1]; simpl in *.
  - destruct (Hk a env1) as (c2 & E2 & L2 & R2).
    specialize (R1 a eq_refl).
    exists (c1 ++ c2). rewrite E2, E1, app_assoc.
    split; [reflexivity|]. split.
    + destruct c2 as [|c c2].
      * rewrite app_nil_r. apply Forall_removelast. exact R1.
      * rewrite removelast_app by discriminate.
        apply Forall_app. split; assumption.
    + intros b Hb. apply Forall_app. split; [exact R1 | apply (R2 b Hb)].
  - exists c1. split; [exact E1|]. split; [exact L1|]. discriminate.
Qed.

(** A request whose answer is checked at once. *)
Lemma tidy_checked_request (q : Request) :
  tidy (bind srv (request srv q) (fun r => raise_for_status srv r)).
Proof.
  intros env. unfold bind, request.
  destruct (serve srv q (world env)) as [[e|r] w].
  - eexists. split; [reflexivity|]. split; [constructor | discriminate].
  - set (env1 := mkEnv w _ _).
    destruct (raise_for_status srv r env1) as [[u|e] env2] eqn:R.
    + apply raise_for_status_returned in R. destruct R as [-> Ok].
      eexists. split; [reflexivity|]. split; [constructor|].
      intros _ _. repeat constructor. unfold passable. simpl.
      rewrite Ok. reflexivity.
    + assert (E2 : sent env2 = sent env1).
      { unfold raise_for_status in R.
        repeat match type of R with
               | (if ?b then _ else _) _ = _ => destruct b
               end; injection R as _ <-; reflexivity. }
      eexists. split; [simpl; rewrite E2; reflexivity|].
      split; [constructor | discriminate].
Qed.

Lemma tidy_if_set (x : option string) (k : string -> M srv unit) :
  (forall s, tidy (k s)) -> tidy (if_set srv x k).
Proof.
  intros H. unfold if_set. destruct x as [s|];
    [destruct (Py.truthy s); [apply H|] | ];
    apply tidy_nothing; reflexivity.
Qed.

Lemma tidy_assign_user (k e : string) : tidy (assign_user srv k e).
Proof.
  unfold assign_user. apply tidy_bind.
  - intros env. unfold request.
    destruct (serve srv (PATCH_assignee k e) (world env)) as [[ex|r] w].
    + eexists. split; [reflexivity|]. split; [constructor | discriminate].
    + eexists. split; [reflexivity|]. split; [constructor|].
      intros _ _. repeat constructor. unfold passable. simpl.
      apply orb_true_r.
  - intros r. destruct (_ || _)%bool;
      [apply tidy_nothing; reflexivity
      | apply (tidy_checked_request (PUT_assignee k e))].
Qed.

Lemma raise_for_status_spec {B} (r : Response B) (env : Env srv) :
  if is_error (status_code r)
  then exists msg, raise_for_status srv r env = (Raised (HTTPError msg), env)
  else raise_for_status srv r env = (Returned tt, env).
Proof.
  unfold raise_for_status, is_error, raise, ret.
  destruct (Z.leb_spec 400 (status_code r)),
           (Z.ltb_spec (status_code r) 500),
           (Z.leb_spec 500 (status_code r)),
           (Z.ltb_spec (status_code r) 600);
    simpl; first [reflexivity | eexists; reflexivity | exfalso; lia].
Qed.

(** [get_rrn] issues no call, or one [GET]; when it returns after the call,
    the call was answered without an error status. *)
Lemma get_rrn_answered (i : string) (env : Env srv) :
  sent (snd (get_rrn srv i env)) = sent env
  \/ exists code,
       sent (snd (get_rrn srv i env))
       = sent env ++ [(GET_investigation i, code)]
       /\ (forall s, fst (get_rrn srv i env) = Returned s ->
                     exists c, code = Some c /\ is_error c = false).
Proof.
  unfold get_rrn.
  destruct (negb _); [left; reflexivity|].
  destruct (Py.startswith _ _); [left; reflexivity|].
  right. unfold bind, request.
  destruct (serve srv (GET_investigation i) (world env)) as [[e|r] w].
  { eexists. split; [reflexivity | intros s H; discriminate H]. }
  exists (Some (status_code r)).
  set (env1 := mkEnv w _ _).
  pose proof (raise_for_status_spec r env1) as R.
  destruct (is_error (status_code r)) eqn:Er.
  - destruct R as (msg & R). rewrite R.
    split; [reflexivity | intros s H; discriminate H].
  - rewrite R. split.
    + unfold decode. destruct (json r) as [j|]; [|reflexivity]. simpl.
      destruct j as [[inv|]|inv|]; try reflexivity;
        (destruct (get (rrn inv)) as [s0|]; [|reflexivity];
         destruct (Py.truthy s0); reflexivity).
    + intros s _. eexists. split; [reflexivity | exact Er].
Qed.

Lemma tidy_get_rrn (i : string) : tidy (get_rrn srv i).
Proof.
  intros env. destruct (get_rrn_answered i env) as [E|(code & E & Ok)].
  - exists []. rewrite E, app_nil_r. repeat split; constructor.
  - eexists. split; [exact E|]. split; [constructor|].
    intros s Hs. destruct (Ok s Hs) as (c & -> & Oc).
    repeat constructor. unfold passable. simpl. rewrite Oc. reflexivity.
Qed.

(** The [POST] of the comment and the test of its outcome. *)
Lemma tidy_post_comment (idx : nat) (results : Results) (t c : string) :
  tidy (bind srv (create_comment_v1 srv ep t (Some c))
          (fun info =>
             if negb (ok info) then
               raise srv
                 (RuntimeError ("Comment HTTP "
                                +++ Py.str_int (info_status info)
                                +++ " " +++ info_text info))
             else if ((idx =? 1) && (successes results =? 0))%nat then
               after srv (add_to_history c)
             else ret srv tt)).
Proof.
  unfold create_comment_v1. destruct (Py.truthy c).
  - intros env. unfold bind, request.
    destruct (serve srv (POST_comment t c) (world env)) as [[e|r] w].
    + eexists. split; [reflexivity|]. split; [constructor | discriminate].
    + cbn [ret ok negb body_of] in *.
      destruct (Z.eqb_spec (status_code r) 200) as [E200|N200];
        [|destruct (Z.eqb_spec (status_code r) 201) as [E201|N201]];
        cbn [orb negb].
      * destruct (_ && _)%bool; eexists; (split; [reflexivity|]);
          (split; [apply Forall_nil|]); intros _ _; repeat constructor;
          unfold passable; simpl; rewrite E200; reflexivity.
      * destruct (_ && _)%bool; eexists; (split; [reflexivity|]);
          (split; [apply Forall_nil|]); intros _ _; repeat constructor;
          unfold passable; simpl; rewrite E201; reflexivity.
      * eexists. split; [reflexivity|]. split; [constructor | discriminate].
  - apply tidy_nothing. intros env. cbn.
    destruct (_ && _)%bool; reflexivity.
Qed.

Lemma tidy_try_body (spec : MutationSpec) (idx : nat) (rec : Investigation)
    (results : Results) :
  tidy (try_body srv ep spec idx rec results).
Proof.
  unfold try_body.
  apply tidy_bind; [|intros _].
  { apply tidy_if_set. intros s. apply (tidy_checked_request (PUT_status _ s)). }
  apply tidy_bind; [|intros _].
  { apply tidy_if_set. intros s.
    apply (tidy_checked_request (PUT_disposition _ s)). }
  apply tidy_bind; [|intros _].
  { apply tidy_if_set. intros s. apply tidy_assign_user. }
  apply tidy_if_set. intros c. unfold comment_step. apply tidy_bind.
  - destruct (Py.truthy _); [apply tidy_nothing; reflexivity|].
    apply tidy_get_rrn.
  - intros t. apply tidy_post_comment.
Qed.

(** X7: a call that fails ends the work on its record.  Of the calls issued
    for one record, every one that is followed by another was answered, and
    not with an error status, the only exception being a [PATCH] of the
    assignee (any answer but 200 or 204 to it is followed by the [PUT]);
    and when the [try] block returns, this holds of its last call too. *)
Theorem failed_call_ends_the_record (spec : MutationSpec) (idx : nat)
    (rec : Investigation) (results : Results) (env : Env srv) :
  let m := try_body srv ep spec idx rec results in
  Forall (fun c => passable c = true) (removelast (calls_of m env))
  /\ (forall u, fst (m env) = Returned u ->
                Forall (fun c => passable c = true) (calls_of m env)).
Proof.
  cbv zeta.
  destruct (tidy_try_body spec idx rec results env) as (calls & E & L & R).
  rewrite (calls_of_app srv _ env calls E). split; assumption.
Qed.

End Tidy.

(** ** Bulk update: whom the calls of a record address *)

Section Frame.

Variable srv : Server.
Variable ep : Endpoints.

Lemma sends_bind_when {A B} (P : Request -> bool) (Q : A -> Prop)
    (m : M srv A) (k : A -> M srv B) :
  sends P m ->
  (forall env a, fst (m env) = Returned a -> Q a) ->
  (forall a, Q a -> sends P (k a)) ->
  sends P (bind srv m k).
Proof.
  intros Hm Hq Hk env. unfold bind.
  destruct (Hm env) as (c1 & E1 & F1). pose proof (Hq env) as Qa.
  destruct (m env) as [[a|e] env1]; simpl in *.
  - destruct (Hk a (Qa a eq_refl) env1) as (c2 & E2 & F2).
    exists (c1 ++ c2). rewrite E2, E1, app_assoc. split; [reflexivity|].
    apply Forall_app; auto.
  - exists c1. auto.
Qed.

Lemma sends_if_set_truthy (P : Request -> bool) (x : option string)
    (k : string -> M srv unit) :
  (forall s, x = Some s -> Py.truthy s = true -> sends P (k s)) ->
  sends P (if_set srv x k).
Proof.
  intros H. unfold if_set. destruct x as [s|]; [|apply sends_ret].
  destruct (Py.truthy s) eqn:T; [auto | apply sends_ret].
Qed.

(** What [get_rrn] returns is never the empty string. *)
Lemma get_rrn_returns_truthy (i s : string) (env : Env srv) :
  fst (get_rrn srv i env) = Returned s -> Py.truthy s = true.
Proof.
  unfold get_rrn. destruct (Py.truthy i) eqn:Ti; [|discriminate].
  cbn [negb]. destruct (Py.startswith i "rrn:").
  { intros [= <-]. exact Ti. }
  unfold bind, request.
  destruct (serve srv (GET_investigation i) (world env)) as [[e|r] w];
    [discriminate|].
  destruct (raise_for_status srv r _) as [[u|e] env1]; [|discriminate].
  unfold decode. destruct (json r) as [j|]; [|discriminate]. cbn [ret].
  destruct j as [[inv|]|inv|]; try discriminate;
    (destruct (get (rrn inv)) as [s0|]; [|discriminate];
     destruct (Py.truthy s0) eqn:T0; [|discriminate];
     intros [= <-]; exact T0).
Qed.

Lemma holds_refl (s : string) : holds (Some s) s = true.
Proof. apply String.eqb_refl. Qed.

Lemma try_body_frame (spec : MutationSpec) (idx : nat) (rec : Investigation)
    (results : Results) :
  sends (call_for spec rec) (try_body srv ep spec idx rec results).
Proof.
  unfold try_body.
  set (inv_rrn := Py.or_str (get (rrn rec)) "").
  set (inv_id := Py.or_str (get (id rec)) "").
  set (key := Py.or_ inv_id inv_rrn).
  repeat (apply sends_bind; [|intros _]).
  - apply sends_if_set_truthy. intros s [= <-] T. apply sends_set_status.
    cbn [call_for]. fold inv_rrn inv_id key.
    rewrite !String.eqb_refl, T. reflexivity.
  - apply sends_if_set_truthy. intros s E T. apply sends_set_disposition.
    cbn [call_for]. fold inv_rrn inv_id key.
    rewrite E, holds_refl, String.eqb_refl, T. reflexivity.
  - apply sends_if_set_truthy. intros s E T.
    assert (C : (String.eqb key key && holds (chosen_email spec) s
                 && Py.truthy s)%bool = true)
      by (rewrite E, holds_refl, String.eqb_refl, T; reflexivity).
    apply sends_assign_user; exact C.
  - apply sends_if_set_truthy. intros c E T. unfold comment_step.
    apply (sends_bind_when _
             (fun t => Py.truthy t = true
                       /\ (Py.truthy inv_rrn = true -> t = inv_rrn))).
    + destruct (Py.truthy inv_rrn) eqn:Tr; [apply sends_ret|].
      unfold get_rrn. destruct (Py.truthy inv_id) eqn:Ti;
        [|apply sends_raise].
      cbn [negb]. destruct (Py.startswith inv_id "rrn:") eqn:Sw;
        [apply sends_ret|].
      assert (G : call_for spec rec (GET_investigation inv_id) = true).
      { cbn [call_for]. fold inv_rrn inv_id.
        rewrite E, String.eqb_refl, Tr, Ti, Sw. cbn [Py.truthy_opt].
        rewrite T. reflexivity. }
      apply sends_bind; [apply sends_request; exact G|]. intros r.
      apply sends_bind; [apply sends_raise_for_status|]. intros _.
      apply sends_bind; [apply sends_decode|]. intros j.
      destruct j as [[inv|]|inv|]; try apply sends_raise;
        (destruct (get (rrn inv)) as [s0|]; [|apply sends_raise];
         destruct (Py.truthy s0); auto using sends_raise, sends_ret).
    + intros env t H. destruct (Py.truthy inv_rrn) eqn:Tr.
      * injection H as <-. split; [exact Tr | reflexivity].
      * split; [exact (get_rrn_returns_truthy _ _ _ H) | discriminate].
    + intros t [Tt Own]. apply sends_bind.
      * apply sends_create_comment_v1. intros c' [= <-].
        cbn [call_for]. fold inv_rrn.
        rewrite E, holds_refl, T, Tt.
        destruct (Py.truthy inv_rrn); [|reflexivity].
        rewrite (Own eq_refl), String.eqb_refl. reflexivity.
      * intros info. destruct (negb _); [apply sends_raise|].
        destruct (_ && _)%bool; [apply sends_after | apply sends_ret].
Qed.

Lemma calls_at_frame (spec : MutationSpec) (rows : list Investigation)
    (env : Env srv) (j : nat) :
  Forall (fun c =>
            match nth_error rows j with
            | Some rec => call_for spec rec (fst c) = true
            | None => False
            end)
    (calls_at srv ep spec rows env j).
Proof.
  unfold calls_at, attempt.
  destruct (nth_error rows j) as [rec|]; [|constructor].
  destruct (before_record srv ep spec rows env j) as [results e].
  set (e0 := snd (after srv _ e)).
  destruct (try_body_frame spec (S j) rec results e0) as (calls & E & F).
  rewrite (calls_of_app srv _ e0 calls E). exact F.
Qed.

Lemma worker_frame (spec : MutationSpec) (rows : list Investigation)
    (env : Env srv) :
  exists calls,
    sent (snd (worker srv ep spec rows env)) = sent env ++ calls
    /\ Forall (fun c =>
                 existsb (fun rec => call_for spec rec (fst c)) rows = true)
         calls.
Proof.
  pose proof (report_prefix srv ep spec rows env (List.length rows)
                (le_n _)) as H.
  cbv zeta in H. destruct H as (_ & _ & _ & H).
  unfold before_record in H. rewrite firstn_all in H.
  unfold worker.
  destruct (worker_loop srv ep spec (List.length rows) 1 rows
              (mkResults 0 [], env)) as [results env'].
  cbn [snd after sent] in *. eexists. split; [exact H|].
  apply Forall_concat. apply Forall_map. apply Forall_forall.
  intros j _. eapply Forall_impl; [|apply (calls_at_frame spec rows env j)].
  cbv beta. intros c Hc.
  destruct (nth_error rows j) as [rec|] eqn:R; [|contradiction].
  apply existsb_exists. exists rec. split; [|exact Hc].
  apply (nth_error_In _ _ R).
Qed.

(** X8: the calls the worker issues for the record at any position of any
    selection are calls for that record: each addresses the record by the
    key the worker uses for it (its id, or its name when it has no id),
    carries a value asked for in the form that is not empty, and the comment
    is posted with a target that is not empty, the record's own name when it
    has one.  So, whatever the server answers, every call of a run is a call
    for one of the selected records, and none carries a value that was not
    asked for. *)
Theorem calls_of_a_record_are_its_own (spec : MutationSpec)
    (rows : list Investigation) (env : Env srv) :
  (forall j,
     Forall (fun c =>
               match nth_error rows j with
               | Some rec => call_for spec rec (fst c) = true
               | None => False
               end)
       (calls_at srv ep spec rows env j))
  /\ exists calls,
       sent (snd (worker srv ep spec rows env)) = sent env ++ calls
       /\ Forall (fun c =>
                    existsb (fun rec => call_for spec rec (fst c)) rows
                    = true)
            calls.
Proof.
  split; [intros j; apply calls_at_frame | apply worker_frame].
Qed.

(** X10: a field of the form that is left empty is not sent.  For any
    server, settings and selection: with no disposition chosen the run
    issues no [PUT] of a disposition; with a comment box that holds only
    whitespace it issues neither the [GET] that resolves a name nor the
    [POST] of a comment; and with an empty status no [PUT] of a status. *)
Theorem empty_fields_are_not_sent (cfg : Settings) (form : Form)
    (rows : list Investigation) (env : Env srv) :
  let calls :=
    skipn (List.length (sent env))
      (sent (snd (update_selected_async srv ep cfg form rows env))) in
  (status_choice form = ""
   -> Forall (fun c => is_status_request (fst c) = false) calls)
  /\ (dispo_choice form = ""
      -> Forall (fun c => is_disposition_request (fst c) = false) calls)
  /\ (Py.strip (comment_box form) = ""
      -> Forall (fun c => is_comment_request (fst c) = false) calls).
Proof.
  cbv zeta.
  assert (F : exists calls,
             sent (snd (update_selected_async srv ep cfg form rows env))
             = sent env ++ calls
             /\ Forall (fun c =>
                          existsb (fun rec =>
                                     call_for (mutation_spec cfg form) rec
                                       (fst c)) rows = true) calls).
  { unfold update_selected_async. destruct rows as [|r rows'].
    - exists []. rewrite app_nil_r. split; [reflexivity | constructor].
    - destruct (worker_frame (mutation_spec cfg form) (r :: rows') env)
        as (calls & E & F).
      destruct (worker srv ep (mutation_spec cfg form) (r :: rows') env)
        as [results env'].
      exists calls. split; assumption. }
  destruct F as (calls & E & F). rewrite E.
  rewrite skipn_app, skipn_all, Nat.sub_diag. cbn [skipn app].
  assert (Each : forall (P : Request -> bool),
             (forall rec q,
                call_for (mutation_spec cfg form) rec q = true ->
                P q = false) ->
             Forall (fun c => P (fst c) = false) calls).
  { intros P HP. eapply Forall_impl; [|exact F]. cbv beta. intros c Hc.
    apply existsb_exists in Hc. destruct Hc as (rec & _ & Hc).
    exact (HP rec (fst c) Hc). }
  repeat split; intros Empty; apply Each; intros rec q;
    destruct q; try reflexivity;
    cbn [call_for mutation_spec chosen_status chosen_dispo comment];
    rewrite Empty; cbn [Py.or_None Py.truthy Py.truthy_opt holds andb];
    rewrite ?andb_false_r; try discriminate.
  (* the status: the value sent is the chosen one, which is empty *)
  destruct (String.eqb_spec "" new_status) as [<-|N];
    rewrite ?andb_false_r; discriminate.
Qed.

(** X9: when [get_rrn] returns, what it returns is not empty, and it is
    either the identifier it was given, which then starts with "rrn:" and
    no call was issued, or the [rrn] of the record the one [GET] brought,
    answered with a status that is no error: the record inside [data] when
    the body has that key, the body itself otherwise. *)
Theorem get_rrn_result (i s : string) (env : Env srv) :
  fst (get_rrn srv i env) = Returned s ->
  Py.truthy s = true
  /\ ((Py.startswith i "rrn:" = true /\ s = i
       /\ calls_of (get_rrn srv i) env = [])
      \/ (Py.startswith i "rrn:" = false
          /\ exists r inv,
               fst (serve srv (GET_investigation i) (world env))
               = Responds r
               /\ is_error (status_code r) = false
               /\ (json r = Some (Wrapped (Some inv))
                   \/ json r = Some (Bare inv))
               /\ rrn inv = Val s
               /\ calls_of (get_rrn srv i) env
                  = [(GET_investigation i, Some (status_code r))])).
Proof.
  intros H. split; [exact (get_rrn_returns_truthy i s env H)|].
  revert H. unfold calls_of, get_rrn.
  destruct (Py.truthy i) eqn:Ti; [|discriminate]. cbn [negb].
  destruct (Py.startswith i "rrn:").
  { intros [= <-]. left. repeat split. cbn [ret snd]. apply skipn_all. }
  intros H. right. split; [reflexivity|]. revert H.
  unfold bind, request.
  destruct (serve srv (GET_investigation i) (world env)) as [[e|r] w];
    [discriminate|].
  set (env1 := mkEnv w _ _).
  pose proof (raise_for_status_spec srv r env1) as R.
  destruct (is_error (status_code r)) eqn:Er.
  { destruct R as (msg & R). rewrite R. discriminate. }
  rewrite R. unfold decode. destruct (json r) as [j|] eqn:J;
    [|discriminate].
  cbn [ret].
  assert (Sk : skipn (List.length (sent env)) (sent env1)
               = [(GET_investigation i, Some (status_code r))]).
  { unfold env1. cbn [sent]. rewrite skipn_app, skipn_all, Nat.sub_diag.
    reflexivity. }
  destruct j as [[inv|]|inv|]; try discriminate;
    (destruct (rrn inv) as [| |s0] eqn:Rr; try discriminate; cbn [get];
     destruct (Py.truthy s0); [|discriminate];
     intros [= <-]; exists r, inv; cbn [fst snd];
     repeat split; auto).
Qed.

End Frame.

Lemma get_rrn_result_witness :
  fst (get_rrn (resolving_server true "rrn:42") "42"
         (start (resolving_server true "rrn:42") tt))
  = Returned "rrn:42"
  /\ Py.truthy "rrn:42" = true
  /\ calls_of (get_rrn (resolving_server true "rrn:42") "42")
       (start (resolving_server true "rrn:42") tt)
     = [(GET_investigation "42", Some 200%Z)].
Proof.
  split; [reflexivity|].
  destruct (get_rrn_result (resolving_server true "rrn:42") "42" "rrn:42"
              (start (resolving_server true "rrn:42") tt) eq_refl)
    as [T _].
  split; [exact T | reflexivity].
Defined.

(** ** Assigning: the [PATCH] and its fallback *)

Section Assign.

Variable srv : Server.

(** X11: [assign_user] always issues the [PATCH], first.  The [PUT] follows
    exactly when the [PATCH] was answered with a status other than 200 and
    204, an error status included; then the outcome is that of the [PUT]
    alone, and [assign_user] returns exactly when the [PUT] was answered
    with a status that is no error.  A [PATCH] that raises (no connection)
    is not followed by the [PUT]. *)
Theorem assign_user_put_follows_refused_patch (k e : string)
    (env : Env srv) :
  exists code rest,
    calls_of (assign_user srv k e) env = (PATCH_assignee k e, code) :: rest
    /\ match code with
       | None =>
           rest = []
           /\ exists ex, fst (assign_user srv k e env) = Raised ex
       | Some c =>
           if ((c =? 200) || (c =? 204))%Z
           then rest = [] /\ fst (assign_user srv k e env) = Returned tt
           else
             exists code2,
               rest = [(PUT_assignee k e, code2)]
               /\ (fst (assign_user srv k e env) = Returned tt
                   <-> exists c2, code2 = Some c2 /\ is_error c2 = false)
       end.
Proof.
  unfold calls_of, assign_user, bind, request.
  destruct (serve srv (PATCH_assignee k e) (world env)) as [[ex|r] w].
  { exists None, []. cbn [fst snd sent].
    rewrite skipn_app, skipn_all, Nat.sub_diag. cbn [skipn app].
    repeat split. exists ex. reflexivity. }
  cbn [body_of] in *. exists (Some (status_code r)).
  destruct ((status_code r =? 200) || (status_code r =? 204))%Z.
  { exists []. cbn [ret fst snd sent].
    rewrite skipn_app, skipn_all, Nat.sub_diag. cbn [skipn app].
    repeat split. }
  cbn [world sent ui].
  destruct (serve srv (PUT_assignee k e) w) as [[ex2|r2] w2].
  { exists [(PUT_assignee k e, None)]. cbn [fst snd sent].
    rewrite <- app_assoc, skipn_app, skipn_all, Nat.sub_diag.
    cbn [skipn app]. split; [reflexivity|].
    exists None. split; [reflexivity|]. split; [discriminate|].
    intros (c2 & [=] & _). }
  cbn [body_of] in *.
  exists [(PUT_assignee k e, Some (status_code r2))].
  set (env2 := mkEnv w2 _ _).
  pose proof (raise_for_status_spec srv r2 env2) as R.
  destruct (is_error (status_code r2)) eqn:Er.
  - destruct R as (msg & R). rewrite R. unfold env2. cbn [fst snd sent].
    rewrite <- app_assoc, skipn_app, skipn_all, Nat.sub_diag.
    cbn [skipn app]. split; [reflexivity|].
    eexists. split; [reflexivity|]. split; [discriminate|].
    intros (c2 & [= <-] & Ok). congruence.
  - rewrite R. unfold env2. cbn [fst snd sent].
    rewrite <- app_assoc, skipn_app, skipn_all, Nat.sub_diag.
    cbn [skipn app]. split; [reflexivity|].
    eexists. split; [reflexivity|]. split; [|reflexivity].
    intros _. exists (status_code r2). split; [reflexivity | exact Er].
Qed.

End Assign.

(** ** Fetching: the requests of the loop, for any server *)

Section Cursor.

Variable srv : Server.

(** One turn issues one list request, for the index it was given; when the
    turn returns, the request was answered with a status that is no
    error. *)
Lemma list_investigations_turn_call (index : Z)
    (all_items : list Investigation) (env : Env srv) :
  exists code,
    sent (snd (list_investigations_turn srv index all_items env))
    = sent env
      ++ [(GET_investigations (with_index params_base index), code)]
    /\ (forall a,
          fst (list_investigations_turn srv index all_items env)
          = Returned a ->
          passable
            (GET_investigations (with_index params_base index), code)
          = true).
Proof.
  unfold list_investigations_turn, bind, request.
  destruct (serve srv (GET_investigations (with_index params_base index))
              (world env)) as [[ex|r] w].
  { eexists. split; [reflexivity | intros a H; discriminate H]. }
  cbn [body_of] in *. exists (Some (status_code r)).
  set (env1 := mkEnv w _ _).
  pose proof (raise_for_status_spec srv r env1) as R.
  destruct (is_error (status_code r)) eqn:Er.
  { destruct R as (msg & R). rewrite R.
    split; [reflexivity | intros a H; discriminate H]. }
  rewrite R. split.
  - unfold decode. destruct (json r) as [p|]; [|reflexivity]. cbn [ret].
    destruct (match data p with Val l => l | _ => [] end);
      [reflexivity|].
    destruct (get_default _ index); [|reflexivity].
    destruct (_ || _)%bool; reflexivity.
  - intros a _. unfold passable. cbn [fst snd]. rewrite Er. reflexivity.
Qed.

Lemma list_investigations_from_calls (fuel : nat) :
  forall (index : Z) (all_items : list Investigation) (env env' : Env srv)
         (res : Result (list Investigation)),
    list_investigations_from srv fuel index all_items env
    = Some (res, env') ->
    exists calls,
      sent env' = sent env ++ calls
      /\ (1 <= List.length calls <= fuel)%nat
      /\ map fst calls
         = map (fun i => GET_investigations
                           (with_index params_base (index + Z.of_nat i)))
             (seq 0 (List.length calls))
      /\ Forall (fun c => passable c = true) (removelast calls)
      /\ (forall items, res = Returned items ->
                        Forall (fun c => passable c = true) calls).
Proof.
  induction fuel as [|fuel IH]; intros index all_items env env' res H;
    [discriminate H|].
  cbn [list_investigations_from] in H.
  destruct (list_investigations_turn_call index all_items env)
    as (code & E & Ok).
  destruct (list_investigations_turn srv index all_items env)
    as [[[more items]|ex] env1]; cbn [fst snd] in *.
  - specialize (Ok _ eq_refl). destruct more.
    + apply IH in H. destruct H as (calls & E2 & L & Q & Pl & Pr).
      exists ((GET_investigations (with_index params_base index), code)
                :: calls).
      rewrite E2, E, <- app_assoc. split; [reflexivity|].
      split; [cbn [List.length]; lia|]. split; [|split].
      * cbn [List.length seq map fst]. rewrite Z.add_0_r. f_equal.
        rewrite Q, <- seq_shift, map_map. apply map_ext. intros i.
        do 2 f_equal. lia.
      * destruct calls as [|c calls]; [cbn [List.length] in L; lia|].
        change (Forall (fun c0 => passable c0 = true)
                  ((GET_investigations (with_index params_base index), code)
                     :: removelast (c :: calls))).
        constructor; assumption.
      * intros its Hr. constructor; [exact Ok | exact (Pr its Hr)].
    + injection H as <- <-.
      exists [(GET_investigations (with_index params_base index), code)].
      split; [exact E|]. split; [cbn [List.length]; lia|].
      split; [cbn; rewrite Z.add_0_r; reflexivity|].
      split; [constructor|]. intros _ _. repeat constructor. exact Ok.
  - injection H as <- <-.
    exists [(GET_investigations (with_index params_base index), code)].
    split; [exact E|]. split; [cbn [List.length]; lia|].
    split; [cbn; rewrite Z.add_0_r; reflexivity|].
    split; [constructor|]. intros items Hr. discriminate Hr.
Qed.

(** X12: whatever the server answers, when [list_investigations] ends
    (returning or raising) it has issued at least one list request and
    nothing else, and its requests ask for the pages 0, 1, 2, ... in turn,
    each once, with the same other parameters: the index asked for is the
    loop's own counter, not the index the server reports.  Every request
    but the last was answered with a status that is no error, and the last
    one too when the function returns. *)
Theorem list_investigations_asks_pages_in_turn (fuel : nat)
    (env env' : Env srv) (res : Result (list Investigation)) :
  list_investigations srv fuel env = Some (res, env') ->
  exists calls,
    sent env' = sent env ++ calls
    /\ (1 <= List.length calls <= fuel)%nat
    /\ map fst calls
       = map (fun i => GET_investigations
                         (with_index params_base (Z.of_nat i)))
           (seq 0 (List.length calls))
    /\ Forall (fun c => passable c = true) (removelast calls)
    /\ (forall items, res = Returned items ->
                      Forall (fun c => passable c = true) calls).
Proof.
  intros H. exact (list_investigations_from_calls fuel 0 [] env env' res H).
Qed.

Lemma promises_more_turn (index : Z) (all_items : list Investigation)
    (env : Env srv) (r : Response Payload) (w : World srv) (p : Payload) :
  serve srv (GET_investigations (with_index params_base index)) (world env)
  = (Responds r, w) ->
  is_error (status_code r) = false ->
  json r = Some p ->
  promises_more index p = true ->
  exists items env1,
    list_investigations_turn srv index all_items env
    = (Returned (true, items), env1).
Proof.
  intros Sv Ok J More.
  unfold list_investigations_turn, bind, request. rewrite Sv.
  set (env1 := mkEnv w _ _).
  pose proof (raise_for_status_spec srv r env1) as R.
  cbn [body_of] in *. rewrite Ok in R. rewrite R.
  unfold decode. rewrite J. cbn [ret].
  unfold promises_more in More.
  destruct (data p) as [| |[|it its]]; try discriminate More.
  destruct (total_pages _) as [| |t]; try discriminate More.
  destruct (get_default _ index) as [ci|]; [|discriminate More].
  apply andb_true_iff in More. destruct More as [Nz Lt].
  apply negb_true_iff in Nz. rewrite Nz. cbn [orb].
  apply Z.ltb_lt in Lt.
  destruct (Z.leb_spec (t - 1) ci) as [Le|_]; [lia|].
  eexists. eexists. reflexivity.
Qed.

(** X13: the loop of [list_investigations] has no bound of its own.  Against
    a server that answers every list request with a status that is no error
    and a page that is not empty and declares more pages to come, no number
    of turns is enough: the function never comes back. *)
Theorem list_investigations_has_no_page_limit :
  (forall (p : ListParams) (w : World srv),
     exists (r : Response Payload) (w' : World srv) (body : Payload),
       serve srv (GET_investigations p) w = (Responds r, w')
       /\ is_error (status_code r) = false
       /\ json r = Some body
       /\ promises_more (p_index p) body = true) ->
  forall (fuel : nat) (env : Env srv),
    list_investigations srv fuel env = None.
Proof.
  intros Endless fuel. unfold list_investigations.
  generalize 0%Z as index. generalize (@nil Investigation) as all_items.
  induction fuel as [|fuel IH]; intros all_items index env; [reflexivity|].
  cbn [list_investigations_from].
  destruct (Endless (with_index params_base index) (world env))
    as (r & w & body & Sv & Ok & J & More).
  destruct (promises_more_turn index all_items env r w body Sv Ok J More)
    as (items & env1 & T).
  rewrite T. apply IH.
Qed.

End Cursor.

Lemma list_investigations_asks_pages_in_turn_witness :
  list_investigations (paged_server [[first_row]; [second_row]]) 2
    (start (paged_server [[first_row]; [second_row]]) tt)
  = Some (Returned [first_row; second_row],
          @mkEnv (paged_server [[first_row]; [second_row]]) tt
            [page_call 0; page_call 1] [])
  /\ exists calls,
       [page_call 0; page_call 1] = [] ++ calls
       /\ (1 <= List.length calls <= 2)%nat
       /\ map fst calls
          = map (fun i => GET_investigations
                            (with_index params_base (Z.of_nat i)))
              (seq 0 (List.length calls))
       /\ Forall (fun c => passable c = true) (removelast calls)
       /\ (forall items,
             Returned [first_row; second_row] = Returned items ->
             Forall (fun c => passable c = true) calls).
Proof.
  split; [reflexivity|].
  exact (list_investigations_asks_pages_in_turn
           (paged_server [[first_row]; [second_row]]) 2
           (start (paged_server [[first_row]; [second_row]]) tt)
           (@mkEnv (paged_server [[first_row]; [second_row]]) tt
              [page_call 0; page_call 1] [])
           (Returned [first_row; second_row]) eq_refl).
Defined.

Lemma list_investigations_has_no_page_limit_witness :
  (forall (p : ListParams) (w : World endless_server),
     exists (r : Response Payload) (w' : World endless_server)
            (body : Payload),
       serve endless_server (GET_investigations p) w = (Responds r, w')
       /\ is_error (status_code r) = false
       /\ json r = Some body
       /\ promises_more (p_index p) body = true)
  /\ list_investigations endless_server 1000 (start endless_server tt)
     = None.
Proof.
  assert (H : forall (p : ListParams) (w : World endless_server),
             exists (r : Response Payload) (w' : World endless_server)
                    (body : Payload),
               serve endless_server (GET_investigations p) w
               = (Responds r, w')
               /\ is_error (status_code r) = false
               /\ json r = Some body
               /\ promises_more (p_index p) body = true).
  { intros p w. eexists. eexists. eexists.
    repeat split; reflexivity. }
  split; [exact H|].
  exact (list_investigations_has_no_page_limit endless_server H 1000
           (start endless_server tt)).
Defined.

(** ** The view for any rows: a stable sort, or a [TypeError] *)

Section SortMore.

Context {A : Type}.

Lemma Permutation_filter_keep (f : A -> bool) (l1 l2 : list A) :
  Permutation l1 l2 -> Permutation (filter f l1) (filter f l2).
Proof.
  induction 1 as [|x l1 l2 P IH|x y l|l1 l2 l3 P1 IH1 P2 IH2]; simpl.
  - constructor.
  - destruct (f x); [constructor|]; exact IH.
  - destruct (f x), (f y); try apply Permutation_refl. apply perm_swap.
  - eapply perm_trans; eassumption.
Qed.

Lemma filter_filter_comm (f g : A -> bool) (l : list A) :
  filter f (filter g l) = filter g (filter f l).
Proof.
  induction l as [|x l IH]; [reflexivity|]. simpl.
  destruct (f x) eqn:Fx, (g x) eqn:Gx; simpl; rewrite ?Fx, ?Gx, IH;
    reflexivity.
Qed.

Lemma lt_some_same_kind (a b : datetime) (c : bool) :
  Datetime.lt a b = Some c ->
  aware a = aware b /\ c = (Datetime.instant a <? Datetime.instant b)%Z.
Proof.
  unfold Datetime.lt, aware, Datetime.instant.
  destruct (utcoffset a), (utcoffset b); intros [= <-]; auto.
Qed.

Lemma insert_keyed_perm (x : datetime * A) (l : list (datetime * A)) :
  forall r, insert_keyed x l = Some r -> Permutation (x :: l) r.
Proof.
  induction l as [|y l IH]; intros r H; cbn [insert_keyed] in H.
  - injection H as <-. apply Permutation_refl.
  - destruct (Datetime.lt (fst y) (fst x)) as [[|]|]; [| |discriminate H].
    + destruct (insert_keyed x l) as [r'|]; [|discriminate H].
      injection H as <-.
      eapply perm_trans; [apply perm_swap|]. apply perm_skip.
      apply IH. reflexivity.
    + injection H as <-. apply Permutation_refl.
Qed.

Lemma sort_keyed_perm (l : list (datetime * A)) :
  forall s, sort_keyed l = Some s -> Permutation l s.
Proof.
  induction l as [|x l IH]; intros s H; cbn [sort_keyed] in H.
  - injection H as <-. constructor.
  - destruct (sort_keyed l) as [s'|]; [|discriminate H].
    eapply perm_trans; [apply perm_skip; apply IH; reflexivity|].
    apply insert_keyed_perm. exact H.
Qed.

(** A sort that ends has compared keys of one kind only. *)
Lemma sort_keyed_uniform (l : list (datetime * A)) :
  forall s, sort_keyed l = Some s ->
  forall p q, In p l -> In q l -> aware (fst p) = aware (fst q).
Proof.
  induction l as [|x l IH]; intros s H p q Hp Hq; [contradiction|].
  cbn [sort_keyed] in H.
  destruct (sort_keyed l) as [s'|] eqn:E; [|discriminate H].
  pose proof (sort_keyed_perm l s' E) as P.
  assert (X : forall z, In z l -> aware (fst z) = aware (fst x)).
  { intros z Hz. destruct s' as [|y s''].
    - apply Permutation_sym, Permutation_nil in P. subst l. contradiction.
    - cbn [insert_keyed] in H.
      destruct (Datetime.lt (fst y) (fst x)) as [c|] eqn:L;
        [|discriminate H].
      apply lt_some_same_kind in L. destruct L as [K _].
      rewrite <- K. apply (IH _ eq_refl); [exact Hz|].
      apply (Permutation_in _ (Permutation_sym P)). left. reflexivity. }
  destruct Hp as [<-|Hp], Hq as [<-|Hq].
  - reflexivity.
  - symmetry. apply X. exact Hq.
  - apply X. exact Hp.
  - apply (IH _ eq_refl); assumption.
Qed.

(** Where the new element goes among those of its instant: in front. *)
Lemma insert_keyed_ties (v : Z) (x : datetime * A)
    (l : list (datetime * A)) :
  forall r, insert_keyed x l = Some r ->
  filter (fun p => (Datetime.instant (fst p) =? v)%Z) r
  = filter (fun p => (Datetime.instant (fst p) =? v)%Z) (x :: l).
Proof.
  induction l as [|y l IH]; intros r H; cbn [insert_keyed] in H.
  - injection H as <-. reflexivity.
  - destruct (Datetime.lt (fst y) (fst x)) as [[|]|] eqn:L;
      [| |discriminate H].
    + destruct (insert_keyed x l) as [r'|]; [|discriminate H].
      injection H as <-.
      apply lt_some_same_kind in L. destruct L as [_ L].
      symmetry in L. apply Z.ltb_lt in L.
      cbn [filter]. rewrite (IH r' eq_refl). cbn [filter].
      destruct (Z.eqb_spec (Datetime.instant (fst y)) v) as [Ey|Ny];
        destruct (Z.eqb_spec (Datetime.instant (fst x)) v) as [Ex|Nx];
        try reflexivity; exfalso; lia.
    + injection H as <-. reflexivity.
Qed.

Lemma sort_keyed_ties (v : Z) (l : list (datetime * A)) :
  forall s, sort_keyed l = Some s ->
  filter (fun p => (Datetime.instant (fst p) =? v)%Z) s
  = filter (fun p => (Datetime.instant (fst p) =? v)%Z) l.
Proof.
  induction l as [|x l IH]; intros s H; cbn [sort_keyed] in H.
  - injection H as <-. reflexivity.
  - destruct (sort_keyed l) as [s'|]; [|discriminate H].
    rewrite (insert_keyed_ties v x s' s H). cbn [filter].
    rewrite (IH s' eq_refl). reflexivity.
Qed.

Variable key : A -> datetime.

Lemma created_at_keyed (v : Z) (s : list (datetime * A)) :
  Forall (fun p => fst p = key (snd p)) s ->
  created_at key v (map snd s)
  = map snd (filter (fun p => (Datetime.instant (fst p) =? v)%Z) s).
Proof.
  unfold created_at. induction s as [|p s IH]; intros F; [reflexivity|].
  inversion F as [|? ? Fp Fs]; subst. cbn [map filter].
  rewrite <- Fp, (IH Fs).
  destruct (Datetime.instant (fst p) =? v)%Z; reflexivity.
Qed.

(** [sorted] is stable in both directions: the rows of one instant keep
    the order they had in the input. *)
Lemma sorted_ties (reverse : bool) (l s : list A) (v : Z) :
  sorted key reverse l = Returned s ->
  created_at key v s = created_at key v l.
Proof.
  unfold sorted. set (keyed := map (fun r => (key r, r)) l).
  destruct reverse.
  - destruct (sort_keyed (rev keyed)) as [s'|] eqn:E; [|discriminate].
    intros [= <-].
    assert (F : Forall (fun p => fst p = key (snd p)) (rev s')).
    { apply Forall_rev.
      apply (Permutation_Forall (sort_keyed_perm _ _ E)).
      apply Forall_rev. apply keyed_pairs. }
    rewrite (created_at_keyed v (rev s') F), filter_rev.
    rewrite (sort_keyed_ties v _ s' E), filter_rev, rev_involutive.
    rewrite <- (created_at_keyed v keyed (keyed_pairs key l)).
    unfold keyed. rewrite keyed_rows. reflexivity.
  - destruct (sort_keyed keyed) as [s'|] eqn:E; [|discriminate].
    intros [= <-].
    assert (F : Forall (fun p => fst p = key (snd p)) s').
    { apply (Permutation_Forall (sort_keyed_perm _ _ E)).
      apply keyed_pairs. }
    rewrite (created_at_keyed v s' F), (sort_keyed_ties v _ s' E).
    rewrite <- (created_at_keyed v keyed (keyed_pairs key l)).
    unfold keyed. rewrite keyed_rows. reflexivity.
Qed.

(** A sort that ends saw keys of one kind. *)
Lemma sorted_returned_uniform (reverse : bool) (l s : list A) :
  sorted key reverse l = Returned s ->
  forall a b, In a l -> In b l -> aware (key a) = aware (key b).
Proof.
  unfold sorted. set (keyed := map (fun r => (key r, r)) l).
  intros H a b Ha Hb.
  assert (U : forall p q, In p keyed -> In q keyed ->
                          aware (fst p) = aware (fst q)).
  { destruct reverse.
    - destruct (sort_keyed (rev keyed)) as [s'|] eqn:E; [|discriminate].
      intros p q Hp Hq.
      apply (sort_keyed_uniform _ _ E); apply -> in_rev; assumption.
    - destruct (sort_keyed keyed) as [s'|] eqn:E; [|discriminate].
      apply (sort_keyed_uniform _ _ E). }
  apply (U (key a, a) (key b, b));
    apply (in_map (fun r => (key r, r))); assumption.
Qed.

(** Keys of the two kinds are found in any list that is not of one kind. *)
Lemma kinds_mix_or_not (l : list A) :
  (exists k, forall r, In r l -> aware (key r) = k)
  \/ (exists a b, In a l /\ In b l
                  /\ aware (key a) = true /\ aware (key b) = false).
Proof.
  induction l as [|x l IH].
  - left. exists true. intros r [].
  - destruct IH as [(k & K)|(a & b & Ha & Hb & Ka & Kb)].
    + destruct l as [|y l].
      * left. exists (aware (key x)). intros r [<-|[]]. reflexivity.
      * destruct (Bool.bool_dec (aware (key x)) k) as [E|N].
        -- left. exists k. intros r [<-|Hr]; [exact E | apply K, Hr].
        -- right. pose proof (K y (or_introl eq_refl)) as Ky.
           destruct k.
           ++ exists y, x. repeat split; simpl; auto.
              destruct (aware (key x)); congruence.
           ++ exists x, y. repeat split; simpl; auto.
              destruct (aware (key x)); congruence.
    + right. exists a, b. repeat split; simpl; auto.
Qed.

Lemma sorted_raises_iff (reverse : bool) (l : list A) :
  (exists e, sorted key reverse l = Raised e)
  <-> exists a b, In a l /\ In b l
                  /\ aware (key a) = true /\ aware (key b) = false.
Proof.
  split.
  - intros (e & H). destruct (kinds_mix_or_not l) as [(k & K)|Mix];
      [|exact Mix].
    destruct (sorted_spec key k reverse l K) as (s & E & _). congruence.
  - intros (a & b & Ha & Hb & Ka & Kb).
    destruct (sorted key reverse l) as [s|e] eqn:E; [|exists e; reflexivity].
    pose proof (sorted_returned_uniform reverse l s E a b Ha Hb). congruence.
Qed.

Lemma sorted_raises_TypeError (reverse : bool) (l : list A) (e : exn) :
  sorted key reverse l = Raised e ->
  e = TypeError "can't compare offset-naive and offset-aware datetimes".
Proof.
  unfold sorted. destruct (sort_keyed _); [discriminate|].
  intros [= <-]. reflexivity.
Qed.

End SortMore.

Lemma apply_assignee_filter_perm (choice : string)
    (l1 l2 : list Investigation) :
  Permutation l1 l2 ->
  Permutation (_apply_assignee_filter choice l1)
    (_apply_assignee_filter choice l2).
Proof.
  intros P. unfold _apply_assignee_filter.
  destruct (String.eqb choice "All"); [exact P|].
  destruct (String.eqb choice "Unassigned");
    apply Permutation_filter_keep; exact P.
Qed.

Lemma apply_assignee_filter_created_at (key : Investigation -> datetime)
    (v : Z) (choice : string) (l : list Investigation) :
  created_at key v (_apply_assignee_filter choice l)
  = _apply_assignee_filter choice (created_at key v l).
Proof.
  unfold _apply_assignee_filter, created_at.
  destruct (String.eqb choice "All"); [reflexivity|].
  destruct (String.eqb choice "Unassigned"); apply filter_filter_comm.
Qed.

Section ViewMore.

Variable fromisoformat : string -> option datetime.

(** The view holds the rows that pass the filter. *)
Lemma view_is_stable_sort_kept (rows : list Investigation)
    (sort_oldest_first : bool) (choice : string)
    (shown : list Investigation) :
  _sorted_rows_current_view fromisoformat rows sort_oldest_first choice
  = Returned shown ->
  Permutation (_apply_assignee_filter choice rows) shown.
Proof.
  unfold _sorted_rows_current_view.
  destruct (sorted (key_fn fromisoformat) (negb sort_oldest_first) rows)
    as [s|e] eqn:E; [|discriminate].
  intros [= <-]. apply apply_assignee_filter_perm.
  unfold sorted in E.
  destruct (negb sort_oldest_first).
  - destruct (sort_keyed _) as [s'|] eqn:E'; [|discriminate].
    injection E as <-. apply sort_keyed_perm in E'.
    rewrite <- (keyed_rows (key_fn fromisoformat) rows) at 1.
    apply Permutation_map.
    eapply perm_trans; [apply Permutation_rev|].
    eapply perm_trans; [exact E' | apply Permutation_rev].
  - destruct (sort_keyed _) as [s'|] eqn:E'; [|discriminate].
    injection E as <-. apply sort_keyed_perm in E'.
    rewrite <- (keyed_rows (key_fn fromisoformat) rows) at 1.
    apply Permutation_map. exact E'.
Qed.

(** X14: whenever the view is produced, it is the stable sort of the rows
    that pass the assignee filter: it holds exactly those rows, each as
    often as the fetch brought it; they are in the order of their creation
    instants, rising when the oldest come first and falling otherwise; and
    rows created at the same instant keep, in both directions, the order
    in which they were fetched. *)
Theorem view_is_stable_sort_of_filtered_rows (rows : list Investigation)
    (sort_oldest_first : bool) (choice : string)
    (shown : list Investigation) :
  _sorted_rows_current_view fromisoformat rows sort_oldest_first choice
  = Returned shown ->
  Permutation (_apply_assignee_filter choice rows) shown
  /\ StronglySorted
       (if sort_oldest_first then le_key (key_fn fromisoformat)
        else fun a b => le_key (key_fn fromisoformat) b a)
       shown
  /\ forall v,
       created_at (key_fn fromisoformat) v shown
       = created_at (key_fn fromisoformat) v
           (_apply_assignee_filter choice rows).
Proof.
  unfold _sorted_rows_current_view.
  destruct (sorted (key_fn fromisoformat) (negb sort_oldest_first) rows)
    as [s|e] eqn:E; [|discriminate].
  intros [= <-].
  pose proof (sorted_returned_uniform _ _ _ _ E) as U.
  assert (K : exists k, forall r, In r rows ->
                                  aware (key_fn fromisoformat r) = k).
  { destruct rows as [|r0 rows'].
    - exists true. intros r [].
    - exists (aware (key_fn fromisoformat r0)). intros r Hr.
      apply U; [exact Hr | left; reflexivity]. }
  destruct K as (k & K).
  destruct (sorted_spec (key_fn fromisoformat) k (negb sort_oldest_first)
              rows K) as (s' & E' & P & S).
  rewrite E in E'. injection E' as <-.
  split; [apply apply_assignee_filter_perm; exact P|]. split.
  - apply apply_assignee_filter_sorted.
    destruct sort_oldest_first; exact S.
  - intros v. rewrite !apply_assignee_filter_created_at.
    rewrite (sorted_ties _ _ _ _ v E). reflexivity.
Qed.

(** X15: the view fails exactly when the keys of the fetched rows are of
    two kinds, one with a UTC offset and one without, and then with the
    [TypeError] of the comparison.  The key of a row whose creation time
    does not parse carries an offset.  The filter does not matter, nor the
    direction: the rows are sorted before they are filtered, so one row
    that the filter would hide is enough to lose the view. *)
Theorem view_fails_iff_kinds_mix (rows : list Investigation)
    (sort_oldest_first : bool) (choice : string) :
  (_sorted_rows_current_view fromisoformat rows sort_oldest_first choice
   = Raised
       (TypeError "can't compare offset-naive and offset-aware datetimes")
   <-> exists a b,
         In a rows /\ In b rows
         /\ aware (key_fn fromisoformat a) = true
         /\ aware (key_fn fromisoformat b) = false)
  /\ (forall e,
        _sorted_rows_current_view fromisoformat rows sort_oldest_first
          choice = Raised e ->
        e = TypeError
              "can't compare offset-naive and offset-aware datetimes")
  /\ (forall r, parse_created_time fromisoformat r = None ->
                aware (key_fn fromisoformat r) = true).
Proof.
  assert (T : forall e,
             _sorted_rows_current_view fromisoformat rows sort_oldest_first
               choice = Raised e ->
             sorted (key_fn fromisoformat) (negb sort_oldest_first) rows
             = Raised e
             /\ e = TypeError
                      "can't compare offset-naive and offset-aware datetimes").
  { unfold _sorted_rows_current_view. intros e.
    destruct (sorted (key_fn fromisoformat) (negb sort_oldest_first) rows)
      as [s|e'] eqn:E; [discriminate|].
    intros [= <-]. split; [reflexivity|].
    apply (sorted_raises_TypeError _ _ _ _ E). }
  split; [split|split].
  - intros H. apply T in H. destruct H as [H _].
    apply (sorted_raises_iff (key_fn fromisoformat)
             (negb sort_oldest_first) rows).
    eexists. exact H.
  - intros Mix.
    apply (sorted_raises_iff (key_fn fromisoformat)
             (negb sort_oldest_first) rows) in Mix.
    destruct Mix as (e & E). unfold _sorted_rows_current_view. rewrite E.
    rewrite (sorted_raises_TypeError _ _ _ _ E). reflexivity.
  - intros e H. apply T in H. apply H.
  - intros r H. rewrite (key_fn_unparsable fromisoformat r H).
    apply epoch_aware.
Qed.

End ViewMore.

Lemma view_is_stable_sort_of_filtered_rows_witness :
  _sorted_rows_current_view Iso.fromisoformat
    [second_row; twin_row; first_row] false "All"
  = Returned [second_row; twin_row; first_row]
  /\ created_at (key_fn Iso.fromisoformat)
       (Datetime.instant (key_fn Iso.fromisoformat first_row))
       [second_row; twin_row; first_row]
     = created_at (key_fn Iso.fromisoformat)
         (Datetime.instant (key_fn Iso.fromisoformat first_row))
         (_apply_assignee_filter "All" [second_row; twin_row; first_row]).
Proof.
  split; [vm_compute; reflexivity|].
  exact (proj2 (proj2 (view_is_stable_sort_of_filtered_rows
                         Iso.fromisoformat
                         [second_row; twin_row; first_row] false "All"
                         [second_row; twin_row; first_row] eq_refl))
           (Datetime.instant (key_fn Iso.fromisoformat first_row))).
Defined.

(** ** The selection *)

Lemma ticked_subseq (vars : list bool) :
  forall shown, subseq (ticked vars shown) shown.
Proof.
  unfold ticked. induction vars as [|v vars IH]; intros shown.
  - simpl. induction shown; constructor; assumption.
  - destruct shown as [|r shown]; [constructor|].
    cbn [combine filter fst]. destruct v; cbn [map snd].
    + apply subseq_keep. apply IH.
    + apply subseq_skip. apply IH.
Qed.

Lemma ticked_none (n : nat) :
  forall shown, ticked (repeat false n) shown = [].
Proof.
  unfold ticked. induction n as [|n IH]; intros shown; [reflexivity|].
  destruct shown as [|r shown]; [reflexivity|]. cbn. apply IH.
Qed.

Lemma ticked_all (shown : list Investigation) :
  ticked (repeat true (List.length shown)) shown = shown.
Proof.
  unfold ticked. induction shown as [|r shown IH]; [reflexivity|].
  cbn. f_equal. exact IH.
Qed.

Lemma selected_from_spec (vars : list bool) :
  forall i shown acc,
    selected_from i vars shown acc = acc ++ ticked vars (skipn i shown).
Proof.
  induction vars as [|v vars IH]; intros i shown acc;
    cbn [selected_from].
  - unfold ticked. simpl. symmetry. apply app_nil_r.
  - rewrite IH. destruct (nth_error shown i) as [r|] eqn:N.
    + assert (L : (i < List.length shown)%nat)
        by (apply nth_error_Some; congruence).
      apply Nat.ltb_lt in L. rewrite L, andb_true_r.
      assert (Sk : skipn i shown = r :: skipn (S i) shown).
      { clear - N. revert i N.
        induction shown as [|a shown IHs]; intros [|i] N;
          try discriminate N.
        - injection N as ->. reflexivity.
        - apply (IHs i N). }
      rewrite Sk. unfold ticked. cbn [combine filter fst].
      destruct v; cbn [map snd]; [rewrite <- app_assoc|]; reflexivity.
    + assert (L : (List.length shown <= i)%nat)
        by (apply nth_error_None; exact N).
      rewrite (skipn_all2 shown) by lia.
      rewrite (skipn_all2 shown) by exact L.
      unfold ticked. rewrite !combine_nil.
      destruct (v && _)%bool; reflexivity.
Qed.

Section SelectionFacts.

Variable fromisoformat : string -> option datetime.

(** X16: [_selected_rows] returns the rows of the current view whose box
    is ticked, the k-th box going with the k-th row of the view: they are
    rows of the view, in its order.  Boxes beyond the end of the view are
    ignored, and when the view fails so does [_selected_rows]. *)
Theorem selected_rows_are_the_ticked_rows (st : Listing.state) :
  match view_of fromisoformat st with
  | Returned shown =>
      _selected_rows fromisoformat st
      = Returned (ticked (Listing.row_vars st) shown)
      /\ subseq (ticked (Listing.row_vars st) shown) shown
  | Raised e => _selected_rows fromisoformat st = Raised e
  end.
Proof.
  unfold view_of, _selected_rows.
  destruct (_sorted_rows_current_view fromisoformat (Listing.rows st)
              (Listing.sort_oldest_first st) (Listing.assignee_filter_var st))
    as [shown|e]; [|reflexivity].
  rewrite selected_from_spec. cbn [skipn app].
  split; [reflexivity | apply ticked_subseq].
Qed.

Lemma add_rows_vars (l : list Investigation) :
  forall st,
    fold_left (fun st rec => add_row rec st) l st
    = Listing.set_row_vars
        (Listing.row_vars st ++ repeat false (List.length l)) st.
Proof.
  induction l as [|r l IH]; intros st; cbn [fold_left].
  - cbn. rewrite app_nil_r. destruct st; reflexivity.
  - rewrite IH. unfold add_row, Listing.set_row_vars. cbn.
    rewrite <- app_assoc. reflexivity.
Qed.

(** What [rebuild_list] does, in terms of the view. *)
Lemma rebuild_list_spec (st : Listing.state) :
  rebuild_list fromisoformat st
  = match view_of fromisoformat st with
    | Returned shown =>
        (Returned tt,
         Listing.set_row_vars (repeat false (List.length shown)) st)
    | Raised e => (Raised e, Listing.set_row_vars [] st)
    end.
Proof.
  unfold rebuild_list, view_of, _sorted_rows_current_view, clear_list.
  cbn [Listing.set_row_vars Listing.rows Listing.sort_oldest_first
       Listing.assignee_filter_var].
  destruct (sorted (key_fn fromisoformat)
              (negb (Listing.sort_oldest_first st)) (Listing.rows st))
    as [s|e]; [|reflexivity].
  rewrite add_rows_vars. reflexivity.
Qed.

Lemma view_of_set_row_vars (vars : list bool) (st : Listing.state) :
  view_of fromisoformat (Listing.set_row_vars vars st)
  = view_of fromisoformat st.
Proof. reflexivity. Qed.

Lemma selected_rows_spec (st : Listing.state) (shown : list Investigation) :
  view_of fromisoformat st = Returned shown ->
  _selected_rows fromisoformat st
  = Returned (ticked (Listing.row_vars st) shown).
Proof.
  unfold view_of, _selected_rows. intros ->.
  rewrite selected_from_spec. reflexivity.
Qed.

(** X17: when [rebuild_list] returns, the list shows the view with one box
    for each of its rows and none of them ticked, so that nothing is
    selected; ticking "Select All" then selects the whole view, in its
    order, and unticking it selects nothing.  [rebuild_list] changes
    neither the rows, the direction, the filter nor the "Select All" box,
    which can therefore stay ticked over a list with no row selected. *)
Theorem rebuild_then_select_all (st st1 : Listing.state) :
  rebuild_list fromisoformat st = (Returned tt, st1) ->
  exists shown,
    view_of fromisoformat st = Returned shown
    /\ st1 = Listing.set_row_vars (repeat false (List.length shown)) st
    /\ _selected_rows fromisoformat st1 = Returned []
    /\ _selected_rows fromisoformat
         (toggle_select_all (Listing.set_select_all_var true st1))
       = Returned shown
    /\ _selected_rows fromisoformat
         (toggle_select_all (Listing.set_select_all_var false st1))
       = Returned [].
Proof.
  rewrite rebuild_list_spec.
  destruct (view_of fromisoformat st) as [shown|e] eqn:V; [|discriminate].
  intros [= <-]. exists shown. split; [reflexivity|].
  split; [reflexivity|].
  assert (V1 : forall vars b,
             view_of fromisoformat
               (Listing.set_row_vars vars
                  (Listing.set_select_all_var b
                     (Listing.set_row_vars
                        (repeat false (List.length shown)) st)))
             = Returned shown) by (intros vars b; exact V).
  split; [|split].
  - rewrite (selected_rows_spec _ shown) by exact V.
    cbn [Listing.set_row_vars Listing.row_vars].
    rewrite ticked_none. reflexivity.
  - unfold toggle_select_all.
    rewrite (selected_rows_spec _ shown) by apply V1.
    cbn [Listing.set_row_vars Listing.set_select_all_var Listing.row_vars
         Listing.select_all_var].
    rewrite map_repeat, ticked_all. reflexivity.
  - unfold toggle_select_all.
    rewrite (selected_rows_spec _ shown) by apply V1.
    cbn [Listing.set_row_vars Listing.set_select_all_var Listing.row_vars
         Listing.select_all_var].
    rewrite map_repeat, ticked_none. reflexivity.
Qed.

(** The sort switch rebuilds the list: the rows are shown in the direction
    the switch holds, none is selected, and "Select All" is left as it
    was. *)
Lemma on_sort_toggle_unticks (sort_switch_var : bool)
    (st st1 : Listing.state) :
  on_sort_toggle fromisoformat sort_switch_var st = (Returned tt, st1) ->
  Listing.sort_oldest_first st1 = sort_switch_var
  /\ Listing.select_all_var st1 = Listing.select_all_var st
  /\ _selected_rows fromisoformat st1 = Returned [].
Proof.
  unfold on_sort_toggle. rewrite rebuild_list_spec.
  destruct (view_of fromisoformat _) as [shown|e] eqn:V; [|discriminate].
  intros [= <-]. split; [reflexivity|]. split; [reflexivity|].
  rewrite (selected_rows_spec _ shown) by exact V.
  cbn [Listing.set_row_vars Listing.row_vars].
  rewrite ticked_none. reflexivity.
Qed.

Lemma in_options_spec (choice : string) (rows : list Investigation) :
  in_options choice rows = true ->
  choice = "All" \/ choice = "Unassigned"
  \/ (Py.truthy choice = true
      /\ exists r, In r rows /\ _assignee_from_rec r = choice).
Proof.
  unfold in_options, emails_of. intros H.
  apply orb_true_iff in H. destruct H as [H|H].
  - apply orb_true_iff in H. destruct H as [H|H];
      apply String.eqb_eq in H; auto.
  - right. right. apply existsb_exists in H. destruct H as (e & He & Eq).
    apply String.eqb_eq in Eq. subst e.
    apply filter_In in He. destruct He as [He T]. split; [exact T|].
    apply in_map_iff in He. destruct He as (r & E & Hr).
    exists r. auto.
Qed.

Lemma refresh_keeps_a_valid_filter_facts (data : list Investigation)
    (st st1 : Listing.state) :
  _refresh_complete fromisoformat data st = (Returned tt, st1) ->
  Listing.rows st1 = data
  /\ _selected_rows fromisoformat st1 = Returned []
  /\ Listing.select_all_var st1 = false
  /\ exists shown, view_of fromisoformat st1 = Returned shown.
Proof.
  unfold _refresh_complete.
  set (st' := if negb _ then _ else _).
  rewrite rebuild_list_spec.
  destruct (view_of fromisoformat st') as [shown|e] eqn:V; [|discriminate].
  intros [= <-].
  assert (V1 : view_of fromisoformat
                 (Listing.set_select_all_var false
                    (Listing.set_row_vars
                       (repeat false (List.length shown)) st'))
               = Returned shown) by exact V.
  split; [unfold st'; destruct (negb _); reflexivity|].
  split; [|split; [reflexivity | exists shown; exact V1]].
  rewrite (selected_rows_spec _ shown V1).
  cbn [Listing.set_select_all_var Listing.set_row_vars Listing.row_vars].
  rewrite ticked_none. reflexivity.
Qed.

(** X18: when [_refresh_complete] returns, the rows are the fetched ones,
    the direction is unchanged, the "Select All" box is unticked and no row
    is selected.  The filter is the one that was set, or "All" when that
    one is no longer on offer; it is "All", "Unassigned" or the stripped
    address of one of the fetched rows, and in the last case the view
    shows at least one row. *)
Theorem refresh_keeps_a_valid_filter (data : list Investigation)
    (st st1 : Listing.state) :
  _refresh_complete fromisoformat data st = (Returned tt, st1) ->
  Listing.rows st1 = data
  /\ Listing.sort_oldest_first st1 = Listing.sort_oldest_first st
  /\ Listing.select_all_var st1 = false
  /\ _selected_rows fromisoformat st1 = Returned []
  /\ Listing.assignee_filter_var st1
     = (if in_options (Listing.assignee_filter_var st) data
        then Listing.assignee_filter_var st else "All")
  /\ (Listing.assignee_filter_var st1 = "All"
      \/ Listing.assignee_filter_var st1 = "Unassigned"
      \/ exists r shown,
           In r data
           /\ _assignee_from_rec r = Listing.assignee_filter_var st1
           /\ view_of fromisoformat st1 = Returned shown
           /\ In r shown).
Proof.
  unfold _refresh_complete.
  set (st0 := Listing.set_rows data st).
  set (st' := if negb (in_options (Listing.assignee_filter_var st0)
                         (Listing.rows st0))
              then Listing.set_assignee_filter_var "All" st0 else st0).
  rewrite rebuild_list_spec.
  destruct (view_of fromisoformat st') as [shown|e] eqn:V; [|discriminate].
  intros [= <-].
  assert (R : Listing.rows st' = data)
    by (unfold st'; destruct (negb _); reflexivity).
  assert (D : Listing.sort_oldest_first st' = Listing.sort_oldest_first st)
    by (unfold st'; destruct (negb _); reflexivity).
  assert (F : Listing.assignee_filter_var st'
              = if in_options (Listing.assignee_filter_var st) data
                then Listing.assignee_filter_var st else "All").
  { unfold st'. cbn [st0 Listing.set_rows Listing.rows
                     Listing.assignee_filter_var].
    destruct (in_options (Listing.assignee_filter_var st) data);
      reflexivity. }
  cbn [Listing.set_select_all_var Listing.set_row_vars Listing.rows
       Listing.sort_oldest_first Listing.select_all_var
       Listing.assignee_filter_var].
  split; [exact R|]. split; [exact D|]. split; [reflexivity|].
  assert (V1 : view_of fromisoformat
                 (Listing.set_select_all_var false
                    (Listing.set_row_vars
                       (repeat false (List.length shown)) st'))
               = Returned shown) by exact V.
  split; [|split; [exact F|]].
  - rewrite (selected_rows_spec _ shown V1).
    cbn [Listing.set_select_all_var Listing.set_row_vars Listing.row_vars].
    rewrite ticked_none. reflexivity.
  - rewrite F.
    destruct (in_options (Listing.assignee_filter_var st) data) eqn:O;
      [|left; reflexivity].
    destruct (in_options_spec _ _ O) as [A|[U|(T & r & Hr & Er)]];
      [left; exact A | right; left; exact U|].
    destruct (String.eqb_spec (Listing.assignee_filter_var st) "All")
      as [A|NA]; [left; exact A|].
    destruct (String.eqb_spec (Listing.assignee_filter_var st) "Unassigned")
      as [U|NU]; [right; left; exact U|].
    right. right. exists r, shown. split; [exact Hr|].
    split; [exact Er|]. split; [exact V1|].
    pose proof (view_is_stable_sort_kept fromisoformat
                  (Listing.rows st') (Listing.sort_oldest_first st')
                  (Listing.assignee_filter_var st') shown V) as P.
    apply (Permutation_in _ P).
    rewrite R, F. unfold _apply_assignee_filter.
    destruct (String.eqb_spec (Listing.assignee_filter_var st) "All");
      [contradiction|].
    destruct (String.eqb_spec (Listing.assignee_filter_var st) "Unassigned");
      [contradiction|].
    apply filter_In. split; [exact Hr|]. rewrite Er.
    apply String.eqb_refl.
Qed.

End SelectionFacts.

Lemma rebuild_then_select_all_witness :
  rebuild_list Iso.fromisoformat fresh_list
  = (Returned tt,
     Listing.mk three_rows true "All" true [false; false; false])
  /\ exists shown,
       view_of Iso.fromisoformat fresh_list = Returned shown
       /\ Listing.mk three_rows true "All" true [false; false; false]
          = Listing.set_row_vars (repeat false (List.length shown))
              fresh_list
       /\ _selected_rows Iso.fromisoformat
            (Listing.mk three_rows true "All" true [false; false; false])
          = Returned []
       /\ _selected_rows Iso.fromisoformat
            (toggle_select_all
               (Listing.set_select_all_var true
                  (Listing.mk three_rows true "All" true
                     [false; false; false])))
          = Returned shown
       /\ _selected_rows Iso.fromisoformat
            (toggle_select_all
               (Listing.set_select_all_var false
                  (Listing.mk three_rows true "All" true
                     [false; false; false])))
          = Returned [].
Proof.
  split; [vm_compute; reflexivity|].
  exact (rebuild_then_select_all Iso.fromisoformat fresh_list
           (Listing.mk three_rows true "All" true [false; false; false])
           eq_refl).
Defined.

Lemma refresh_keeps_a_valid_filter_witness :
  _refresh_complete Iso.fromisoformat three_rows stale_list
  = (Returned tt,
     Listing.mk three_rows false "bob@example.com" false [false])
  /\ _selected_rows Iso.fromisoformat
       (Listing.mk three_rows false "bob@example.com" false [false])
     = Returned []
  /\ view_of Iso.fromisoformat
       (Listing.mk three_rows false "bob@example.com" false [false])
     = Returned [second_row].
Proof.
  split; [vm_compute; reflexivity|].
  split; [|vm_compute; reflexivity].
  exact (proj1 (proj2 (proj2 (proj2
           (refresh_keeps_a_valid_filter Iso.fromisoformat three_rows
              stale_list
              (Listing.mk three_rows false "bob@example.com" false [false])
              eq_refl))))).
Defined.

(** ** Team configuration and the settings file *)

Lemma rstrip_idempotent (s : string) : Py.rstrip (Py.rstrip s) = Py.rstrip s.
Proof.
  induction s as [|c s IH]; [reflexivity|]. cbn [Py.rstrip].
  destruct (Py.rstrip s) as [|a t] eqn:E.
  - destruct (Py.isspace c) eqn:Sp; [reflexivity|].
    cbn [Py.rstrip]. rewrite Sp. reflexivity.
  - cbn [Py.rstrip] in *. rewrite IH. reflexivity.
Qed.

(** A string that does not begin with whitespace. *)
Lemma lstrip_head (s : string) :
  Py.lstrip s = ""
  \/ exists c t, Py.lstrip s = String c t /\ Py.isspace c = false.
Proof.
  induction s as [|c s IH]; [left; reflexivity|]. cbn [Py.lstrip].
  destruct (Py.isspace c) eqn:Sp; [exact IH|].
  right. exists c, s. auto.
Qed.

Lemma rstrip_head (c : ascii) (t : string) :
  Py.isspace c = false -> exists u, Py.rstrip (String c t) = String c u.
Proof.
  intros Sp. cbn [Py.rstrip]. destruct (Py.rstrip t) as [|a u].
  - rewrite Sp. eexists. reflexivity.
  - eexists. reflexivity.
Qed.

Lemma strip_idempotent (s : string) : Py.strip (Py.strip s) = Py.strip s.
Proof.
  unfold Py.strip.
  destruct (lstrip_head s) as [E|(c & t & E & Sp)]; rewrite E.
  - reflexivity.
  - destruct (rstrip_head c t Sp) as (u & R). rewrite R.
    cbn [Py.lstrip]. rewrite Sp, <- R. apply rstrip_idempotent.
Qed.

Lemma collected_clean (entry_rows : list (string * string)) :
  Forall clean
    (flat_map
       (fun row =>
          let name := Py.strip (fst row) in
          let email := Py.strip (snd row) in
          if Py.truthy name && Py.truthy email then [(name, email)] else [])
       entry_rows).
Proof.
  induction entry_rows as [|[n e] l IH]; [constructor|].
  cbn [flat_map fst snd]. apply Forall_app. split; [|exact IH].
  destruct (Py.truthy (Py.strip n)) eqn:Tn; [|constructor].
  destruct (Py.truthy (Py.strip e)) eqn:Te; [|constructor].
  repeat constructor; cbn [fst snd]; auto using strip_idempotent.
Qed.

Lemma assignees_clean (cfg : Settings) :
  Forall clean (tl (get_assignees_from_settings cfg)).
Proof.
  unfold get_assignees_from_settings. cbn [tl].
  induction (cfg_assignees cfg) as [|a l IH]; [constructor|].
  cbn [flat_map]. apply Forall_app. split; [|exact IH].
  destruct (Py.truthy (Py.strip (cfg_name a))) eqn:Tn; [|constructor].
  destruct (Py.truthy (Py.strip (cfg_email a))) eqn:Te; [|constructor].
  repeat constructor; cbn [fst snd]; auto using strip_idempotent.
Qed.

Lemma collect_clean (l : list (string * string)) :
  Forall clean l ->
  flat_map
    (fun row =>
       let name := Py.strip (fst row) in
       let email := Py.strip (snd row) in
       if Py.truthy name && Py.truthy email then [(name, email)] else [])
    l
  = l.
Proof.
  induction 1 as [|[n e] l (Sn & Se & Tn & Te) F IH]; [reflexivity|].
  cbn [flat_map fst snd] in *. rewrite Sn, Se, Tn, Te, IH. reflexivity.
Qed.

Lemma read_back_clean (l : list (string * string))
    (h : list HistoryEntry) :
  Forall clean l ->
  get_assignees_from_settings
    (mkSettings
       (map (fun p => mkCfgAssignee (fst p) (snd p))
          (filter (fun p => Py.truthy (snd p)) l)) h)
  = ("Unassigned / No Change", "") :: l.
Proof.
  intros F. unfold get_assignees_from_settings. cbn [cfg_assignees].
  f_equal. induction F as [|[n e] l (Sn & Se & Tn & Te) F IH];
    [reflexivity|].
  cbn [filter fst snd] in *. rewrite Te. cbn [map flat_map cfg_name
    cfg_email fst snd]. rewrite Sn, Se, Tn, Te, IH. reflexivity.
Qed.

(** X19: the team the dialog hands back on "Save" is the team the
    application reads from its settings afterwards, entry for entry, when
    the settings file can be written.  And "Save" on the rows the dialog
    opens with hands back the team as it was read, when it has a member;
    with no member that is complete the dialog hands back nothing. *)
Theorem saved_team_is_read_back (cfg : Settings) (d : Disk)
    (entry_rows result : list (string * string)) :
  writable d = true ->
  AssigneeConfigDialog.save entry_rows = Some result ->
  get_assignees_from_settings
    (fst (configure_assignees cfg (Some result) d))
  = result
  /\ AssigneeConfigDialog.save
       (AssigneeConfigDialog.assignees (get_assignees_from_settings cfg))
     = match tl (get_assignees_from_settings cfg) with
       | [] => None
       | _ => Some (get_assignees_from_settings cfg)
       end.
Proof.
  intros W Sv. split.
  - unfold AssigneeConfigDialog.save in Sv.
    pose proof (collected_clean entry_rows) as F.
    destruct (flat_map _ entry_rows) as [|p collected]; [discriminate Sv|].
    injection Sv as <-.
    unfold configure_assignees, save_assignees_to_settings, save_settings.
    rewrite W. unfold load_settings. cbn [content fst].
    cbn [filter snd Py.truthy].
    apply (read_back_clean (p :: collected)). exact F.
  - unfold AssigneeConfigDialog.save, AssigneeConfigDialog.assignees.
    pose proof (collect_clean _ (assignees_clean cfg)) as Q.
    cbv zeta in Q. rewrite Q.
    destruct (tl (get_assignees_from_settings cfg)) as [|p l] eqn:E;
      [reflexivity|].
    unfold get_assignees_from_settings in *. cbn [tl] in E. rewrite E.
    reflexivity.
Qed.

(** X20: [configure_assignees] writes [self.cfg] back as a whole.  When the
    team is saved, the comment history in the settings file becomes the one
    [self.cfg] holds, whatever the file held: entries that
    [_save_comment_history] has written since [self.cfg] was read are gone
    from the file.  ([_save_comment_history] itself reads the file anew and
    keeps the team.) *)
Theorem configure_assignees_writes_back_stale_history (cfg : Settings)
    (d : Disk) (r : string * string) (result : list (string * string)) :
  writable d = true ->
  let after := configure_assignees cfg (Some (r :: result)) d in
  cfg_comment_history (load_settings (snd after)) = cfg_comment_history cfg
  /\ fst after = load_settings (snd after)
  /\ forall app,
       cfg_assignees (load_settings (_save_comment_history app (snd after)))
       = cfg_assignees (fst after).
Proof.
  intros W. cbv zeta.
  unfold configure_assignees, save_assignees_to_settings, save_settings.
  rewrite W. cbn [fst snd]. unfold load_settings at 1 2 3. cbn [content].
  split; [reflexivity|]. split; [reflexivity|]. intros app. reflexivity.
Qed.

(** X21: what a restart reloads.  [_load_comment_history] takes the
    history from the settings file, whole when it holds at most 50 entries
    and its last 50 otherwise: never more than 50, and always the newest.
    After [_save_comment_history] into a settings file that is written,
    that is the last 50 entries of the history that was in memory. *)
Theorem restart_reloads_last_50 (app : App) (d : Disk) :
  comment_history (_load_comment_history d)
  = Py.last_n 50 (cfg_comment_history (load_settings d))
  /\ (List.length (comment_history (_load_comment_history d)) <= 50)%nat
  /\ (writable d = true ->
      _load_comment_history (_save_comment_history app d)
      = mkApp (Py.last_n 50 (comment_history app))).
Proof.
  assert (Load : forall d0,
             comment_history (_load_comment_history d0)
             = Py.last_n 50 (cfg_comment_history (load_settings d0))).
  { intros d0. unfold _load_comment_history. cbn [comment_history].
    destruct (Nat.ltb_spec 50
                (List.length (cfg_comment_history (load_settings d0))))
      as [Lt|Le]; [reflexivity|].
    unfold Py.last_n.
    replace (List.length (cfg_comment_history (load_settings d0)) - 50)%nat
      with 0%nat by lia.
    reflexivity. }
  split; [apply Load|]. split.
  - rewrite Load, last_n_length. lia.
  - intros W.
    assert (E : forall a b : App, comment_history a = comment_history b ->
                                  a = b).
    { intros [a] [b]. cbn. intros ->. reflexivity. }
    apply E. rewrite Load. cbn [comment_history].
    unfold _save_comment_history, save_settings. rewrite W.
    unfold load_settings at 1. cbn [content cfg_comment_history].
    unfold Py.last_n at 1.
    pose proof (last_n_length 50 (comment_history app)) as L.
    replace (List.length (Py.last_n 50 (comment_history app)) - 50)%nat
      with 0%nat by lia.
    reflexivity.
Qed.

Lemma email_of_label_absent (assignees : list (string * string))
    (l : string) :
  (forall p, In p assignees -> label_of (fst p) (snd p) <> l) ->
  email_of_label assignees l = None.
Proof.
  induction assignees as [|[n e] rest IH]; intros H; [reflexivity|].
  cbn [email_of_label].
  destruct (String.eqb_spec (label_of n e) l) as [E|_].
  - exfalso. apply (H (n, e)); [left; reflexivity | exact E].
  - apply IH. intros p Hp. apply H. right. exact Hp.
Qed.

(** X22: the label chosen in the assignee menu gives back the address of
    its entry (none for an entry without address), when no two entries of
    the menu have the same label; a label that is not in the menu gives no
    address; and the label the menu is set to after it is refreshed is that
    of its first entry, "Unassigned / No Change", which gives none. *)
Theorem chosen_label_gives_its_address (assignees : list (string * string))
    (n e : string) :
  NoDup (map (fun p => label_of (fst p) (snd p)) assignees) ->
  In (n, e) assignees ->
  email_of_label assignees (label_of n e) = Py.or_None e
  /\ (forall l, ~ In l (map (fun p => label_of (fst p) (snd p)) assignees) ->
                email_of_label assignees l = None)
  /\ (forall cfg,
        snd (_refresh_assignee_dropdown cfg) = Some "Unassigned / No Change"
        /\ email_of_label (get_assignees_from_settings cfg)
             "Unassigned / No Change" = None).
Proof.
  intros N H. split; [|split].
  - induction assignees as [|[n0 e0] rest IH]; [contradiction|].
    cbn [email_of_label].
    cbn [map fst snd] in N. inversion N as [|? ? Nx N']; subst.
    destruct H as [[= -> ->]|H].
    + rewrite String.eqb_refl. reflexivity.
    + destruct (String.eqb_spec (label_of n0 e0) (label_of n e)) as [E|_].
      * exfalso. apply Nx. rewrite E.
        apply (in_map (fun p => label_of (fst p) (snd p)) rest (n, e) H).
      * apply IH; assumption.
  - intros l Hl. apply email_of_label_absent. intros p Hp E.
    apply Hl. rewrite <- E.
    apply (in_map (fun p => label_of (fst p) (snd p)) assignees p Hp).
  - intros cfg. split; reflexivity.
Qed.

Lemma saved_team_is_read_back_witness :
  writable (mkDisk None true) = true
  /\ AssigneeConfigDialog.save
       [("  Amy ", "amy@example.com "); ("", "nobody@example.com")]
     = Some [("Unassigned / No Change", ""); ("Amy", "amy@example.com")]
  /\ get_assignees_from_settings
       (fst (configure_assignees empty_settings
               (Some [("Unassigned / No Change", "");
                      ("Amy", "amy@example.com")])
               (mkDisk None true)))
     = [("Unassigned / No Change", ""); ("Amy", "amy@example.com")].
Proof.
  split; [reflexivity|]. split; [reflexivity|].
  exact (proj1 (saved_team_is_read_back empty_settings (mkDisk None true)
                  [("  Amy ", "amy@example.com ");
                   ("", "nobody@example.com")]
                  [("Unassigned / No Change", "");
                   ("Amy", "amy@example.com")]
                  eq_refl eq_refl)).
Defined.

(** A session: the settings are read, a comment is added to the history
    and saved, then the team is saved; the comment is gone from the
    file. *)
Lemma configure_assignees_writes_back_stale_history_witness :
  writable
    (snd (_add_to_comment_history "2026-01-01 00:00:00"
            "Closing as duplicate"
            (mkApp [], mkDisk (Some two_assignees) true)))
  = true
  /\ cfg_comment_history
       (load_settings
          (snd (_add_to_comment_history "2026-01-01 00:00:00"
                  "Closing as duplicate"
                  (mkApp [], mkDisk (Some two_assignees) true))))
     = [mkEntry "2026-01-01 00:00:00" "Closing as duplicate"]
  /\ cfg_comment_history
       (load_settings
          (snd (configure_assignees two_assignees
                  (Some [("Unassigned / No Change", "");
                         ("Amy", "amy@example.com")])
                  (snd (_add_to_comment_history "2026-01-01 00:00:00"
                          "Closing as duplicate"
                          (mkApp [], mkDisk (Some two_assignees) true))))))
     = [].
Proof.
  split; [reflexivity|]. split; [reflexivity|].
  exact (proj1 (configure_assignees_writes_back_stale_history two_assignees
                  (snd (_add_to_comment_history "2026-01-01 00:00:00"
                          "Closing as duplicate"
                          (mkApp [], mkDisk (Some two_assignees) true)))
                  ("Unassigned / No Change", "")
                  [("Amy", "amy@example.com")] eq_refl)).
Defined.

Lemma chosen_label_gives_its_address_witness :
  NoDup (map (fun p => label_of (fst p) (snd p))
           (get_assignees_from_settings two_assignees))
  /\ In ("Bob", "bob@example.com")
       (get_assignees_from_settings two_assignees)
  /\ email_of_label (get_assignees_from_settings two_assignees)
       "Bob <bob@example.com>"
     = Some "bob@example.com".
Proof.
  assert (N : NoDup (map (fun p => label_of (fst p) (snd p))
                       (get_assignees_from_settings two_assignees))).
  { vm_compute.
    repeat (constructor; [cbn; intuition discriminate|]). constructor. }
  assert (I : In ("Bob", "bob@example.com")
                (get_assignees_from_settings two_assignees)).
  { vm_compute. auto. }
  split; [exact N|]. split; [exact I|].
  exact (proj1 (chosen_label_gives_its_address
                  (get_assignees_from_settings two_assignees)
                  "Bob" "bob@example.com" N I)).
Defined.

(** ** Test comment *)

Lemma strip_truthy_fixed (s : string) :
  Py.truthy (Py.strip (Py.or_ (Py.strip s)
                         "Test comment from Troubleshoot button")) = true
  /\ Py.strip (Py.or_ (Py.strip s) "Test comment from Troubleshoot button")
     = Py.or_ (Py.strip s) "Test comment from Troubleshoot button".
Proof.
  unfold Py.or_. destruct (Py.truthy (Py.strip s)) eqn:T.
  - rewrite strip_idempotent. auto.
  - split; reflexivity.
Qed.

Section TestCommentFacts.

Variable srv : Server.
Variable ep : Endpoints.

(** X23: the test comment.  With a row selected, [test_comment_popup]
    never raises, and "Send" then issues exactly one [POST], whatever the
    row: its text is the content of the comment box without the whitespace
    around it, or the stock text when the box is blank, and never empty;
    its target is the row's name when it has one, else the name looked up
    for its id, else, when the lookup failed, the text shown in place of
    the name, and the empty string for a row with neither name nor id.
    The text is added to the comment history, once, exactly when the
    [POST] was answered 200 or 201. *)
Theorem test_comment_is_always_posted (comment_box now : string)
    (rec : Investigation) (rest : list Investigation) (env : Env srv)
    (st : App * Disk) :
  let rrn := Py.or_str (get (rrn rec)) "" in
  let inv_id := Py.or_str (get (id rec)) "" in
  let c := test_text comment_box in
  exists t env1,
    test_comment_popup srv comment_box (rec :: rest) env
    = (Returned (Some (t, c)), env1)
    /\ Py.truthy c = true
    /\ t = (if Py.truthy rrn then rrn
            else if Py.truthy inv_id then
              match fst (get_rrn srv inv_id env) with
              | Returned r => r
              | Raised _ => "(could not resolve RRN from ID)"
              end
            else "")
    /\ exists code,
         sent (fst (send_now srv ep now t c env1 st))
         = sent env1 ++ [(POST_comment t c, code)]
         /\ snd (send_now srv ep now t c env1 st)
            = (if match code with
                  | Some z => ((z =? 200) || (z =? 201))%Z
                  | None => false
                  end
               then (mkApp (comment_history (fst st) ++ [mkEntry now c]),
                     _save_comment_history
                       (mkApp (comment_history (fst st) ++ [mkEntry now c]))
                       (snd st))
               else st).
Proof.
  cbv zeta. destruct (strip_truthy_fixed comment_box) as [Tc Sc].
  fold (test_text comment_box) in Tc, Sc.
  assert (T : Py.truthy (test_text comment_box) = true).
  { destruct (test_text comment_box); [discriminate Tc | reflexivity]. }
  assert (Send : forall t env1,
             exists code,
               sent (fst (send_now srv ep now t (test_text comment_box)
                            env1 st))
               = sent env1 ++ [(POST_comment t (test_text comment_box), code)]
               /\ snd (send_now srv ep now t (test_text comment_box) env1 st)
                  = (if match code with
                        | Some z => ((z =? 200) || (z =? 201))%Z
                        | None => false
                        end
                     then (mkApp (comment_history (fst st)
                                  ++ [mkEntry now (test_text comment_box)]),
                           _save_comment_history
                             (mkApp (comment_history (fst st)
                                     ++ [mkEntry now (test_text comment_box)]))
                             (snd st))
                     else st)).
  { intros t env1. unfold send_now, create_comment_v1. rewrite T.
    unfold bind, request.
    destruct (serve srv (POST_comment t (test_text comment_box))
                (world env1)) as [[ex|r] w].
    - exists None. split; reflexivity.
    - cbn [body_of] in *. exists (Some (status_code r)).
      cbn [ret fst snd ok sent]. split; [reflexivity|].
      destruct ((status_code r =? 200) || (status_code r =? 201))%Z;
        [|reflexivity].
      unfold _add_to_comment_history. destruct st as [app d].
      rewrite T, Tc, Sc. reflexivity. }
  unfold test_comment_popup, bind. fold (test_text comment_box).
  destruct (Py.truthy (Py.or_str (get (rrn rec)) "")) eqn:Tr; cbn [negb andb].
  { eexists. eexists. split; [reflexivity|]. split; [exact T|].
    split; [reflexivity | apply Send]. }
  destruct (Py.truthy (Py.or_str (get (id rec)) "")) eqn:Ti.
  - destruct (get_rrn srv (Py.or_str (get (id rec)) "") env)
      as [[r|ex] env1]; cbn [fst];
      (eexists; eexists; split; [reflexivity|]; split; [exact T|];
       split; [reflexivity | apply Send]).
  - eexists. eexists. split; [reflexivity|]. split; [exact T|].
    split; [|apply Send].
    apply truthy_false_iff in Tr. exact Tr.
Qed.

End TestCommentFacts.

(** What [test_comment_popup] and "Send" do for a row whose name cannot be
    looked up, and for a row with neither name nor id. *)
Lemma test_comment_without_target :
  fst (test_comment_popup lookup_fails "" [nameless_row]
         (start lookup_fails tt))
  = Returned (Some ("(could not resolve RRN from ID)",
                    "Test comment from Troubleshoot button"))
  /\ sent (fst (send_now lookup_fails us "2026-01-01 00:00:00"
                  "(could not resolve RRN from ID)"
                  "Test comment from Troubleshoot button"
                  (start lookup_fails tt) (mkApp [], mkDisk None true)))
     = [(POST_comment "(could not resolve RRN from ID)"
           "Test comment from Troubleshoot button", Some 201%Z)]
  /\ fst (test_comment_popup lookup_fails "" [anonymous_row]
            (start lookup_fails tt))
     = Returned (Some ("", "Test comment from Troubleshoot button")).
Proof. repeat split. Qed.

(** ** The comment history over a session *)

Lemma strip_truthy (c : string) :
  Py.truthy (Py.strip c) = true -> Py.truthy c = true.
Proof. destruct c; [discriminate | reflexivity]. Qed.

Lemma save_comment_history_team (app : App) (d : Disk) :
  writable d = true ->
  cfg_assignees (load_settings (_save_comment_history app d))
  = cfg_assignees (load_settings d).
Proof.
  intros W. unfold _save_comment_history, save_settings. rewrite W.
  reflexivity.
Qed.

Lemma save_comment_history_writable (app : App) (d : Disk) :
  writable (_save_comment_history app d) = writable d.
Proof.
  unfold _save_comment_history, save_settings.
  destruct (writable d) eqn:W; [reflexivity | exact W].
Qed.

(** X24: the comment history over a session, for any comments.  A comment
    that is blank adds nothing; every other one adds one entry, its text
    without the whitespace around it, at the end of the history in memory,
    which is never cut.  With a settings file that is written: once a
    comment has been added the file holds the last 50 entries of the
    history in memory, and the team in the file stays as it was. *)
Theorem session_history_is_not_capped (clock : nat -> string) (k : nat)
    (cs : list string) (app : App) (d : Disk) :
  let st := add_all clock k cs (app, d) in
  List.length (comment_history (fst st))
  = (List.length (comment_history app) + List.length (not_blank cs))%nat
  /\ map text (comment_history (fst st))
     = map text (comment_history app) ++ map Py.strip (not_blank cs)
  /\ (writable d = true -> not_blank cs <> [] ->
      cfg_comment_history (load_settings (snd st))
      = Py.last_n 50 (comment_history (fst st)))
  /\ (writable d = true ->
      cfg_assignees (load_settings (snd st))
      = cfg_assignees (load_settings d)).
Proof.
  cbv zeta. revert k app d.
  assert (Saved : forall cs k app d,
             writable d = true ->
             cfg_comment_history (load_settings d)
             = Py.last_n 50 (comment_history app) ->
             cfg_comment_history
               (load_settings (snd (add_all clock k cs (app, d))))
             = Py.last_n 50
                 (comment_history (fst (add_all clock k cs (app, d))))).
  { clear cs. induction cs as [|c cs IH]; intros k app d W H; [exact H|].
    cbn [add_all]. unfold _add_to_comment_history.
    destruct (negb (Py.truthy c) || negb (Py.truthy (Py.strip c)))%bool;
      [apply IH; assumption|].
    apply IH.
    - rewrite save_comment_history_writable. exact W.
    - unfold _save_comment_history, save_settings. rewrite W. reflexivity. }
  induction cs as [|c cs IH]; intros k app d.
  - cbn [add_all fst snd not_blank filter List.length map].
    rewrite Nat.add_0_r, app_nil_r.
    split; [reflexivity|]. split; [reflexivity|].
    split; [intros _ N; congruence | reflexivity].
  - cbn [add_all]. unfold _add_to_comment_history.
    unfold not_blank. cbn [filter]. fold (not_blank cs).
    destruct (Py.truthy (Py.strip c)) eqn:T.
    + rewrite (strip_truthy c T). cbn [negb orb].
      set (app' := mkApp (comment_history app ++ [mkEntry (clock k)
                                                    (Py.strip c)])).
      destruct (IH (S k) app' (_save_comment_history app' d))
        as (L & X & _ & A).
      rewrite L, X. unfold app'. cbn [comment_history].
      rewrite length_app, map_app, <- app_assoc.
      cbn [List.length map text List.app].
      split; [lia|]. split; [reflexivity|]. split.
      * intros W _. apply Saved.
        -- rewrite save_comment_history_writable. exact W.
        -- unfold _save_comment_history, save_settings. rewrite W.
           reflexivity.
      * intros W. fold app'. rewrite A.
        -- apply save_comment_history_team. exact W.
        -- rewrite save_comment_history_writable. exact W.
    + rewrite orb_true_r. apply IH.
Qed.

(** ** Refresh, end to end *)

Section RefreshFacts.

Variable fromisoformat : string -> option datetime.

(** X25: a refresh against a paged list endpoint.  With pages of any size
    [page_size > 0] and turns enough, the fetch ends and the rows of the
    application are the items the endpoint holds.  When the list is then
    rebuilt, it shows those of them that pass the filter in force, none is
    selected and "Select All" is unticked; when the rebuild fails (creation
    times of two kinds), the list on display is left empty. *)
Theorem refresh_shows_the_items (page_size : nat)
    (items : list Investigation) (fuel : nat) (st : Listing.state) :
  (0 < page_size)%nat ->
  (Nat.max 1 (List.length (chunk page_size items)) <= fuel)%nat ->
  exists env' out st1,
    refresh_async (fake_server page_size items) fromisoformat fuel
      (start (fake_server page_size items) tt) st
    = Some (env', (out, st1))
    /\ Listing.rows st1 = items
    /\ match out with
       | Returned _ =>
           exists shown,
             view_of fromisoformat st1 = Returned shown
             /\ Permutation
                  (_apply_assignee_filter (Listing.assignee_filter_var st1)
                     items) shown
             /\ _selected_rows fromisoformat st1 = Returned []
             /\ Listing.select_all_var st1 = false
       | Raised _ => Listing.row_vars st1 = []
       end.
Proof.
  intros Hp F.
  destruct (chunk_from_spec page_size Hp (List.length items) items (le_n _))
    as (C & N & _).
  fold (chunk page_size items) in C, N.
  unfold refresh_async, fake_server.
  rewrite (list_investigations_paged (chunk page_size items) fuel _ N F).
  rewrite C.
  destruct (_refresh_complete fromisoformat items st) as [out st1] eqn:R.
  eexists. exists out, st1. split; [reflexivity|].
  destruct out as [[]|e].
  - destruct (refresh_keeps_a_valid_filter_facts fromisoformat items st st1 R)
      as (Rw & Sel & Box & shown & V).
    split; [exact Rw|]. exists shown. split; [exact V|].
    split; [|split; assumption].
    rewrite <- Rw.
    apply (view_is_stable_sort_kept fromisoformat _ _ _ _ V).
  - unfold _refresh_complete in R. rewrite rebuild_list_spec in R.
    destruct (view_of fromisoformat _) as [shown|e'];
      [discriminate R|].
    injection R as _ <-.
    split; [destruct (negb _)|]; reflexivity.
Qed.

End RefreshFacts.

Lemma refresh_shows_the_items_witness :
  (0 < 2)%nat
  /\ (Nat.max 1 (List.length (chunk 2 three_rows)) <= 2)%nat
  /\ exists env' out st1,
       refresh_async (fake_server 2 three_rows) Iso.fromisoformat 2
         (start (fake_server 2 three_rows) tt) stale_list
       = Some (env', (out, st1))
       /\ Listing.rows st1 = three_rows
       /\ match out with
          | Returned _ =>
              exists shown,
                view_of Iso.fromisoformat st1 = Returned shown
                /\ Permutation
                     (_apply_assignee_filter
                        (Listing.assignee_filter_var st1) three_rows) shown
                /\ _selected_rows Iso.fromisoformat st1 = Returned []
                /\ Listing.select_all_var st1 = false
          | Raised _ => Listing.row_vars st1 = []
          end.
Proof.
  assert (P : (0 < 2)%nat) by lia.
  assert (F : (Nat.max 1 (List.length (chunk 2 three_rows)) <= 2)%nat)
    by (vm_compute; lia).
  split; [exact P|]. split; [exact F|].
  exact (refresh_shows_the_items Iso.fromisoformat 2 three_rows 2 stale_list
           P F).
Defined.

(** ** Bulk update: the run that nothing refuses *)

Section Accepted.

Variable srv : Server.
Variable ep : Endpoints.

(** Every request is answered with 200. *)
Hypothesis accepts :
  forall (q : Request) (w : World srv),
  exists (r : Response (body_of q)) (w' : World srv),
    serve srv q w = (Responds r, w') /\ status_code r = 200%Z.

Lemma returns_after_ret {A} (a : A) : returns_after (ret srv a) [].
Proof.
  intros env. exists a, env. split; [reflexivity|].
  symmetry. apply app_nil_r.
Qed.

Lemma returns_after_bind {A B} (m : M srv A) (k : A -> M srv B)
    (c1 c2 : list Call) :
  returns_after m c1 -> (forall a, returns_after (k a) c2) ->
  returns_after (bind srv m k) (c1 ++ c2).
Proof.
  intros Hm Hk env. unfold bind.
  destruct (Hm env) as (a & env1 & E1 & S1). rewrite E1.
  destruct (Hk a env1) as (b & env2 & E2 & S2).
  exists b, env2. split; [exact E2|]. rewrite S2, S1.
  symmetry. apply app_assoc.
Qed.

Lemma request_accepted (q : Request) (env : Env srv) :
  exists r env',
    request srv q env = (Returned r, env')
    /\ status_code r = 200%Z
    /\ sent env' = sent env ++ [(q, Some 200%Z)].
Proof.
  unfold request. destruct (accepts q (world env)) as (r & w & E & C).
  rewrite E. eexists. eexists. split; [reflexivity|].
  split; [exact C|]. cbn [sent]. rewrite C. reflexivity.
Qed.

Lemma checked_request_accepted (q : Request) :
  returns_after (bind srv (request srv q) (fun r => raise_for_status srv r))
    [(q, Some 200%Z)].
Proof.
  intros env. unfold bind.
  destruct (request_accepted q env) as (r & env1 & E & C & S). rewrite E.
  pose proof (raise_for_status_spec srv r env1) as R.
  unfold is_error in R. rewrite C in R. cbn in R.
  exists tt, env1. split; [exact R | exact S].
Qed.

Lemma assign_user_accepted (k e : string) :
  returns_after (assign_user srv k e) [(PATCH_assignee k e, Some 200%Z)].
Proof.
  intros env. unfold assign_user, bind.
  destruct (request_accepted (PATCH_assignee k e) env)
    as (r & env1 & E & C & S).
  rewrite E. cbn [body_of] in *. rewrite C. cbn.
  exists tt, env1. split; [reflexivity | exact S].
Qed.

Lemma comment_step_accepted (idx : nat) (results : Results)
    (inv_rrn inv_id c : string) :
  Py.truthy inv_rrn = true -> Py.truthy c = true ->
  returns_after (comment_step srv ep idx results inv_rrn inv_id c)
    [(POST_comment inv_rrn c, Some 200%Z)].
Proof.
  intros Tr Tc env. unfold comment_step, create_comment_v1.
  rewrite Tr, Tc. unfold bind at 1. cbn [ret]. unfold bind.
  destruct (request_accepted (POST_comment inv_rrn c) env)
    as (r & env1 & E & C & S).
  rewrite E. cbn [body_of ret ok negb] in *. rewrite C. cbn [Z.eqb orb negb].
  change ((200 =? 200)%Z) with true. cbn [orb negb].
  destruct (_ && _)%bool.
  - eexists. eexists. split; [reflexivity|]. cbn [after sent]. exact S.
  - exists tt, env1. split; [reflexivity | exact S].
Qed.

Lemma try_body_accepted (spec : MutationSpec) (idx : nat)
    (rec : Investigation) (results : Results) :
  Py.truthy (Py.or_str (get (rrn rec)) "") = true ->
  returns_after (try_body srv ep spec idx rec results)
    (map (fun q => (q, Some 200%Z)) (requests_for spec rec)).
Proof.
  intros Tr. unfold try_body, requests_for. rewrite !map_app.
  apply returns_after_bind; [|intros _].
  { unfold if_set. destruct (Py.truthy (chosen_status spec));
      [apply checked_request_accepted | apply returns_after_ret]. }
  apply returns_after_bind; [|intros _].
  { unfold if_set. destruct (chosen_dispo spec) as [d|];
      [|apply returns_after_ret].
    destruct (Py.truthy d);
      [apply checked_request_accepted | apply returns_after_ret]. }
  apply returns_after_bind; [|intros _].
  { unfold if_set. destruct (chosen_email spec) as [e|];
      [|apply returns_after_ret].
    destruct (Py.truthy e);
      [apply assign_user_accepted | apply returns_after_ret]. }
  unfold if_set. destruct (comment spec) as [c|];
    [|apply returns_after_ret].
  destruct (Py.truthy c) eqn:Tc; [|apply returns_after_ret].
  apply comment_step_accepted; assumption.
Qed.

Lemma worker_loop_accepted (spec : MutationSpec) (total : nat)
    (rows : list Investigation) :
  Forall (fun rec => Py.truthy (Py.or_str (get (rrn rec)) "") = true) rows ->
  forall idx st,
    let st' := worker_loop srv ep spec total idx rows st in
    successes (fst st') = (successes (fst st) + List.length rows)%nat
    /\ fails (fst st') = fails (fst st)
    /\ sent (snd st')
       = sent (snd st)
         ++ flat_map
              (fun rec => map (fun q => (q, Some 200%Z))
                            (requests_for spec rec))
              rows.
Proof.
  induction 1 as [|rec rows Tr F IH]; intros idx [results env]; cbv zeta.
  - cbn. rewrite Nat.add_0_r, app_nil_r. auto.
  - cbn [worker_loop].
    destruct (try_body_accepted spec idx rec results Tr
                (snd (after srv
                        (update_detail idx total (get_default (title rec) ""))
                        env)))
      as (u & env1 & E & Sent).
    assert (T : worker_turn srv ep spec total idx rec (results, env)
                = (mkResults (S (successes results)) (fails results),
                   snd (after srv
                          (log_updated idx total
                             (get_default (title rec) "")) env1))).
    { unfold worker_turn. cbv zeta. rewrite E. reflexivity. }
    rewrite T.
    destruct (IH (S idx)
                (mkResults (S (successes results)) (fails results),
                 snd (after srv
                        (log_updated idx total (get_default (title rec) ""))
                        env1)))
      as (I1 & I2 & I3).
    rewrite I1, I2, I3.
    cbn [fst snd successes fails after sent flat_map List.length] in *.
    rewrite Sent, <- app_assoc. repeat split. lia.
Qed.

(** X26: the run that nothing refuses.  Against a server that answers every
    request with 200, a run over records that all carry a name reports
    every record as updated and none as failed, and it issues, record by
    record in the order of the selection, one request for each field of
    the form that is not empty and nothing else: the status, the
    disposition, the [PATCH] of the assignee (never the [PUT]), and the
    comment, posted to the record's own name (never a [GET]). *)
Theorem accepted_run_sends_what_was_asked (spec : MutationSpec)
    (rows : list Investigation) (env : Env srv) :
  Forall (fun rec => Py.truthy (Py.or_str (get (rrn rec)) "") = true) rows ->
  let run := worker srv ep spec rows env in
  successes (fst run) = List.length rows
  /\ fails (fst run) = []
  /\ sent (snd run)
     = sent env
       ++ flat_map
            (fun rec => map (fun q => (q, Some 200%Z))
                          (requests_for spec rec))
            rows.
Proof.
  intros F. cbv zeta. unfold worker.
  pose proof (worker_loop_accepted spec (List.length rows) rows F 1
                (mkResults 0 [], env)) as H.
  cbv zeta in H.
  destruct (worker_loop srv ep spec (List.length rows) 1 rows
              (mkResults 0 [], env)) as [results env'].
  exact H.
Qed.

End Accepted.

Lemma accepted_run_sends_what_was_asked_witness :
  (forall (q : Request) (w : World (status_server (fun _ => 200%Z))),
   exists (r : Response (body_of q))
          (w' : World (status_server (fun _ => 200%Z))),
     serve (status_server (fun _ => 200%Z)) q w = (Responds r, w')
     /\ status_code r = 200%Z)
  /\ Forall (fun rec => Py.truthy (Py.or_str (get (rrn rec)) "") = true)
       [first_row; second_row]
  /\ successes
       (fst (worker (status_server (fun _ => 200%Z)) us full_spec
               [first_row; second_row]
               (start (status_server (fun _ => 200%Z)) tt)))
     = 2%nat
  /\ sent
       (snd (worker (status_server (fun _ => 200%Z)) us full_spec
               [first_row; second_row]
               (start (status_server (fun _ => 200%Z)) tt)))
     = [(PUT_status "1" "CLOSED", Some 200%Z);
        (PUT_disposition "1" "BENIGN", Some 200%Z);
        (PATCH_assignee "1" "amy@example.com", Some 200%Z);
        (POST_comment "rrn:1" "Closing as duplicate", Some 200%Z);
        (PUT_status "2" "CLOSED", Some 200%Z);
        (PUT_disposition "2" "BENIGN", Some 200%Z);
        (PATCH_assignee "2" "amy@example.com", Some 200%Z);
        (POST_comment "rrn:2" "Closing as duplicate", Some 200%Z)].
Proof.
  assert (A : forall (q : Request)
                     (w : World (status_server (fun _ => 200%Z))),
             exists (r : Response (body_of q))
                    (w' : World (status_server (fun _ => 200%Z))),
               serve (status_server (fun _ => 200%Z)) q w = (Responds r, w')
               /\ status_code r = 200%Z).
  { intros q w. eexists. eexists. split; reflexivity. }
  assert (F : Forall (fun rec =>
                        Py.truthy (Py.or_str (get (rrn rec)) "") = true)
                [first_row; second_row])
    by (repeat constructor).
  split; [exact A|]. split; [exact F|].
  destruct (accepted_run_sends_what_was_asked
              (status_server (fun _ => 200%Z)) us A full_spec
              [first_row; second_row]
              (start (status_server (fun _ => 200%Z)) tt) F)
    as (S1 & _ & S3).
  split; [exact S1 | exact S3].
Defined.

Lemma restart_reloads_last_50_witness :
  writable (mkDisk (Some two_assignees) true) = true
  /\ _load_comment_history
       (_save_comment_history
          (mkApp (map (fun k => mkEntry (tick k) "Closing as duplicate")
                    (seq 0 51)))
          (mkDisk (Some two_assignees) true))
     = mkApp (Py.last_n 50
                (map (fun k => mkEntry (tick k) "Closing as duplicate")
                   (seq 0 51))).
Proof.
  split; [reflexivity|].
  exact (proj2 (proj2 (restart_reloads_last_50
                         (mkApp (map (fun k =>
                                        mkEntry (tick k)
                                          "Closing as duplicate")
                                   (seq 0 51)))
                         (mkDisk (Some two_assignees) true)))
           eq_refl).
Defined.

Lemma session_history_is_not_capped_witness :
  writable (mkDisk (Some two_assignees) true) = true
  /\ not_blank ["  first  "; "   "; "second"] <> []
  /\ map text
       (comment_history
          (fst (add_all tick 0 ["  first  "; "   "; "second"]
                  (mkApp [], mkDisk (Some two_assignees) true))))
     = ["first"; "second"]
  /\ cfg_assignees
       (load_settings
          (snd (add_all tick 0 ["  first  "; "   "; "second"]
                  (mkApp [], mkDisk (Some two_assignees) true))))
     = cfg_assignees two_assignees.
Proof.
  split; [reflexivity|]. split; [discriminate|].
  destruct (session_history_is_not_capped tick 0
              ["  first  "; "   "; "second"] (mkApp [])
              (mkDisk (Some two_assignees) true))
    as (_ & X & _ & A).
  split; [exact X | exact (A eq_refl)].
Defined.
